(** * forcingprocessor: a shallow embedding of the NWM-to-catchment pipeline

    The development follows [forcingprocessor.py]: the work partitioner
    ([distribute_work], [load_balance]), the grid decoder and projector
    ([forcing_grid2catchment]), the emitter ([write_data],
    [multiprocess_write]), the crosswalk loader and the chunked time loop
    of [prep_ngen_data].

    Conventions.
    - Python [int] is [Z]; list positions and lengths are [nat].
    - Python [float] and numpy [float32] values are idealised as exact
      rationals [Q]; rounding is not modelled.
    - A Python exception is a [Raise] outcome; the one unbounded [while]
      loop takes fuel and reports [OutOfFuel] when it is exhausted.
    - A Python [dict] whose iteration order matters is an insertion-ordered
      association list; the file system and the object store are [gmap]s. *)

From Stdlib Require Import ZArith QArith Lia Ascii String.
From stdpp Require Import base list strings pretty gmap.

Local Open Scope Z_scope.

(* ===================================================================== *)
(** * Outcomes of Python code                                             *)
(* ===================================================================== *)

Inductive exn : Set :=
  | IndexError
  | KeyError
  | ValueError
  | ZeroDivisionError
  | AssertionError
  | AttributeError
  | NameError
  | UnboundLocalError
  | FileNotFoundError.

Inductive result (A : Type) : Type :=
  | Ok (a : A)
  | Raise (e : exn)
  | OutOfFuel.

Arguments Ok {A} a.
Arguments Raise {A} e.
Arguments OutOfFuel {A}.

#[global] Instance result_ret : MRet result := λ A a, Ok a.
#[global] Instance result_bind : MBind result := λ A B f r,
  match r with
  | Ok a => f a
  | Raise e => Raise e
  | OutOfFuel => OutOfFuel
  end.

#[global] Instance result_fmap : FMap result := λ A B f r,
  match r with
  | Ok a => Ok (f a)
  | Raise e => Raise e
  | OutOfFuel => OutOfFuel
  end.

(** [l[k]] for a position inside the list; [IndexError] past its end. *)
Definition py_get {A} (l : list A) (k : nat) : result A :=
  match l !! k with
  | Some x => Ok x
  | None => Raise IndexError
  end.

(** [l[start:end]] for signed bounds; a negative bound counts from the
    end of the list. *)
Definition py_bound {A} (l : list A) (i : Z) : nat :=
  let n := Z.of_nat (length l) in
  Z.to_nat (if i <? 0 then 0 `max` (i + n) else i `min` n).

Definition py_slice {A} (start end_ : Z) (l : list A) : list A :=
  let a := py_bound l start in
  let b := py_bound l end_ in
  take (b - a) (drop a l).

(** [assert b] *)
Definition py_assert (b : bool) : result unit :=
  if b then Ok tt else Raise AssertionError.

(** [np.sum] of a list of integers. *)
Definition np_sum (l : list Z) : Z := foldr Z.add 0 l.

(** [len(np.nonzero(l)[0])] *)
Definition count_nonzero (l : list Z) : nat :=
  length (filter (λ x, x ≠ 0) l).

(** [max(l)] and [min(l)] on integers; [ValueError] on an empty list. *)
Definition py_max_Z (l : list Z) : result Z :=
  match l with
  | [] => Raise ValueError
  | x :: l' => Ok (foldl Z.max x l')
  end.

Definition py_min_Z (l : list Z) : result Z :=
  match l with
  | [] => Raise ValueError
  | x :: l' => Ok (foldl Z.min x l')
  end.

(* ===================================================================== *)
(** * Partitioner and balancer                                            *)
(* ===================================================================== *)

(** The body of [for j in range(len(items))]: [k = j % nprocs] and
    [items_per_proc[k] = items_per_proc[k] + 1]. *)
Fixpoint distribute_loop (js : list nat) (nprocs : nat)
    (items_per_proc : list Z) : result (list Z) :=
  match js with
  | [] => Ok items_per_proc
  | j :: js' =>
      if (nprocs =? 0)%nat then Raise ZeroDivisionError
      else
        let k := (j mod nprocs)%nat in
        v ← py_get items_per_proc k;
        distribute_loop js' nprocs (<[k := v + 1]> items_per_proc)
  end.

(** [distribute_work]: round robin, one item at a time. *)
Definition distribute_work {A} (items : list A) (nprocs : nat)
    : result (list Z) :=
  let items_per_proc := replicate nprocs 0 in
  items_per_proc ← distribute_loop (seq 0 (length items)) nprocs items_per_proc;
  _ ← py_assert (Z.of_nat (length items) =? np_sum items_per_proc);
  Ok items_per_proc.

(** [max(l)], [min(l)] and [l.index(x)] on projected times. *)
Definition py_max_Q (l : list Q) : result Q :=
  match l with
  | [] => Raise ValueError
  | x :: l' => Ok (foldl (λ m y, if Qle_bool y m then m else y) x l')
  end.

Definition py_min_Q (l : list Q) : result Q :=
  match l with
  | [] => Raise ValueError
  | x :: l' => Ok (foldl (λ m y, if Qle_bool m y then m else y) x l')
  end.

Fixpoint py_index_Q (x : Q) (l : list Q) : result nat :=
  match l with
  | [] => Raise ValueError
  | y :: l' => if Qeq_bool y x then Ok 0%nat else S <$> py_index_Q x l'
  end.


(** [[single_ex * x / exec_count + launch_delay*j for j, x in enumerate(...)]] *)
Definition completion_times (launch_delay single_ex exec_count : Q)
    (items_per_proc : list Z) : result (list Q) :=
  match items_per_proc with
  | [] => Ok []
  | _ =>
      if Qeq_bool exec_count 0 then Raise ZeroDivisionError
      else Ok (imap (λ j x, single_ex * inject_Z x / exec_count
                            + launch_delay * inject_Z (Z.of_nat j))%Q
                    items_per_proc)
  end.

(** One pass of the loop below its guard: the share vector after an
    item has gone from the worker that ends last to the one that ends
    first, or [None] for [break] when their times are within [single_ex]. *)
Definition rebalance_step (single_ex : Q) (items_per_proc : list Z)
    (completion_time : list Q) : result (option (list Z)) :=
  max_time ← py_max_Q completion_time;
  max_loc ← py_index_Q max_time completion_time;
  min_time ← py_min_Q completion_time;
  min_loc ← py_index_Q min_time completion_time;
  if Qle_bool (max_time - min_time) single_ex then Ok None
  else
    a ← py_get items_per_proc max_loc;
    let items1 := <[max_loc := a - 1]> items_per_proc in
    b ← py_get items1 min_loc;
    Ok (Some (<[min_loc := b + 1]> items1)).

(** The [while True] loop of [load_balance]. *)
Fixpoint balance_loop (fuel : nat) (launch_delay single_ex exec_count : Q)
    (items_per_proc : list Z) (completion_time : list Q) : result (list Z) :=
  match fuel with
  | O => OutOfFuel
  | S fuel' =>
      if (0 <? count_nonzero items_per_proc)%nat then Ok items_per_proc
      else
        moved ← rebalance_step single_ex items_per_proc completion_time;
        match moved with
        | None => Ok items_per_proc
        | Some items_per_proc =>
            completion_time ← completion_times launch_delay single_ex
                                exec_count items_per_proc;
            balance_loop fuel' launch_delay single_ex exec_count
              items_per_proc completion_time
        end
  end.

(** [load_balance].  The list of times recomputed after the loop is only
    cut to length, never read, and the prints are left out; the global
    [ntasked] is the number of nonzero shares computed here. *)
Definition load_balance (fuel : nat) (items_per_proc : list Z)
    (launch_delay single_ex exec_count : Q) : result (list Z) :=
  let nprocs := length items_per_proc in
  let nitems := np_sum items_per_proc in
  completion_time ← completion_times launch_delay single_ex exec_count items_per_proc;
  items_per_proc ← balance_loop fuel launch_delay single_ex exec_count
                     items_per_proc completion_time;
  let ntasked := count_nonzero items_per_proc in
  let items_per_proc :=
    if (ntasked <? nprocs)%nat then take ntasked items_per_proc
    else items_per_proc in
  _ ← py_assert (nitems =? np_sum items_per_proc);
  Ok items_per_proc.

(* ===================================================================== *)
(** * Python string operations                                            *)
(* ===================================================================== *)

(** [s.split(sep)] for a one-character separator. *)
Fixpoint py_split (sep : ascii) (s : string) : list string :=
  match s with
  | EmptyString => [EmptyString]
  | String a s' =>
      if Ascii.eqb a sep then EmptyString :: py_split sep s'
      else match py_split sep s' with
           | w :: ws => String a w :: ws
           | [] => [String a EmptyString]
           end
  end.

(** [sub in s], also [s.find(sub) >= 0]. *)
Fixpoint py_in (sub s : string) : bool :=
  if String.prefix sub s then true
  else match s with
       | EmptyString => false
       | String _ s' => py_in sub s'
       end.

(** [s[n:]] and [s[:n]] for [n >= 0]. *)
Fixpoint str_drop (n : nat) (s : string) : string :=
  match n, s with
  | O, _ => s
  | S n', String _ s' => str_drop n' s'
  | S _, EmptyString => EmptyString
  end.

Fixpoint str_take (n : nat) (s : string) : string :=
  match n, s with
  | S n', String a s' => String a (str_take n' s')
  | _, _ => EmptyString
  end.

(** [s[:-n]] for [n > 0]: everything but the last [n] characters. *)
Definition str_drop_last (n : nat) (s : string) : string :=
  str_take (String.length s - n) s.

(** The loop [for jlay in layers: bucket_key += "/" + jlay]. *)
Fixpoint join_layers (layers : list string) : string :=
  match layers with
  | [] => EmptyString
  | jlay :: layers' => "/" +:+ jlay +:+ join_layers layers'
  end.

(** The text after ["VPU_"] when [s] starts with it. *)
Definition strip_VPU (s : string) : option string :=
  if String.prefix "VPU_" s then Some (str_drop 4 s) else None.

(** The longest run of characters other than ['/'] at the head of [s]:
    what [[^/]+] consumes, empty when it cannot match. *)
Fixpoint upto_slash (s : string) : string :=
  match s with
  | EmptyString => EmptyString
  | String a s' => if Ascii.eqb a "/" then EmptyString else String a (upto_slash s')
  end.

(** [re.search(r'VPU_([^/]+)', s)]: group 1 of the leftmost match. *)
Fixpoint search_VPU (s : string) : option string :=
  let here :=
    match strip_VPU s with
    | Some rest =>
        match upto_slash rest with
        | EmptyString => None
        | g => Some g
        end
    | None => None
    end in
  match here with
  | Some g => Some g
  | None => match s with
            | EmptyString => None
            | String _ s' => search_VPU s'
            end
  end.

(* ===================================================================== *)
(** * The world outside the process                                       *)
(* ===================================================================== *)

(** [storage_type] is one of ['s3'], ['google'], ['local']; [fs_type] is
    ['s3'], ['google'] or [None]. *)
Inductive storage : Set := S3 | Google | Local.

#[global] Instance storage_eq_dec : EqDecision storage.
Proof. solve_decision. Defined.

(** What a file system argument [fs] can be: the [s3fs.S3FileSystem]
    built by [prep_ngen_data], the string ["google"] it passes on for GCS,
    or the [gcsfs.GCSFileSystem] a worker builds for itself. *)
Inductive fs_handle : Set := S3FileSystem | GoogleTag | GCSFileSystem.

(** How one input file is opened: [fs.open(key, mode='rb')],
    [requests.get(url)], or the path handed to xarray as it is. *)
Inductive file_obj : Set :=
  | FsOpen (fs : fs_handle) (bucket_key : string)
  | HttpGet (url : string)
  | LocalPath (path : string).

(** One output row: the time stamp and the values of the output
    variables.  A table stands for a data frame under the header
    [time, ngen_variables...]; csv and parquet files are taken to hold
    the table they were written from. *)
Abbreviation row := (string * list Q)%type (only parsing).
Abbreviation table := (list row) (only parsing).

Record world : Type := World {
  local_files : gmap string table;
  s3_objects : gmap (string * string) table;
  opened : list file_obj
}.

(** Effectful code: it changes the world and returns or raises; what was
    written before an exception stays written. *)
Definition py (A : Type) : Type := world → world * result A.

#[global] Instance py_ret : MRet py := λ A a w, (w, Ok a).
#[global] Instance py_bind : MBind py := λ A B f m w,
  match m w with
  | (w', Ok a) => f a w'
  | (w', Raise e) => (w', Raise e)
  | (w', OutOfFuel) => (w', OutOfFuel)
  end.

Definition lift {A} (r : result A) : py A := λ w, (w, r).

Definition set_local (f : gmap string table → gmap string table) (w : world) : world :=
  World (f (local_files w)) (s3_objects w) (opened w).

Definition set_s3 (f : gmap (string * string) table → gmap (string * string) table)
    (w : world) : world :=
  World (local_files w) (f (s3_objects w)) (opened w).

(** [os.path.exists(path)] *)
Definition path_exists (path : string) : py bool :=
  λ w, (w, Ok (bool_decide (is_Some (local_files w !! path)))).

(** [df.to_csv(path)] / [df.to_parquet(path)] on the local file system. *)
Definition write_local (path : string) (df : table) : py unit :=
  λ w, (set_local (insert path df) w, Ok tt).

(** [pd.read_csv(path)] / [pd.read_parquet(path)] *)
Definition read_local (path : string) : py table :=
  λ w, (w, match local_files w !! path with
           | Some df => Ok df
           | None => Raise FileNotFoundError
           end).

(** [os.remove(path)] *)
Definition remove_local (path : string) : py unit :=
  λ w, match local_files w !! path with
       | Some _ => (set_local (delete path) w, Ok tt)
       | None => (w, Raise FileNotFoundError)
       end.

(** [s3_client.put_object(Bucket, Key, Body)] *)
Definition put_object (bucket key : string) (df : table) : py unit :=
  λ w, (set_s3 (insert (bucket, key) df) w, Ok tt).

(** [s3_client.get_object(Bucket, Key)], read back as a table. *)
Definition get_object (bucket key : string) : py table :=
  λ w, (w, match s3_objects w !! (bucket, key) with
           | Some df => Ok df
           | None => Raise KeyError
           end).

(** Records that an input file is opened through [f]. *)
Definition log_open (f : file_obj) : py unit :=
  λ w, (World (local_files w) (s3_objects w) (opened w ++ [f]), Ok tt).

(** [for x in l: body(x)], collecting what the bodies return. *)
Fixpoint py_mapM {A B} (body : A → py B) (l : list A) : py (list B) :=
  match l with
  | [] => mret []
  | x :: l' => y ← body x; ys ← py_mapM body l'; mret (y :: ys)
  end.

Fixpoint res_mapM {A B} (body : A → result B) (l : list A) : result (list B) :=
  match l with
  | [] => Ok []
  | x :: l' => y ← body x; ys ← res_mapM body l'; Ok (y :: ys)
  end.

(* ===================================================================== *)
(** * Grid decoder and projector                                          *)
(* ===================================================================== *)

Definition nwm_variables : list string :=
  ["U2D"; "V2D"; "LWDOWN"; "RAINRATE"; "RAINRATE"; "T2D"; "Q2D"; "PSFC"; "SWDOWN"].

Definition ngen_variables : list string :=
  ["UGRD_10maboveground"; "VGRD_10maboveground"; "DLWRF_surface";
   "APCP_surface"; "precip_rate"; "TMP_2maboveground";
   "SPFH_2maboveground"; "PRES_surface"; "DSWRF_surface"].

(** An opened NWM file: the grid size, each variable as its squeezed
    [(y, x)] field in row-major order, and the global attributes. *)
Record nwm_dataset : Type := {
  ds_y : nat;
  ds_x : nat;
  ds_vars : gmap string (list Q);
  ds_attrs : gmap string string
}.

(** A crosswalk: catchment identifier to [[cells, weights]], in the
    iteration order of the dictionary. *)
Abbreviation descriptor := (list Z * list Q)%type (only parsing).
Abbreviation crosswalk := (list (string * descriptor)) (only parsing).

(** A [(variable, catchment)] slice and a [(time, variable, catchment)] cube. *)
Abbreviation slice := (list (list Q)) (only parsing).
Abbreviation cube := (list slice) (only parsing).

Definition Qsum (l : list Q) : Q := foldr Qplus 0%Q l.

(** [convert_url2key(nwm_file, fs_type)] *)
Definition convert_url2key (nwm_file : string) (fs_type : option storage)
    : result (string * string) :=
  let _nc_file_parts := py_split "/" nwm_file in
  let layers := drop 3 _nc_file_parts in
  let bucket_key := join_layers layers in
  bucket_key ←
    match fs_type with
    | Some S3 => p ← py_get _nc_file_parts 2; Ok (str_drop_last 17 p +:+ bucket_key)
    | Some Google => Ok ("gs:/" +:+ bucket_key)
    | _ => Ok bucket_key
    end;
  let bucket_key := if py_in "s3://" nwm_file then str_drop 1 bucket_key else bucket_key in
  bucket ← py_get _nc_file_parts 2;
  Ok (bucket, bucket_key).

(** The branch of [forcing_grid2catchment] that picks how [nwm_file] is
    opened.  [GoogleTag] is a plain string and has no [open]. *)
Definition open_file (fs_type : option storage) (fs : option fs_handle)
    (nwm_file : string) : result file_obj :=
  match fs with
  | Some h =>
      bucket_key ←
        (if py_in "https://" nwm_file
         then snd <$> convert_url2key nwm_file fs_type
         else Ok nwm_file);
      match h with
      | GoogleTag => Raise AttributeError
      | _ => Ok (FsOpen h bucket_key)
      end
  | None =>
      if py_in "https://" nwm_file then Ok (HttpGet nwm_file)
      else Ok (LocalPath nwm_file)
  end.

(** [a[i]] on a numpy axis of length [len a], for a signed index. *)
Definition np_index (a : list Q) (i : Z) : result Q :=
  let n := Z.of_nat (length a) in
  if (0 <=? i) && (i <? n) then py_get a (Z.to_nat i)
  else if (- n <=? i) && (i <? 0) then py_get a (Z.to_nat (i + n))
  else Raise IndexError.

(** One row of [coverage_mat * jcatch_data_mask], with numpy broadcasting
    along the cell axis. *)
Definition np_mul (coverage mask : list Q) : result (list Q) :=
  if (length coverage =? length mask)%nat then Ok (zip_with Qmult coverage mask)
  else match coverage, mask with
       | [c], _ => Ok (map (Qmult c) mask)
       | _, [m] => Ok (map (λ c, Qmult c m) coverage)
       | _, _ => Raise ValueError
       end.

(** [data_array[:, jcatch] = column] *)
Definition set_column (jcatch : nat) (column : list Q) (data_array : slice) : slice :=
  zip_with (λ data_row v, <[jcatch := v]> data_row) data_array column.

(** The filling of [data_allvars], already reshaped to [(nvar, y*x)]:
    every variable named RAINRATE is scaled by 3600. *)
Definition decode (nwm_data : nwm_dataset) : result (list (list Q)) :=
  match ds_vars nwm_data !! "U2D" with
  | None => Raise KeyError
  | Some _ =>
      res_mapM (λ jvar,
        match ds_vars nwm_data !! jvar with
        | None => Raise KeyError
        | Some field =>
            if (length field =? ds_y nwm_data * ds_x nwm_data)%nat
            then Ok (if String.eqb jvar "RAINRATE"
                     then map (Qmult 3600) field else field)
            else Raise ValueError
        end) nwm_variables
  end.

(** [time_splt[0] + " " + time_splt[1]] *)
Definition valid_time (nwm_data : nwm_dataset) : result string :=
  match ds_attrs nwm_data !! "model_output_valid_time" with
  | None => Raise KeyError
  | Some s =>
      let time_splt := py_split "_" s in
      t0 ← py_get time_splt 0;
      t1 ← py_get time_splt 1;
      Ok (t0 +:+ " " +:+ t1)
  end.

(** The body of [for key, value in weights_json.items()]: the weighted
    mean of every variable over the cells of one catchment. *)
Definition project_catchment (data_allvars : list (list Q)) (value : descriptor)
    : result (list Q) :=
  let weights := value.1 in
  let coverage := value.2 in
  jcatch_data_mask ← res_mapM (λ data_row, res_mapM (np_index data_row) weights) data_allvars;
  let weight_sum := Qsum coverage in
  products ← res_mapM (np_mul coverage) jcatch_data_mask;
  Ok (map (λ p, Qsum p / weight_sum)%Q products).

Fixpoint project_loop (data_allvars : list (list Q)) (items : crosswalk)
    (jcatch : nat) (data_array : slice) : result slice :=
  match items with
  | [] => Ok data_array
  | (key, value) :: items' =>
      column ← project_catchment data_allvars value;
      project_loop data_allvars items' (S jcatch) (set_column jcatch column data_array)
  end.

(** The projector: [data_array] starts as zeros of shape [(nvar, ncatch)]. *)
Definition project (data_allvars : list (list Q)) (weights_json : crosswalk)
    : result slice :=
  let nvar := length nwm_variables in
  let ncatch := length weights_json in
  project_loop data_allvars weights_json 0
    (replicate nvar (replicate ncatch 0%Q)).

Section Extraction.

(** [xr.open_dataset(file_obj, engine="h5netcdf")]: the content of the
    input stores, fixed for a run. *)
Context (xr_open_dataset : file_obj → result nwm_dataset).

(** The budget for the [while] loop of [load_balance]. *)
Context (fuel : nat).

(** The globals [fs_type] and [weights_json]. *)
Context (fs_type : option storage) (weights_json : crosswalk).

Fixpoint grid2catchment_loop (fs : option fs_handle) (nwm_files : list string)
    : py (list slice * list string) :=
  match nwm_files with
  | [] => mret ([], [])
  | nwm_file :: nwm_files' =>
      file_obj ← lift (open_file fs_type fs nwm_file);
      _ ← log_open file_obj;
      nwm_data ← lift (xr_open_dataset file_obj);
      data_allvars ← lift (decode nwm_data);
      t ← lift (valid_time nwm_data);
      data_array ← lift (project data_allvars weights_json);
      rest ← grid2catchment_loop fs nwm_files';
      mret (data_array :: rest.1, t :: rest.2)
  end.

(** [forcing_grid2catchment]: the slices and the time stamps of the
    files, in file order.  Timers and prints are left out. *)
Definition forcing_grid2catchment (nwm_files : list string)
    (fs : option fs_handle) : py (list slice * list string) :=
  let fs := if decide (fs_type = Some Google) then Some GCSFileSystem else fs in
  grid2catchment_loop fs nwm_files.

(** [for i in range(nprocs)]: contiguous slices of the file list. *)
Fixpoint slice_files (files : list string) (files_per_proc : list Z)
    (start : Z) : list (list string) :=
  match files_per_proc with
  | [] => []
  | n :: files_per_proc' =>
      let end_ := (start + n) `min` Z.of_nat (length files) in
      py_slice start end_ files :: slice_files files files_per_proc' end_
  end.

(** [multiprocess_data_extract].  The workers of the pool are run one
    after the other, in the order in which [pool.map] returns their
    results.  A pool of no worker is a [ValueError]; so is, here, a worker
    that returns no slice, which [np.concatenate] cannot join with the
    others. *)
Definition multiprocess_data_extract (files : list string) (nprocs : nat)
    (fs : option fs_handle) : py (cube * list string) :=
  let launch_time := (1 # 20)%Q in
  let cycle_time := 35%Q in
  let files_per_cycle := 1%Q in
  files_per_proc ← lift (distribute_work files nprocs);
  files_per_proc ← lift (load_balance fuel files_per_proc launch_time cycle_time files_per_cycle);
  let nprocs := length files_per_proc in
  let files_list := slice_files files files_per_proc 0 in
  _ ← lift (if (nprocs =? 0)%nat then Raise ValueError else Ok tt);
  results ← py_mapM (λ nwm_files, forcing_grid2catchment nwm_files fs) files_list;
  let data_ax := fst <$> results in
  let t_ax_local := snd <$> results in
  _ ← lift (if forallb (λ d, negb (length d =? 0)%nat) data_ax
            then Ok tt else Raise ValueError);
  mret (concat data_ax, concat t_ax_local).

End Extraction.

(* ===================================================================== *)
(** * Emitter                                                             *)
(* ===================================================================== *)

(** [re.sub(r'\.\w+$', '.zip', filename)] on ASCII text: the leftmost dot
    followed by word characters only, up to the end, becomes [".zip"]. *)
Definition is_word_char (a : ascii) : bool :=
  let n := nat_of_ascii a in
  ((48 <=? n) && (n <=? 57) || (65 <=? n) && (n <=? 90)
   || (97 <=? n) && (n <=? 122) || (n =? 95))%nat.

Fixpoint all_word (s : string) : bool :=
  match s with
  | EmptyString => true
  | String a s' => is_word_char a && all_word s'
  end.

Fixpoint re_sub_zip (s : string) : string :=
  match s with
  | EmptyString => EmptyString
  | String a s' =>
      if Ascii.eqb a "." && negb (String.eqb s' "") && all_word s'
      then ".zip"
      else String a (re_sub_zip s')
  end.

(** [Path(filename).name] *)
Definition path_name (filename : string) : string :=
  default EmptyString (last (py_split "/" filename)).

(** [jcatch.split("-")[1]] *)
Definition cat_id_of (jcatch : string) : result string :=
  py_get (py_split "-" jcatch) 1.

(** [df = pd.DataFrame(data[:,:,j], columns=ngen_variables)] followed by
    [df.insert(0, "time", t_ax)]. *)
Definition make_df (data : cube) (t_ax : list string) (j : nat) : result table :=
  df_data ← res_mapM (λ data_t, res_mapM (λ var_row, py_get var_row j) data_t) data;
  _ ← (if forallb (λ r, length r =? length ngen_variables)%nat df_data
       then Ok tt else Raise ValueError);
  _ ← (if (length t_ax =? length df_data)%nat then Ok tt else Raise ValueError);
  Ok (zip t_ax df_data).

Section Emitter.

(** The globals [output_file_type] and [storage_type]. *)
Context (output_file_type : list string) (storage_type : storage).

Context (fuel : nat).

Definition named (format : string) : bool :=
  bool_decide (format ∈ output_file_type).

(** The [if "parquet" in output_file_type or "csv" in output_file_type]
    statement of the loop: returns the frame that goes into [dfs] and
    the new value of [filename]. *)
Definition emit (out_path : string) (ii_append : bool) (cat_id : string)
    (df : table) (filename : string) : py (table * string) :=
  if named "parquet" || named "csv" then
    match storage_type with
    | S3 =>
        bk ← lift (convert_url2key out_path (Some storage_type));
        let bucket := bk.1 in
        let key_prefix := bk.2 in
        if named "parquet" then
          let filename := key_prefix +:+ "/cat-" +:+ cat_id +:+ ".parquet" in
          df ← (if ii_append
                then df_bucket ← get_object bucket filename; mret (df_bucket ++ df)
                else mret df);
          _ ← put_object bucket filename df;
          mret (df, filename)
        else if named "csv" then
          let filename := key_prefix +:+ "/cat-" +:+ cat_id +:+ ".csv" in
          df ← (if ii_append
                then df_bucket ← get_object bucket filename; mret (df_bucket ++ df)
                else mret df);
          _ ← put_object bucket filename df;
          mret (df, filename)
        else lift (Raise UnboundLocalError)
    | Local =>
        if named "parquet" then
          let filename := out_path +:+ "/cat-" +:+ cat_id +:+ ".parquet" in
          df ← (if ii_append
                then df_bucket ← read_local filename; mret (df_bucket ++ df)
                else mret df);
          _ ← write_local filename df;
          mret (df, filename)
        else if named "csv" then
          let filename := out_path +:+ "/cat-" +:+ cat_id +:+ ".csv" in
          df ← (if ii_append
                then df_bucket ← read_local filename; mret (df_bucket ++ df)
                else mret df);
          _ ← write_local filename df;
          mret (df, filename)
        else mret (df, filename)
    | Google => mret (df, filename)
    end
  else mret (df, "./cat-" +:+ cat_id +:+ ".csv").

(** The [if j == 0] block: file sizes are measured on scratch files
    that are removed at once; the sizes themselves are not modelled.
    Returns the new value of [filename]. *)
Definition measure_sizes (cat_id : string) (df : table) (filename : string)
    : py string :=
  there ← path_exists filename;
  filename ← (if there : bool then mret filename
              else
                let filename := "./cat-" +:+ cat_id +:+ ".csv" in
                _ ← write_local filename df;
                _ ← remove_local filename;
                mret filename);
  let filename_zip := re_sub_zip filename in
  _ ← write_local filename_zip df;
  _ ← remove_local filename_zip;
  mret filename.

(** [for j, jcatch in enumerate(catchments)] in [write_data]. *)
Fixpoint write_loop (data : cube) (t_ax : list string) (out_path : string)
    (ii_append : bool) (j : nat) (catchments : list string) (filename : string)
    : py (list string * list table * list string) :=
  match catchments with
  | [] => mret ([], [], [])
  | jcatch :: catchments' =>
      df ← lift (make_df data t_ax j);
      cat_id ← lift (cat_id_of jcatch);
      out ← emit out_path ii_append cat_id df filename;
      let df := out.1 in
      let filename := out.2 in
      let name := path_name filename in
      filename ← (if (j =? 0)%nat then measure_sizes cat_id df filename
                  else mret filename);
      r ← write_loop data t_ax out_path ii_append (S j) catchments' filename;
      mret (cat_id :: r.1.1, df :: r.1.2, name :: r.2)
  end.

(** Returns [forcing_cat_ids, dfs, filenames]; the two size lists are
    left out, but not the error of returning them unset. *)
Definition write_data (data : cube) (t_ax : list string)
    (catchments : list string) (out_path : string) (ii_append : bool)
    : py (list string * list table * list string) :=
  _ ← (if decide (storage_type = S3)
       then lift (convert_url2key out_path (Some storage_type) ≫= λ _, Ok tt)
       else mret tt);
  r ← write_loop data t_ax out_path ii_append 0 catchments EmptyString;
  _ ← lift (match catchments with [] => Raise UnboundLocalError | _ => Ok tt end);
  mret r.

(** [data[:,:,start:end]] *)
Definition cube_slice (start end_ : Z) (data : cube) : cube :=
  map (map (py_slice start end_)) data.

(** [for j, jcatch in enumerate(catchments)] in [multiprocess_write]:
    the catchments and the cube columns handed to each worker. *)
Fixpoint assign_loop (data : cube) (ncatchments : nat)
    (catchments_per_proc : list Z) (j : nat) (catchments : list string)
    (i : nat) (count start : Z) (worker_catchments : list string)
    : result (list (cube * list string)) :=
  match catchments with
  | [] => Ok []
  | jcatch :: catchments' =>
      let worker_catchments := worker_catchments ++ [jcatch] in
      let count := count + 1 in
      share ← py_get catchments_per_proc i;
      if (count =? share) || (Z.of_nat j =? Z.of_nat ncatchments - 1) then
        let end_ := (start + share) `min` Z.of_nat ncatchments in
        let worker_data := cube_slice start end_ data in
        rest ← assign_loop data ncatchments catchments_per_proc (S j)
                 catchments' (S i) 0 end_ [];
        Ok ((worker_data, worker_catchments) :: rest)
      else
        assign_loop data ncatchments catchments_per_proc (S j)
          catchments' i count start worker_catchments
  end.

(** [multiprocess_write]: the workers write one after the other, in the
    order of the catchment list. *)
Definition multiprocess_write (data : cube) (t_ax : list string)
    (catchments : list string) (nprocs : nat) (out_path : string)
    (ii_append : bool) : py (list string * list table * list string) :=
  let launch_time := (1 # 20)%Q in
  let cycle_time := 1%Q in
  let catchments_per_cycle := 200%Q in
  catchments_per_proc ← lift (distribute_work catchments nprocs);
  catchments_per_proc ← lift (load_balance fuel catchments_per_proc
                                launch_time cycle_time catchments_per_cycle);
  let ncatchments := length catchments in
  workers ← lift (assign_loop data ncatchments catchments_per_proc 0
                    catchments 0 0 0 []);
  _ ← lift (if (nprocs =? 0)%nat then Raise ValueError else Ok tt);
  results ← py_mapM (λ wk : cube * list string,
                       write_data wk.1 t_ax wk.2 out_path ii_append) workers;
  mret (concat ((λ r, r.1.1) <$> results),
        concat ((λ r, r.1.2) <$> results),
        concat ((λ r, r.2) <$> results)).

End Emitter.

(* ===================================================================== *)
(** * Crosswalk loader and chunked driver                                 *)
(* ===================================================================== *)

(** [d[k] = v] on an insertion-ordered dictionary. *)
Fixpoint dict_set {V} (k : string) (v : V) (d : list (string * V)) : list (string * V) :=
  match d with
  | [] => [(k, v)]
  | (k', v') :: d' =>
      if String.eqb k' k then (k, v) :: d' else (k', v') :: dict_set k v d'
  end.

(** [d1 | d2] *)
Definition dict_union {V} (d1 d2 : list (string * V)) : list (string * V) :=
  foldl (λ d kv, dict_set kv.1 kv.2 d) d1 d2.

(** [list(d.keys())] *)
Definition dict_keys {V} (d : list (string * V)) : list string := fst <$> d.

(** [for jweight_file in weight_files]; each path comes with the
    dictionary that [json.load] returns for it. *)
Fixpoint load_weights (weight_files : list (string * crosswalk))
    (crosswalk_dict : crosswalk) (jcatchment_dict : list (string * list string))
    (count : nat) : crosswalk * list (string * list string) :=
  match weight_files with
  | [] => (crosswalk_dict, jcatchment_dict)
  | (jweight_file, new_dict) :: weight_files' =>
      let ii_weights_in_bucket := py_in "//" jweight_file in
      let named :=
        match search_VPU jweight_file with
        | Some g => ("VPU_" +:+ g, count)
        | None => (pretty (S count), S count)
        end in
      let jname := named.1 in
      let count := named.2 in
      if ii_weights_in_bucket then
        let crosswalk_dict := dict_union crosswalk_dict new_dict in
        let jcatchment_dict := dict_set jname (dict_keys new_dict) jcatchment_dict in
        load_weights weight_files' crosswalk_dict jcatchment_dict count
      else
        let crosswalk_dict := dict_union crosswalk_dict new_dict in
        let jcatchment_dict := dict_set jname (dict_keys crosswalk_dict) jcatchment_dict in
        load_weights weight_files' crosswalk_dict jcatchment_dict count
  end.

(** The classification of the input store, from the first input file. *)
Definition classify_fs (first : string) : option fs_handle * option storage :=
  if py_in "s3://" first || py_in "s3.amazonaws" first
  then (Some S3FileSystem, Some S3)
  else if py_in "google" first || py_in "gs://" first || py_in "gcs://" first
  then (Some GoogleTag, Some Google)
  else (None, None).

(** The classification of the output store. *)
Definition classify_storage (output_path : string) : storage :=
  if py_in "s3" output_path then S3
  else if py_in "google" output_path then Google
  else Local.

Definition file_types : list string := ["csv"; "parquet"; "tar"].

Section Driver.

Context (xr_open_dataset : file_obj → result nwm_dataset).
Context (fuel : nat).

(** [for jloop in range(nloops)] *)
Fixpoint time_loop (output_file_type : list string) (storage_type : storage)
    (fs_type : option storage) (fs : option fs_handle)
    (crosswalk_dict : crosswalk) (nwm_forcing_files : list string)
    (nprocs nfile_chunk : nat) (forcing_path : result string)
    (jloops : list nat) (ii_append : bool) : py unit :=
  match jloops with
  | [] => mret tt
  | jloop :: jloops' =>
      let nfiles := length nwm_forcing_files in
      let start := Z.of_nat (jloop * nfile_chunk) in
      let end_ := (start + Z.of_nat nfile_chunk) `min` Z.of_nat nfiles in
      let jnwm_files := py_slice start end_ nwm_forcing_files in
      extracted ← multiprocess_data_extract xr_open_dataset fuel fs_type
                    crosswalk_dict jnwm_files nprocs fs;
      let data_array := extracted.1 in
      let t_ax := extracted.2 in
      forcing_path' ← lift forcing_path;
      _ ← multiprocess_write output_file_type storage_type fuel data_array t_ax
            (dict_keys crosswalk_dict) nprocs forcing_path' ii_append;
      time_loop output_file_type storage_type fs_type fs crosswalk_dict
        nwm_forcing_files nprocs nfile_chunk forcing_path jloops' true
  end.

(** [prep_ngen_data] up to the end of its primary cycle, for a non-empty
    [output_path] and an [output_file_type] given as a list.  Each weight
    file comes with the dictionary read from it, the input list with its
    lines.  The echo of the configuration, the log, the run metadata and
    the tar bundles that follow the cycle are not part of this
    development. *)
Definition prep_ngen_data (weight_files : list (string * crosswalk))
    (nwm_forcing_files : list string) (output_path : string)
    (output_file_type : list string) (nprocs nfile_chunk : nat) : py unit :=
  _ ← lift (py_assert (forallb (λ jtype, bool_decide (jtype ∈ file_types))
                          output_file_type));
  let storage_type := classify_storage output_path in
  let forcing_path :=
    match storage_type with
    | Local => Ok (output_path +:+ "/forcings")
    | S3 => Ok (output_path +:+ "/forcings")
    | Google => Raise NameError
    end in
  let loaded := load_weights weight_files [] [] 0 in
  let crosswalk_dict := loaded.1 in
  let nfiles := length nwm_forcing_files in
  first ← lift (py_get nwm_forcing_files 0);
  let fs := (classify_fs first).1 in
  let fs_type := (classify_fs first).2 in
  _ ← lift (if (nfile_chunk =? 0)%nat then Raise ZeroDivisionError else Ok tt);
  let nloops := ((nfiles + nfile_chunk - 1) / nfile_chunk)%nat in
  time_loop output_file_type storage_type fs_type fs crosswalk_dict
    nwm_forcing_files nprocs nfile_chunk forcing_path (seq 0 nloops) false.

End Driver.

(* ===================================================================== *)
(** * Definitions for the statements                                      *)
(* ===================================================================== *)

(** [suffix_after_last_dash], [weighted_mean] and [plain_mean] follow the
    words of the specification; the others name what the source does. *)

(** The vector the round-robin loop reaches after [n] items: the first
    [n mod P] workers hold one item more than the others. *)
Definition round_robin (n P : nat) : list Z :=
  replicate (n mod P)%nat (Z.of_nat (n / P) + 1)
    ++ replicate (P - n mod P)%nat (Z.of_nat (n / P)).

(** The text after the last ['-'] of an identifier. *)
Definition suffix_after_last_dash (jcatch : string) : string :=
  default EmptyString (last (py_split "-" jcatch)).

(** The value of a variable on grid cell [c]; 0 off the grid. *)
Definition cell_value (g : list Q) (c : Z) : Q := default 0%Q (g !! Z.to_nat c).

(** The area-weighted mean [(Σ w_i · g[cells_i]) / Σ w_i] of one variable
    over the cells of a catchment. *)
Definition weighted_mean (g : list Q) (cells : list Z) (weights : list Q) : Q :=
  (Qsum (zip_with (λ w c, w * cell_value g c) weights cells) / Qsum weights)%Q.

(** The invariants of a projection descriptor on a grid of [ncell] cells:
    as many weights as cells, and every cell index on the grid. *)
Definition valid_descriptor (ncell : nat) (value : descriptor) : Prop :=
  length value.1 = length value.2
  ∧ Forall (λ c, 0 ≤ c < Z.of_nat ncell) value.1.

(** The unweighted mean of a variable over the cells of a catchment. *)
Definition plain_mean (g : list Q) (cells : list Z) : Q :=
  (Qsum (map (cell_value g) cells) / inject_Z (Z.of_nat (length cells)))%Q.

(** The extension of the per-catchment tables: parquet when it is named,
    csv otherwise. *)
Definition table_ext (output_file_type : list string) : string :=
  if bool_decide ("parquet" ∈ output_file_type) then ".parquet" else ".csv".

(** The table stored for a catchment id under [out_path]: a local file,
    or an object of the bucket that [out_path] names. *)
Definition stored (storage_type : storage) (out_path ext : string) (w : world)
    (cat_id : string) : option table :=
  match storage_type with
  | Local => local_files w !! (out_path +:+ "/cat-" +:+ cat_id +:+ ext)
  | S3 =>
      match convert_url2key out_path (Some S3) with
      | Ok bk => s3_objects w !! (bk.1, bk.2 +:+ "/cat-" +:+ cat_id +:+ ext)
      | _ => None
      end
  | Google => None
  end.

(** Writing the frame [df] for [cat_id] into a view of the stored tables:
    after what is there already when appending, in its place otherwise. *)
Definition write_one (ii_append : bool) (v : string → option table)
    (item : string * table) : string → option table :=
  λ x, if decide (x = item.1)
       then Some (if ii_append then default [] (v item.1) ++ item.2 else item.2)
       else v x.

Definition apply_writes (ii_append : bool) (items : list (string * table))
    (v : string → option table) : string → option table :=
  foldl (write_one ii_append) v items.

(** The hand-out of catchments to workers that the shares describe:
    worker [i] gets the next [shares[i]] catchments and their columns. *)
Fixpoint assignment (data : cube) (shares : list Z) (start : Z)
    (catchments : list string) : list (cube * list string) :=
  match shares with
  | [] => []
  | s :: shares' =>
      (cube_slice start (start + s) data, take (Z.to_nat s) catchments)
        :: assignment data shares' (start + s) (drop (Z.to_nat s) catchments)
  end.

(** The table of catchment [j] in a chunk: one row per time step. *)
Definition chunk_rows (data : cube) (t_ax : list string) (j : nat) : table :=
  zip t_ax (map (map (λ var_row, default 0%Q (var_row !! j))) data).

(** [m] takes every world to one related to it by [R], whether it
    returns or raises. *)
Definition preserves (R : world → world → Prop) {A} (m : py A) : Prop :=
  ∀ w, R w (m w).1.

(** Reading input files writes no table. *)
Definition same_tables (w w' : world) : Prop :=
  local_files w' = local_files w ∧ s3_objects w' = s3_objects w.

(** Writing tables opens no input file. *)
Definition same_opened (w w' : world) : Prop := opened w' = opened w.




(** A cube made of slices of [nvar] variables by [ncatch] catchments,
    with one time stamp per slice. *)
Definition well_shaped (ncatch : nat) (data : cube) (t_ax : list string) : Prop :=
  length t_ax = length data
  ∧ Forall (λ data_t, length data_t = length nwm_variables
                      ∧ Forall (λ var_row, length var_row = ncatch) data_t) data.

(** The frames of a chunk, one per catchment id. *)
Definition chunk_items (ids : list string) (chunk : cube * list string)
    : list (string * table) :=
  imap (λ j cat_id, (cat_id, chunk_rows chunk.1 chunk.2 j)) ids.

(** The files of chunk [jloop]. *)
Definition chunk_files (nwm_forcing_files : list string) (nfile_chunk jloop : nat)
    : list string :=
  let start := Z.of_nat (jloop * nfile_chunk) in
  py_slice start ((start + Z.of_nat nfile_chunk) `min` Z.of_nat (length nwm_forcing_files))
    nwm_forcing_files.

(** The rows of catchment [j] over a sequence of chunks. *)
Definition accumulated_rows (chunks : list (cube * list string)) (j : nat) : table :=
  concat (map (λ chunk : cube * list string, chunk_rows chunk.1 chunk.2 j) chunks).

(** From [w] to [w'] nothing changed in the output store except names
    that end in [ext] (and, on the local file system, [".zip"] scratch
    files). *)
Definition untouched (storage_type : storage) (ext : string) (w w' : world) : Prop :=
  match storage_type with
  | Local =>
      ∀ k, (∀ stem, k ≠ stem +:+ ext) → (∀ stem, k ≠ stem +:+ ".zip") →
           local_files w' !! k = local_files w !! k
  | S3 =>
      ∀ bucket key, (∀ stem, key ≠ stem +:+ ext) →
                    s3_objects w' !! (bucket, key) = s3_objects w !! (bucket, key)
  | Google => True
  end.

(** No ['-'] occurs in [s]. *)
Fixpoint dash_free (s : string) : bool :=
  match s with
  | EmptyString => true
  | String a s' => negb (Ascii.eqb a "-") && dash_free s'
  end.


(* ===================================================================== *)
(** * Further definitions for the statements                              *)
(* ===================================================================== *)

(** The character [c] does not occur in [s]. *)
Fixpoint lacks (c : ascii) (s : string) : bool :=
  match s with
  | EmptyString => true
  | String a s' => negb (Ascii.eqb a c) && lacks c s'
  end.

(** A URL or URI made of a scheme, a host and the layers of a path:
    [scheme//host/layer/.../layer]. *)
Definition url (scheme host : string) (layers : list string) : string :=
  scheme +:+ "//" +:+ host +:+ join_layers layers.

(** [r] is an exception or the end of the fuel, not a value. *)
Definition fails {A} (r : result A) : bool :=
  match r with
  | Ok _ => false
  | _ => true
  end.

(* ===================================================================== *)
(** * The checks and the steps around the primary cycle                   *)
(* ===================================================================== *)

(** A value of [output_file_type] in the configuration: a string or a
    list of strings.  [conf["storage"].get("output_file_type", "csv")]
    is the string ["csv"] when the key is absent. *)
Inductive type_value : Type :=
  | TypeStr (s : string)
  | TypeList (l : list string).

(** [for jtype in output_file_type]: the characters of a string, the
    elements of a list. *)
Definition iter_types (output_file_type : type_value) : list string :=
  match output_file_type with
  | TypeStr s => (λ a, String a EmptyString) <$> list_ascii_of_string s
  | TypeList l => l
  end.

(** The loop of assertions [assert jtype in file_types]. *)
Definition check_file_types (configured : option type_value) : result unit :=
  let output_file_type := default (TypeStr "csv") configured in
  py_assert (forallb (λ jtype, bool_decide (jtype ∈ file_types))
               (iter_types output_file_type)).

(** [storage_type] as the string that the source compares. *)
Definition storage_name (storage_type : storage) : string :=
  match storage_type with
  | S3 => "s3"
  | Google => "google"
  | Local => "local"
  end.

(** The locals [forcing_cat_ids], [dfs], [filenames], [data_array] and
    [t_ax] of [prep_ngen_data]: one [del] statement unbinds the five. *)
Record cycle_locals : Type := Locals {
  forcing_cat_ids : list string;
  dfs : list table;
  filenames : list string;
  data_array : cube;
  t_ax : list string
}.

(** Reading a local variable: [UnboundLocalError] when it is unbound. *)
Definition py_local {A} (v : option A) : result A :=
  match v with
  | Some a => Ok a
  | None => Raise UnboundLocalError
  end.

Section Run.

Context (xr_open_dataset : file_obj → result nwm_dataset).
Context (fuel : nat).

(** [response.details['size']], [len(requests.get(jfile).content)] and
    [os.path.getsize(jfile)]. *)
Context (file_size : file_obj → result Z).

(** The statements that build and write the run metadata once
    [data_array] has been read, given what a later read of
    [forcing_cat_ids] returns; the tar writer [multiprocess_write_tars],
    whose archives are not part of [world]; and the statements that
    follow the tar step. *)
Context (write_metadata : cube → result (list string) → py unit).
Context (write_tars : list table → list (string * list string) → list string → py unit).
Context (finish : py unit).

(** [for jloop in range(nloops)], with the locals that each pass binds
    and then deletes when ["tar"] is not in [storage_type]; [None] is
    the state in which the five names are unbound. *)
Fixpoint cycle (output_file_type : list string) (storage_type : storage)
    (fs_type : option storage) (fs : option fs_handle)
    (crosswalk_dict : crosswalk) (nwm_forcing_files : list string)
    (nprocs nfile_chunk : nat) (forcing_path : result string)
    (jloops : list nat) (ii_append : bool) (locals : option cycle_locals)
    : py (option cycle_locals) :=
  match jloops with
  | [] => mret locals
  | jloop :: jloops' =>
      let nfiles := length nwm_forcing_files in
      let start := Z.of_nat (jloop * nfile_chunk) in
      let end_ := (start + Z.of_nat nfile_chunk) `min` Z.of_nat nfiles in
      let jnwm_files := py_slice start end_ nwm_forcing_files in
      extracted ← multiprocess_data_extract xr_open_dataset fuel fs_type
                    crosswalk_dict jnwm_files nprocs fs;
      forcing_path' ← lift forcing_path;
      written ← multiprocess_write output_file_type storage_type fuel
                  extracted.1 extracted.2 (dict_keys crosswalk_dict) nprocs
                  forcing_path' ii_append;
      let locals :=
        if negb (py_in "tar" (storage_name storage_type)) then None
        else Some (Locals written.1.1 written.1.2 written.2
                     extracted.1 extracted.2) in
      cycle output_file_type storage_type fs_type fs crosswalk_dict
        nwm_forcing_files nprocs nfile_chunk forcing_path jloops' true locals
  end.

(** The sizes of the first eleven input files, for the run metadata. *)
Definition nwm_file_sizes (fs_type : option storage) (fs : option fs_handle)
    (nwm_forcing_files : list string) : py (list Z) :=
  let fs := if decide (fs_type = Some Google) then Some GCSFileSystem else fs in
  py_mapM (λ jfile,
             file_obj ← lift (open_file fs_type fs jfile);
             _ ← log_open file_obj;
             lift (file_size file_obj))
    (take 11 nwm_forcing_files).

(** [prep_ngen_data] to its end, under the conventions of
    [prep_ngen_data] above: the primary cycle, the run metadata when
    [collect_stats] is set, the tar step and what follows it. *)
Definition prep_ngen_data_run (weight_files : list (string * crosswalk))
    (nwm_forcing_files : list string) (output_path : string)
    (output_file_type : list string) (nprocs nfile_chunk : nat)
    (ii_collect_stats : bool) : py unit :=
  _ ← lift (py_assert (forallb (λ jtype, bool_decide (jtype ∈ file_types))
                          output_file_type));
  let storage_type := classify_storage output_path in
  let forcing_path :=
    match storage_type with
    | Local => Ok (output_path +:+ "/forcings")
    | S3 => Ok (output_path +:+ "/forcings")
    | Google => Raise NameError
    end in
  let loaded := load_weights weight_files [] [] 0 in
  let crosswalk_dict := loaded.1 in
  let jcatchment_dict := loaded.2 in
  let nfiles := length nwm_forcing_files in
  first ← lift (py_get nwm_forcing_files 0);
  let fs := (classify_fs first).1 in
  let fs_type := (classify_fs first).2 in
  _ ← lift (if (nfile_chunk =? 0)%nat then Raise ZeroDivisionError else Ok tt);
  let nloops := ((nfiles + nfile_chunk - 1) / nfile_chunk)%nat in
  locals ← cycle output_file_type storage_type fs_type fs crosswalk_dict
             nwm_forcing_files nprocs nfile_chunk forcing_path (seq 0 nloops)
             false None;
  _ ← (if ii_collect_stats then
         _ ← nwm_file_sizes fs_type fs nwm_forcing_files;
         data_array ← lift (py_local (data_array <$> locals));
         write_metadata data_array (py_local (forcing_cat_ids <$> locals))
       else mret tt);
  t0000 ← (if bool_decide ("tar" ∈ output_file_type) then
             dfs ← lift (py_local (dfs <$> locals));
             filenames ← lift (py_local (filenames <$> locals));
             _ ← write_tars dfs jcatchment_dict filenames;
             mret (Some tt)
           else mret None);
  _ ← lift (py_local t0000);
  finish.

End Run.

(* ===================================================================== *)
(** * Tar bundles                                                         *)
(* ===================================================================== *)

(** Where an archive goes: a file under the forcing path, or an object
    of the bucket that the forcing path names. *)
Inductive tar_dest : Set :=
  | TarFile (path : string)
  | TarObject (bucket key : string).

(** The format in which a member is written. *)
Inductive table_format : Set := Parquet | Csv.

(** An archive is the list of its members: the name in the archive, the
    format and the frame.  Compression is not modelled. *)
Abbreviation archive := (list (string * table_format * table)) (only parsing).

(** [for j, jcat in enumerate(catchments)] in [write_tar]: member [j] is
    [dfs[j]] under the name [filenames[j]].  Returns the members added
    and how the loop ended. *)
Fixpoint tar_members (fmt : table_format) (dfs : list table)
    (filenames : list string) (js : list nat) : archive * result unit :=
  match js with
  | [] => ([], Ok tt)
  | j :: js' =>
      match py_get dfs j with
      | Ok jdf =>
          match py_get filenames j with
          | Ok jfilename =>
              let rest := tar_members fmt dfs filenames js' in
              ((jfilename, fmt, jdf) :: rest.1, rest.2)
          | Raise e => ([], Raise e)
          | OutOfFuel => ([], OutOfFuel)
          end
      | Raise e => ([], Raise e)
      | OutOfFuel => ([], OutOfFuel)
      end
  end.

(** [write_tar]: the archives written and how the call ended.  On S3
    the archive is built in memory and put when it is complete; on the
    file system it is opened first, so that it exists with the members
    added so far when the loop raises. *)
Definition write_tar (output_file_type : list string) (storage_type : storage)
    (forcing_path : string) (dfs : list table) (jcatchunk : string)
    (catchments : list string) (filenames : list string)
    : list (tar_dest * archive) * result unit :=
  let fmt := if bool_decide ("parquet" ∈ output_file_type) then Parquet else Csv in
  let tar_name := jcatchunk +:+ "_forcings.tar.gz" in
  let added := tar_members fmt dfs filenames (seq 0 (length catchments)) in
  match storage_type with
  | S3 =>
      match added.2 with
      | Ok _ =>
          match convert_url2key forcing_path (Some S3) with
          | Ok bk => ([(TarObject bk.1 (bk.2 +:+ "/" +:+ tar_name), added.1)], Ok tt)
          | Raise e => ([], Raise e)
          | OutOfFuel => ([], OutOfFuel)
          end
      | Raise e => ([], Raise e)
      | OutOfFuel => ([], OutOfFuel)
      end
  | _ => ([(TarFile (forcing_path +:+ "/" +:+ tar_name), added.1)], added.2)
  end.

(** [for j, jchunk in enumerate(catchments)] in [multiprocess_write_tars]:
    the arguments of each call of [write_tar], after the assertions on
    the file names of the group. *)
Fixpoint tar_groups (dfs : list table) (filenames : list string)
    (catchments : list (string * list string)) (i : Z)
    : result (list (list table * string * list string * list string)) :=
  match catchments with
  | [] => Ok []
  | (jchunk, members) :: catchments' =>
      let ncatchments := length members in
      let k := i + Z.of_nat ncatchments in
      let names := py_slice i k filenames in
      _ ← res_mapM (λ jf : nat * string,
                      c ← py_get members jf.1;
                      py_assert (String.eqb jf.2 (c +:+ ".csv")))
            (imap pair names);
      rest ← tar_groups dfs filenames catchments' k;
      Ok ((py_slice i k dfs, jchunk, members, names) :: rest)
  end.

(** The calls of [write_tar], one after the other in the order of
    [pool.map]; the first exception ends the run. *)
Fixpoint run_tars (output_file_type : list string) (storage_type : storage)
    (forcing_path : string)
    (calls : list (list table * string * list string * list string))
    : list (tar_dest * archive) * result unit :=
  match calls with
  | [] => ([], Ok tt)
  | call :: calls' =>
      let out := write_tar output_file_type storage_type forcing_path
                   call.1.1.1 call.1.1.2 call.1.2 call.2 in
      match out.2 with
      | Ok _ =>
          let rest := run_tars output_file_type storage_type forcing_path calls' in
          (out.1 ++ rest.1, rest.2)
      | r => (out.1, r)
      end
  end.

(** [multiprocess_write_tars]; a pool of no worker is a [ValueError]. *)
Definition multiprocess_write_tars (output_file_type : list string)
    (storage_type : storage) (forcing_path : string) (nprocs : nat)
    (dfs : list table) (catchments : list (string * list string))
    (filenames : list string) : list (tar_dest * archive) * result unit :=
  match tar_groups dfs filenames catchments 0 with
  | Ok calls =>
      if (length catchments `min` nprocs =? 0)%nat then ([], Raise ValueError)
      else run_tars output_file_type storage_type forcing_path calls
  | Raise e => ([], Raise e)
  | OutOfFuel => ([], OutOfFuel)
  end.

(** The archives that the groups describe: the archive of a group holds
    the next frames, as many as the group has members, each under the
    name of its member followed by [".csv"]. *)
Fixpoint tar_bundles (fmt : table_format) (forcing_path : string)
    (catchments : list (string * list string)) (dfs : list table)
    : list (tar_dest * archive) :=
  match catchments with
  | [] => []
  | (jchunk, members) :: catchments' =>
      (TarFile (forcing_path +:+ "/" +:+ jchunk +:+ "_forcings.tar.gz"),
       zip_with (λ c df, (c +:+ ".csv", fmt, df)) members
         (take (length members) dfs))
      :: tar_bundles fmt forcing_path catchments' (drop (length members) dfs)
  end.

(* ===================================================================== *)
(** * Example inputs                                                      *)
(* ===================================================================== *)

Definition one_cell : descriptor := ([0], [1%Q]).

(** Two crosswalk documents with one catchment each. *)
Definition doc_a : crosswalk := [("cat-1", one_cell)].
Definition doc_b : crosswalk := [("cat-2", one_cell)].

(** The crosswalk of scenarios S1 and S2. *)
Definition s1_crosswalk : crosswalk :=
  [("cat-1", ([0; 1], [1; 1]%Q)); ("cat-2", ([2], [2%Q]))].

(** The decoded grid of scenario S1 with RAINRATE left at 1. *)
Definition s1_grid : list (list Q) :=
  [[10; 20; 30]; [0; 0; 0]; [0; 0; 0]; [1; 1; 1]; [1; 1; 1];
   [0; 0; 0]; [0; 0; 0]; [0; 0; 0]; [0; 0; 0]]%Q.

(** A file on a [1 x 3] grid: [U2D = [10, 20, 30]], a constant RAINRATE
    and zeros elsewhere. *)
Definition s_dataset (t : string) (rain : Q) : nwm_dataset :=
  {| ds_y := 1; ds_x := 3;
     ds_vars := list_to_map
       [("U2D", [10; 20; 30]%Q); ("V2D", [0; 0; 0]%Q); ("LWDOWN", [0; 0; 0]%Q);
        ("RAINRATE", [rain; rain; rain]); ("T2D", [0; 0; 0]%Q);
        ("Q2D", [0; 0; 0]%Q); ("PSFC", [0; 0; 0]%Q); ("SWDOWN", [0; 0; 0]%Q)];
     ds_attrs := {["model_output_valid_time" := t]} |}.

(** Four hourly files in a local directory. *)
Definition s_store (f : file_obj) : result nwm_dataset :=
  match f with
  | LocalPath "nwm/f00.nc" => Ok (s_dataset "20230101_0000" 1)
  | LocalPath "nwm/f01.nc" => Ok (s_dataset "20230101_0100" 2)
  | LocalPath "nwm/f02.nc" => Ok (s_dataset "20230101_0200" 3)
  | LocalPath "nwm/f03.nc" => Ok (s_dataset "20230101_0300" 4)
  | _ => Raise FileNotFoundError
  end.

Definition s_files : list string :=
  ["nwm/f00.nc"; "nwm/f01.nc"; "nwm/f02.nc"; "nwm/f03.nc"].

Definition empty_world : world := World ∅ ∅ [].

(** The chunks of a run over [s_files] in chunks of two files, with two
    workers, as extraction returns them. *)
Definition s_chunk (jloop : nat) : cube * list string :=
  match (multiprocess_data_extract s_store 1 None s1_crosswalk
           (chunk_files s_files 2 jloop) 2 None empty_world).2 with
  | Ok chunk => chunk
  | _ => ([], [])
  end.

(** A cube with one time step and one catchment. *)
Definition one_step : cube :=
  [[[1]; [2]; [3]; [4]; [5]; [6]; [7]; [8]; [9]]]%Q.

(* ===================================================================== *)
(** * Properties                                                          *)
(* ===================================================================== *)

Lemma bind_Ok {A B} (r : result A) (f : A → result B) (b : B) :
  r ≫= f = Ok b ↔ ∃ a, r = Ok a ∧ f a = Ok b.
Proof.
  destruct r as [a| |]; simpl; split.
  - eauto.
  - by intros (a' & [= <-] & Hf).
  - done.
  - by intros (a' & ? & _).
  - done.
  - by intros (a' & ? & _).
Qed.

Lemma py_get_Ok {A} (l : list A) (k : nat) (x : A) :
  py_get l k = Ok x ↔ l !! k = Some x.
Proof. unfold py_get. destruct (l !! k); naive_solver. Qed.

Lemma py_get_lookup {A} (l : list A) (k : nat) (x : A) :
  l !! k = Some x → py_get l k = Ok x.
Proof. apply py_get_Ok. Qed.

(* --------------------------------------------------------------------- *)
(** ** Round-robin distribution                                           *)
(* --------------------------------------------------------------------- *)

Section Distribute.

Lemma np_sum_app (l1 l2 : list Z) : np_sum (l1 ++ l2) = np_sum l1 + np_sum l2.
Proof. induction l1 as [|x l1 IH]; simpl; [done | rewrite IH; lia]. Qed.

Lemma np_sum_replicate (k : nat) (v : Z) :
  np_sum (replicate k v) = Z.of_nat k * v.
Proof. induction k as [|k IH]; simpl; [done | rewrite IH; lia]. Qed.

Lemma distribute_loop_app js1 js2 P ipp :
  distribute_loop (js1 ++ js2) P ipp
  = distribute_loop js1 P ipp ≫= distribute_loop js2 P.
Proof.
  revert ipp. induction js1 as [|j js1 IH]; intros ipp; simpl; [done|].
  destruct (P =? 0)%nat; [done|].
  destruct (py_get ipp (j mod P)) as [v| |]; simpl; [apply IH | done | done].
Qed.

Lemma round_robin_length n P : (0 < P)%nat → length (round_robin n P) = P.
Proof.
  intros HP. unfold round_robin. rewrite length_app, !length_replicate.
  pose proof (Nat.mod_upper_bound n P ltac:(lia)). lia.
Qed.

Lemma round_robin_sum n P : (0 < P)%nat → np_sum (round_robin n P) = Z.of_nat n.
Proof.
  intros HP. unfold round_robin.
  rewrite np_sum_app, !np_sum_replicate.
  pose proof (Nat.mod_upper_bound n P ltac:(lia)).
  pose proof (Nat.div_mod_eq n P). nia.
Qed.

Lemma round_robin_step n P :
  (0 < P)%nat →
  <[(n mod P)%nat := Z.of_nat (n / P) + 1]> (round_robin n P) = round_robin (S n) P.
Proof.
  intros HP. unfold round_robin.
  pose proof (Nat.mod_upper_bound n P ltac:(lia)) as Hr.
  pose proof (Nat.div_mod_eq n P) as Hn.
  set (q := (n / P)%nat) in *. set (r := (n mod P)%nat) in *.
  rewrite insert_app_r_alt by (rewrite length_replicate; lia).
  rewrite length_replicate, Nat.sub_diag.
  destruct (P - r)%nat as [|m] eqn:Hm; [lia|]. simpl.
  destruct (decide (S r = P)) as [Heq|Hne].
  - assert (S n / P = S q)%nat as ->
      by (symmetry; apply (Nat.div_unique _ _ _ 0%nat); lia).
    assert (S n mod P = 0)%nat as ->
      by (symmetry; apply (Nat.mod_unique _ _ (S q)); lia).
    assert (m = 0%nat) as -> by lia. simpl.
    rewrite Nat.sub_0_r. rewrite <- Heq. simpl.
    replace (Z.of_nat (S q)) with (Z.of_nat q + 1) by lia.
    by rewrite <- replicate_S_end.
  - assert (S n / P = q)%nat as ->
      by (symmetry; apply (Nat.div_unique _ _ _ (S r)); lia).
    assert (S n mod P = S r)%nat as ->
      by (symmetry; apply (Nat.mod_unique _ _ q); lia).
    replace (P - S r)%nat with m by lia.
    rewrite replicate_S_end, <- app_assoc. done.
Qed.

Lemma round_robin_lookup n P :
  (0 < P)%nat → round_robin n P !! (n mod P)%nat = Some (Z.of_nat (n / P)).
Proof.
  intros HP. unfold round_robin.
  pose proof (Nat.mod_upper_bound n P ltac:(lia)) as Hr.
  rewrite lookup_app_r by (rewrite length_replicate; lia).
  rewrite length_replicate, Nat.sub_diag.
  destruct (P - n mod P)%nat eqn:Hm; [lia | done].
Qed.

Lemma distribute_loop_seq n P :
  (0 < P)%nat →
  distribute_loop (seq 0 n) P (replicate P 0) = Ok (round_robin n P).
Proof.
  intros HP. induction n as [|n IH].
  - simpl. unfold round_robin.
    rewrite Nat.Div0.mod_0_l, Nat.Div0.div_0_l, Nat.sub_0_r. done.
  - rewrite seq_S, distribute_loop_app, IH. simpl.
    destruct (P =? 0)%nat eqn:HP0; [apply Nat.eqb_eq in HP0; lia|].
    rewrite (py_get_lookup _ _ _ (round_robin_lookup n P HP)). simpl.
    by rewrite round_robin_step.
Qed.

Lemma distribute_work_round_robin {A} (items : list A) P :
  (0 < P)%nat → distribute_work items P = Ok (round_robin (length items) P).
Proof.
  intros HP. unfold distribute_work.
  rewrite distribute_loop_seq by done. simpl.
  rewrite round_robin_sum by done. by rewrite Z.eqb_refl.
Qed.

Lemma foldl_max_bounds lo hi (l : list Z) x :
  lo ≤ x ≤ hi → Forall (λ y, lo ≤ y ≤ hi) l → lo ≤ foldl Z.max x l ≤ hi.
Proof.
  revert x. induction l as [|y l IH]; intros x Hx Hl; simpl; [done|].
  inversion Hl; subst. apply IH; [lia | done].
Qed.

Lemma foldl_min_bounds lo hi (l : list Z) x :
  lo ≤ x ≤ hi → Forall (λ y, lo ≤ y ≤ hi) l → lo ≤ foldl Z.min x l ≤ hi.
Proof.
  revert x. induction l as [|y l IH]; intros x Hx Hl; simpl; [done|].
  inversion Hl; subst. apply IH; [lia | done].
Qed.

Lemma round_robin_bounds n P :
  Forall (λ y, Z.of_nat (n / P) ≤ y ≤ Z.of_nat (n / P) + 1) (round_robin n P).
Proof.
  unfold round_robin. apply Forall_app. split; apply Forall_replicate; lia.
Qed.

End Distribute.

(** C8. For every item list (N = its length, so N >= 0) and P >= 1,
    [distribute_work] returns a vector of length P of non-negative integers
    whose sum is N and whose maximum exceeds its minimum by at most 1. *)
Theorem distribute_work_conservation {A} (items : list A) (P : nat) :
  (1 ≤ P)%nat →
  ∃ shares mx mn,
    distribute_work items P = Ok shares
    ∧ length shares = P
    ∧ Forall (λ x, 0 ≤ x) shares
    ∧ np_sum shares = Z.of_nat (length items)
    ∧ py_max_Z shares = Ok mx ∧ py_min_Z shares = Ok mn ∧ mx - mn ≤ 1.
Proof.
  intros HP. set (n := length items).
  pose proof (round_robin_bounds n P) as Hb.
  pose proof (round_robin_length n P ltac:(lia)) as Hlen.
  destruct (round_robin n P) as [|x l] eqn:Hrr; [simpl in Hlen; lia|].
  inversion Hb as [|? ? Hx Hl]; subst.
  exists (x :: l), (foldl Z.max x l), (foldl Z.min x l).
  split; [unfold n in *; rewrite distribute_work_round_robin, Hrr by lia; done|].
  split; [done|].
  split; [eapply Forall_impl; [exact Hb | simpl; lia]|].
  split; [rewrite <- Hrr; apply round_robin_sum; lia|].
  split; [done|]. split; [done|].
  pose proof (foldl_max_bounds _ _ l x Hx Hl).
  pose proof (foldl_min_bounds _ _ l x Hx Hl). lia.
Qed.

Lemma distribute_work_conservation_witness :
  ∃ shares mx mn,
    distribute_work ["a"; "b"; "c"; "d"; "e"; "f"; "g"] 3 = Ok shares
    ∧ length shares = 3%nat
    ∧ Forall (λ x, 0 ≤ x) shares
    ∧ np_sum shares = 7
    ∧ py_max_Z shares = Ok mx ∧ py_min_Z shares = Ok mn ∧ mx - mn ≤ 1.
Proof. apply (distribute_work_conservation ["a"; "b"; "c"; "d"; "e"; "f"; "g"] 3). lia. Defined.

(* --------------------------------------------------------------------- *)
(** ** Load balancing                                                     *)
(* --------------------------------------------------------------------- *)

Section Balance.

Variables launch_delay single_ex exec_count : Q.

Lemma count_nonzero_app l1 l2 :
  count_nonzero (l1 ++ l2) = (count_nonzero l1 + count_nonzero l2)%nat.
Proof. unfold count_nonzero. by rewrite filter_app, length_app. Qed.

Lemma count_nonzero_replicate k v :
  count_nonzero (replicate k v) = if decide (v = 0) then 0%nat else k.
Proof.
  unfold count_nonzero. induction k as [|k IH]; simpl.
  - by destruct (decide (v = 0)).
  - destruct (decide (v = 0)) as [->|Hv].
    + by rewrite filter_cons_False by (intros H; by apply H).
    + rewrite filter_cons_True by done. simpl. by rewrite IH.
Qed.

Lemma count_nonzero_round_robin n P :
  (0 < P)%nat → count_nonzero (round_robin n P) = (n `min` P)%nat.
Proof.
  intros HP. unfold round_robin.
  rewrite count_nonzero_app, !count_nonzero_replicate.
  pose proof (Nat.mod_upper_bound n P ltac:(lia)) as Hr.
  pose proof (Nat.div_mod_eq n P) as Hn.
  destruct (decide (Z.of_nat (n / P) + 1 = 0)) as [?|_]; [lia|].
  destruct (decide (Z.of_nat (n / P) = 0)) as [Hq|Hq]; nia.
Qed.

(** The guard at the head of the loop: as soon as one worker has a
    nonzero share the loop is left, whatever the projected times are. *)
Lemma balance_loop_busy fuel items ct :
  (0 < count_nonzero items)%nat →
  balance_loop (S fuel) launch_delay single_ex exec_count items ct = Ok items.
Proof.
  intros Hnz. simpl.
  by destruct (0 <? count_nonzero items)%nat eqn:E;
    [|apply Nat.ltb_ge in E; lia].
Qed.

Lemma completion_times_Ok items :
  Qeq_bool exec_count 0 = false →
  ∃ ct, completion_times launch_delay single_ex exec_count items = Ok ct.
Proof.
  intros Hec. unfold completion_times. rewrite Hec.
  destruct items; eauto.
Qed.

Lemma load_balance_busy fuel items :
  (0 < count_nonzero items)%nat →
  Qeq_bool exec_count 0 = false →
  load_balance (S fuel) items launch_delay single_ex exec_count
  = let kept := if (count_nonzero items <? length items)%nat
                then take (count_nonzero items) items else items in
    py_assert (np_sum items =? np_sum kept) ≫= λ _, Ok kept.
Proof.
  intros Hnz Hec. unfold load_balance.
  destruct (completion_times_Ok items Hec) as [ct ->].
  unfold mbind at 1, result_bind at 1.
  by rewrite balance_loop_busy.
Qed.

(** Downsizing on the round-robin seed: with work to do, the balancer
    keeps exactly the workers that got an item. *)
Lemma load_balance_round_robin fuel n P :
  (1 ≤ n)%nat → (1 ≤ P)%nat →
  Qeq_bool exec_count 0 = false →
  load_balance (S fuel) (round_robin n P) launch_delay single_ex exec_count
  = Ok (if (n <? P)%nat then replicate n 1 else round_robin n P).
Proof.
  intros Hn HP Hec.
  rewrite load_balance_busy; [|rewrite count_nonzero_round_robin; lia|done].
  rewrite count_nonzero_round_robin, round_robin_length by lia.
  cbv zeta.
  destruct (n <? P)%nat eqn:HnP.
  - apply Nat.ltb_lt in HnP.
    replace (n `min` P <? P)%nat with true by (symmetry; apply Nat.ltb_lt; lia).
    assert (take (n `min` P) (round_robin n P) = replicate n 1) as Htake.
    { unfold round_robin.
      rewrite Nat.mod_small, Nat.div_small by lia.
      rewrite take_app_le by (rewrite length_replicate; lia).
      rewrite take_ge by (rewrite length_replicate; lia). done. }
    rewrite Htake, round_robin_sum, np_sum_replicate by lia.
    replace (Z.of_nat n =? Z.of_nat n * 1) with true
      by (symmetry; apply Z.eqb_eq; lia).
    done.
  - apply Nat.ltb_ge in HnP.
    replace (n `min` P <? P)%nat with false by (symmetry; apply Nat.ltb_ge; lia).
    by rewrite Z.eqb_refl.
Qed.

End Balance.

(** Scenario S5: eight workers requested for three files. *)
Example downsize_8_to_3 :
  distribute_work ["f1"; "f2"; "f3"] 8 ≫= (λ r, load_balance 1 r (1#20) 35 1)
  = Ok [1; 1; 1].
Proof. reflexivity. Qed.


(** C9, evaluated on the emission call for an empty catchment list on 22
    workers: the only situation in which the loop body runs.  It takes an
    item from the last worker, who has none, the tail is then cut off and
    the final assertion on the item total fails. *)
Theorem load_balance_empty_work_fails (fuel : nat) :
  distribute_work (@nil string) 22 = Ok (replicate 22 0)
  ∧ balance_loop (S (S fuel)) (1#20) 1 200 (replicate 22 0)
      (imap (λ j _, (1#20) * inject_Z (Z.of_nat j))%Q (replicate 22 0))
    = Ok (1 :: replicate 20 0 ++ [-1])
  ∧ load_balance (S (S fuel)) (replicate 22 0) (1#20) 1 200
    = Raise AssertionError.
Proof.
  split; [vm_compute; reflexivity|].
  split; vm_compute; reflexivity.
Qed.

(* --------------------------------------------------------------------- *)
(** ** Crosswalk loader                                                   *)
(* --------------------------------------------------------------------- *)

(** Documents fetched from a bucket: each group holds the catchments of
    its own document. *)
Example load_weights_bucket :
  (load_weights [("s3://b/VPU_01/weights.json", doc_a);
                 ("s3://b/VPU_02/weights.json", doc_b)] [] [] 0).2
  = [("VPU_01", ["cat-1"]); ("VPU_02", ["cat-2"])].
Proof. reflexivity. Qed.

(** C3, evaluated on two local documents with disjoint keys: the second
    group also holds the catchment of the first document, so the groups do
    not partition the catchments. *)
Theorem load_weights_local_groups_overlap :
  (load_weights [("weights_a.json", doc_a); ("weights_b.json", doc_b)] [] [] 0).2
  = [("1", ["cat-1"]); ("2", ["cat-1"; "cat-2"])].
Proof. reflexivity. Qed.

(* --------------------------------------------------------------------- *)
(** ** Grid decoder                                                       *)
(* --------------------------------------------------------------------- *)

Lemma res_mapM_Ok_length {A B} (f : A → result B) l out :
  res_mapM f l = Ok out → length out = length l.
Proof.
  revert out. induction l as [|x l IH]; intros out; simpl.
  - by intros [= <-].
  - destruct (f x) as [y| |]; simpl; [|done..].
    destruct (res_mapM f l) as [ys| |]; simpl; [|done..].
    intros [= <-]. simpl. by rewrite (IH ys).
Qed.

Lemma res_mapM_Ok_lookup {A B} (f : A → result B) l out i x :
  res_mapM f l = Ok out → l !! i = Some x →
  ∃ y, f x = Ok y ∧ out !! i = Some y.
Proof.
  revert out i. induction l as [|x' l IH]; intros out i; simpl; [done|].
  destruct (f x') as [y'| |] eqn:Hf; simpl; [|done..].
  destruct (res_mapM f l) as [ys| |]; simpl; [|done..].
  intros [= <-]. destruct i as [|i]; simpl.
  - intros [= <-]. eauto.
  - intros Hi. by apply IH.
Qed.

Lemma res_mapM_all_Ok {A B} (f : A → result B) (g : A → B) l :
  (∀ x, x ∈ l → f x = Ok (g x)) → res_mapM f l = Ok (map g l).
Proof.
  induction l as [|x l IH]; intros Hf; simpl; [done|].
  rewrite Hf by left. simpl. rewrite IH; [done|].
  intros y Hy. apply Hf. by right.
Qed.

(** Both rows read from RAINRATE carry the scaled field. *)
Lemma decode_rainrate nwm_data data_allvars rain :
  decode nwm_data = Ok data_allvars →
  ds_vars nwm_data !! "RAINRATE" = Some rain →
  data_allvars !! 3%nat = Some (map (Qmult 3600) rain)
  ∧ data_allvars !! 4%nat = Some (map (Qmult 3600) rain).
Proof.
  unfold decode. intros Hd Hrain.
  destruct (ds_vars nwm_data !! "U2D"); [|done].
  pose proof (res_mapM_Ok_lookup _ _ _ 3%nat "RAINRATE" Hd eq_refl) as (y3 & H3 & ->).
  pose proof (res_mapM_Ok_lookup _ _ _ 4%nat "RAINRATE" Hd eq_refl) as (y4 & H4 & ->).
  rewrite Hrain in H3, H4. simpl in H3, H4.
  destruct (length rain =? _)%nat; [|done].
  by injection H3 as <-; injection H4 as <-.
Qed.

Lemma decode_length nwm_data data_allvars :
  decode nwm_data = Ok data_allvars → length data_allvars = length nwm_variables.
Proof.
  unfold decode. destruct (ds_vars nwm_data !! "U2D"); [|done].
  apply res_mapM_Ok_length.
Qed.

(** C1, evaluated on scenario S2 (RAINRATE = 1 on every cell): the row
    decoded for APCP_surface is 3600 and not the input field, and after
    projection both APCP_surface and precip_rate are 3600 for every
    catchment, so precip_rate is not 3600 times APCP_surface. *)
Theorem rainrate_scaled_for_both_outputs :
  ngen_variables !! 3%nat = Some "APCP_surface"
  ∧ ngen_variables !! 4%nat = Some "precip_rate"
  ∧ ∃ data_allvars data_array,
      decode (s_dataset "20230101_0000" 1) = Ok data_allvars
      ∧ data_allvars !! 3%nat = Some [3600; 3600; 3600]%Q
      ∧ data_allvars !! 4%nat = Some [3600; 3600; 3600]%Q
      ∧ project data_allvars s1_crosswalk = Ok data_array
      ∧ map Qred <$> data_array !! 3%nat = Some [3600; 3600]%Q
      ∧ map Qred <$> data_array !! 4%nat = Some [3600; 3600]%Q.
Proof.
  split; [done|]. split; [done|].
  eexists _, _.
  split; [vm_compute; reflexivity|].
  split; [vm_compute; reflexivity|].
  split; [vm_compute; reflexivity|].
  split; [vm_compute; reflexivity|].
  split; vm_compute; reflexivity.
Qed.

(* --------------------------------------------------------------------- *)
(** ** Projector                                                          *)
(* --------------------------------------------------------------------- *)

Section Projector.

(** The flattened grid: one row of [ncell] values per variable. *)
Variable G : list (list Q).
Variable ncell : nat.
Hypothesis G_rows : Forall (λ g, length g = ncell) G.

Lemma np_index_in_range g c :
  0 ≤ c < Z.of_nat (length g) → np_index g c = Ok (cell_value g c).
Proof.
  intros Hc. unfold np_index, cell_value.
  replace (0 <=? c) with true by (symmetry; apply Z.leb_le; lia).
  replace (c <? Z.of_nat (length g)) with true by (symmetry; apply Z.ltb_lt; lia).
  simpl. unfold py_get.
  destruct (lookup_lt_is_Some_2 g (Z.to_nat c) ltac:(lia)) as [q ->]. done.
Qed.

Lemma gather_in_range g cells :
  length g = ncell →
  Forall (λ c, 0 ≤ c < Z.of_nat ncell) cells →
  res_mapM (np_index g) cells = Ok (map (cell_value g) cells).
Proof.
  intros Hg Hcells. apply res_mapM_all_Ok. intros c Hc.
  apply np_index_in_range. rewrite Hg.
  by apply (proj1 (Forall_forall _ _) Hcells).
Qed.

Lemma np_mul_same_length coverage mask :
  length coverage = length mask →
  np_mul coverage mask = Ok (zip_with Qmult coverage mask).
Proof. intros H. unfold np_mul. rewrite H, Nat.eqb_refl. done. Qed.

Lemma project_catchment_mean cells weights :
  valid_descriptor ncell (cells, weights) →
  project_catchment G (cells, weights)
  = Ok (map (λ g, weighted_mean g cells weights) G).
Proof.
  intros [Hlen Hcells]. simpl in *. unfold project_catchment. simpl.
  rewrite (res_mapM_all_Ok _ (λ g, map (cell_value g) cells)); last first.
  { intros g Hg. apply gather_in_range; [|done].
    by apply (proj1 (Forall_forall _ _) G_rows). }
  simpl.
  rewrite (res_mapM_all_Ok _ (zip_with Qmult weights)); last first.
  { intros m Hm. apply np_mul_same_length.
    apply list_elem_of_fmap in Hm as (g & -> & _).
    rewrite length_map. done. }
  simpl. f_equal. rewrite <- !list_fmap_compose.
  apply list_fmap_ext. intros _ g _. simpl.
  unfold weighted_mean. f_equal. f_equal.
  clear. revert cells. induction weights as [|w ws IH]; intros [|c cs]; simpl; [done..|].
  by rewrite IH.
Qed.

Lemma set_column_length jcatch column data_array :
  length column = length data_array →
  length (set_column jcatch column data_array) = length data_array.
Proof. intros H. unfold set_column. rewrite length_zip_with. lia. Qed.

Lemma set_column_lookup jcatch column data_array v data_row c :
  data_array !! v = Some data_row → column !! v = Some c →
  set_column jcatch column data_array !! v = Some (<[jcatch := c]> data_row).
Proof.
  intros Hrow Hc. unfold set_column.
  rewrite lookup_zip_with, Hrow. simpl. by rewrite Hc.
Qed.

(** The loop over the crosswalk fills column [j0 + k] with the result
    for its [k]-th catchment and leaves the columns before [j0] alone. *)
Lemma project_loop_columns items columns :
  Forall2 (λ item column,
             project_catchment G item.2 = Ok column
             ∧ length column = length G) items columns →
  ∀ j0 data_array,
    length data_array = length G →
    ∃ out,
      project_loop G items j0 data_array = Ok out
      ∧ length out = length G
      ∧ ∀ v data_row,
          data_array !! v = Some data_row →
          (j0 + length items ≤ length data_row)%nat →
          ∃ out_row,
            out !! v = Some out_row
            ∧ length out_row = length data_row
            ∧ (∀ p, (p < j0)%nat → out_row !! p = data_row !! p)
            ∧ (∀ k column c,
                 columns !! k = Some column → column !! v = Some c →
                 out_row !! (j0 + k)%nat = Some c).
Proof.
  induction 1 as [|[key value] column items columns [Hcol Hlen] Hrest IH];
    intros j0 data_array Harr.
  - exists data_array. split; [done|]. split; [done|].
    intros v data_row Hv _. exists data_row. repeat split; try done.
  - simpl in Hcol. simpl. rewrite Hcol. simpl.
    destruct (IH (S j0) (set_column j0 column data_array)) as (out & Hout & Hlo & Hrows).
    { rewrite set_column_length; congruence. }
    exists out. split; [done|]. split; [done|].
    intros v data_row Hv Hroom. simpl in Hroom.
    destruct (lookup_lt_is_Some_2 column v) as [c Hc].
    { rewrite Hlen, <- Harr. by eapply lookup_lt_Some. }
    destruct (Hrows v _ (set_column_lookup j0 _ _ _ _ _ Hv Hc)) as (out_row & Ho & Hl & Hlt & Hk).
    { rewrite length_insert. lia. }
    exists out_row. split; [done|].
    split; [by rewrite Hl, length_insert|].
    split.
    + intros p Hp. rewrite Hlt by lia. apply list_lookup_insert_ne. lia.
    + intros [|k] column' c' Hcol' Hc'; simpl in Hcol'.
      * injection Hcol' as <-. rewrite Hc in Hc'. injection Hc' as <-.
        rewrite Nat.add_0_r, Hlt by lia. apply list_lookup_insert_eq. lia.
      * replace (j0 + S k)%nat with (S j0 + k)%nat by lia. by eapply Hk.
Qed.

Lemma Qsum_unit_weights (f : Z → Q) cells :
  (Qsum (zip_with (λ w c, w * f c) (replicate (length cells) 1%Q) cells)
   == Qsum (map f cells))%Q.
Proof.
  induction cells as [|c cells IH]; simpl; [reflexivity|].
  rewrite IH. ring.
Qed.

Lemma Qsum_ones n : (Qsum (replicate n 1%Q) == inject_Z (Z.of_nat n))%Q.
Proof.
  induction n as [|n IH]; [reflexivity|].
  change (Qsum (replicate (S n) 1%Q)) with (1 + Qsum (replicate n 1%Q))%Q.
  rewrite IH, Nat2Z.inj_succ. unfold Z.succ. rewrite inject_Z_plus. ring.
Qed.

Lemma weighted_mean_unit_weights g cells :
  (weighted_mean g cells (replicate (length cells) 1%Q) == plain_mean g cells)%Q.
Proof.
  unfold weighted_mean, plain_mean.
  rewrite (Qsum_unit_weights (cell_value g)), Qsum_ones. reflexivity.
Qed.

End Projector.

(** C6. On a grid of nine variables, for a crosswalk whose descriptors are
    well formed and a catchment [j] of positive total weight, the projector
    returns a slice whose entry for variable [v] and catchment [j] is the
    weighted mean of that variable over the cells of the catchment; with
    unit weights it is the plain mean over those cells. *)
Theorem projector_weighted_mean (G : list (list Q)) (ncell : nat)
    (weights_json : crosswalk) (j : nat) (key : string)
    (cells : list Z) (weights : list Q) :
  length G = length nwm_variables →
  Forall (λ g, length g = ncell) G →
  Forall (λ item, valid_descriptor ncell item.2) weights_json →
  weights_json !! j = Some (key, (cells, weights)) →
  (0 < Qsum weights)%Q →
  ∃ data_array,
    project G weights_json = Ok data_array
    ∧ ∀ v g, G !! v = Some g →
        (data_array !! v ≫= (.!! j)) = Some (weighted_mean g cells weights)
        ∧ (weights = replicate (length cells) 1%Q →
           (weighted_mean g cells weights == plain_mean g cells)%Q).
Proof.
  intros HG Hrows Hvalid Hj _.
  set (columns := map (λ item : string * descriptor,
                         map (λ g, weighted_mean g item.2.1 item.2.2) G) weights_json).
  assert (Forall2 (λ item column,
                     project_catchment G item.2 = Ok column
                     ∧ length column = length G) weights_json columns) as Hcols.
  { unfold columns. apply Forall2_fmap_r, Forall_Forall2_diag.
    eapply Forall_impl; [exact Hvalid|]. intros [k [cs ws]] Hv. simpl in *.
    split; [by eapply project_catchment_mean | by rewrite length_map]. }
  unfold project.
  destruct (project_loop_columns G _ _ Hcols 0%nat
              (replicate (length nwm_variables)
                 (replicate (length weights_json) 0%Q)))
    as (out & Hout & Hlen & Hlook).
  { by rewrite length_replicate. }
  exists out. split; [done|].
  intros v g Hg.
  assert (v < length nwm_variables)%nat as Hv
    by (rewrite <- HG; by eapply lookup_lt_Some).
  destruct (Hlook v (replicate (length weights_json) 0%Q)) as (out_row & Ho & _ & _ & Hk).
  { by apply lookup_replicate_2. }
  { rewrite length_replicate. lia. }
  split.
  - rewrite Ho. simpl.
    apply (Hk j (map (λ g, weighted_mean g cells weights) G)).
    + unfold columns. by rewrite list_lookup_fmap, Hj.
    + by rewrite list_lookup_fmap, Hg.
  - intros ->. apply weighted_mean_unit_weights.
Qed.

Lemma projector_weighted_mean_witness :
  ∃ data_array,
    project s1_grid s1_crosswalk = Ok data_array
    ∧ ∀ v g,
        s1_grid !! v = Some g →
        (data_array !! v ≫= (.!! 0%nat)) = Some (weighted_mean g [0; 1] [1%Q; 1%Q])
        ∧ ([1%Q; 1%Q] = replicate (length [0; 1]) 1%Q →
           (weighted_mean g [0; 1]%Z [1%Q; 1%Q] == plain_mean g [0; 1]%Z)%Q).
Proof.
  apply (projector_weighted_mean s1_grid 3 s1_crosswalk 0 "cat-1" [0; 1] [1%Q; 1%Q]).
  - reflexivity.
  - repeat constructor.
  - repeat constructor; simpl; lia.
  - reflexivity.
  - reflexivity.
Defined.

(* --------------------------------------------------------------------- *)
(** ** File names                                                         *)
(* --------------------------------------------------------------------- *)

Lemma chars_app (a b : string) :
  list_ascii_of_string (a +:+ b) = list_ascii_of_string a ++ list_ascii_of_string b.
Proof. induction a as [|c a IH]; simpl; [done | by rewrite IH]. Qed.

Lemma chars_inj (a b : string) :
  list_ascii_of_string a = list_ascii_of_string b → a = b.
Proof.
  intros H. rewrite <- (string_of_list_ascii_of_string a),
    <- (string_of_list_ascii_of_string b). by rewrite H.
Qed.

Lemma str_app_assoc (a b c : string) : (a +:+ b) +:+ c = a +:+ b +:+ c.
Proof. apply chars_inj. by rewrite !chars_app, app_assoc. Qed.

Lemma str_app_inv_tail (a b e : string) : a +:+ e = b +:+ e → a = b.
Proof.
  intros H. apply chars_inj. apply (f_equal list_ascii_of_string) in H.
  rewrite !chars_app in H. by apply app_inv_tail in H.
Qed.

(** Two names with different last characters are different. *)
Lemma str_app_last_char (a b e1 e2 : string) (c d : ascii) :
  a +:+ e1 +:+ String c "" = b +:+ e2 +:+ String d "" → c = d.
Proof.
  intros H. apply (f_equal list_ascii_of_string) in H.
  rewrite !chars_app, !app_assoc in H. simpl in H.
  by apply app_inj_tail in H as [_ ?].
Qed.

Lemma cat_name_inj (out_path ext id1 id2 : string) :
  out_path +:+ "/cat-" +:+ id1 +:+ ext = out_path +:+ "/cat-" +:+ id2 +:+ ext →
  id1 = id2.
Proof.
  intros H. apply String.app_inj in H. apply (String.app_inj "/cat-") in H.
  by apply str_app_inv_tail in H.
Qed.

Lemma all_word_dot (a b : string) : all_word (a +:+ "." +:+ b) = false.
Proof.
  induction a as [|c a IH]; [done|].
  change (String c a +:+ "." +:+ b) with (String c (a +:+ "." +:+ b)).
  cbn [all_word]. rewrite IH. apply andb_false_r.
Qed.

Lemma re_sub_zip_ext (stem ext : string) :
  ext ≠ "" → all_word ext = true →
  re_sub_zip (stem +:+ "." +:+ ext) = stem +:+ ".zip".
Proof.
  intros Hne Hw. induction stem as [|c stem IH].
  - change ("" +:+ "." +:+ ext) with (String "." ext). cbn [re_sub_zip].
    rewrite Hw. destruct (String.eqb ext "") eqn:E; [|done].
    by apply String.eqb_eq in E.
  - change (String c stem +:+ "." +:+ ext) with (String c (stem +:+ "." +:+ ext)).
    cbn [re_sub_zip]. rewrite all_word_dot, andb_false_r, IH. done.
Qed.

Lemma table_ext_cases (output_file_type : list string) :
  table_ext output_file_type = ".parquet" ∨ table_ext output_file_type = ".csv".
Proof. unfold table_ext. case_bool_decide; auto. Qed.

(** The scratch file of the size measurement is none of the tables. *)
Lemma zip_name_not_table (output_file_type : list string) (stem stem' : string) :
  stem +:+ ".zip" ≠ stem' +:+ table_ext output_file_type.
Proof.
  destruct (table_ext_cases output_file_type) as [-> | ->]; intros H.
  - by apply (str_app_last_char stem stem' ".zi" ".parque" "p" "t") in H.
  - by apply (str_app_last_char stem stem' ".zi" ".cs" "p" "v") in H.
Qed.

Lemma re_sub_zip_table (output_file_type : list string) (stem : string) :
  re_sub_zip (stem +:+ table_ext output_file_type) = stem +:+ ".zip".
Proof.
  destruct (table_ext_cases output_file_type) as [-> | ->].
  - by apply (re_sub_zip_ext stem "parquet").
  - by apply (re_sub_zip_ext stem "csv").
Qed.

(* --------------------------------------------------------------------- *)
(** ** Emitter: one catchment                                             *)
(* --------------------------------------------------------------------- *)

Lemma py_bind_Ok {A B} (m : py A) (f : A → py B) w w1 a :
  m w = (w1, Ok a) → (m ≫= f) w = f a w1.
Proof. intros H. unfold mbind, py_bind. by rewrite H. Qed.

Lemma py_bind_lift_Ok {A B} (r : result A) (f : A → py B) w a :
  r = Ok a → (lift r ≫= f) w = f a w.
Proof. by intros ->. Qed.

Lemma untouched_refl storage_type ext w : untouched storage_type ext w w.
Proof. by destruct storage_type. Qed.

Lemma untouched_trans storage_type ext w1 w2 w3 :
  untouched storage_type ext w1 w2 → untouched storage_type ext w2 w3 →
  untouched storage_type ext w1 w3.
Proof.
  unfold untouched. destruct storage_type; [|done|].
  - intros H1 H2 bucket key Hk. by rewrite H2, H1.
  - intros H1 H2 k Hk Hz. by rewrite H2, H1.
Qed.

Section EmitOne.

Variables (output_file_type : list string) (storage_type : storage).
Variable out_path : string.

Hypothesis format_named :
  named output_file_type "parquet" || named output_file_type "csv" = true.

Hypothesis store_known :
  storage_type = Local
  ∨ (storage_type = S3 ∧ ∃ bk, convert_url2key out_path (Some S3) = Ok bk).

Local Abbreviation ext := (table_ext output_file_type).
Local Abbreviation view := (stored storage_type out_path ext).

Lemma view_local w x :
  storage_type = Local →
  view w x = local_files w !! (out_path +:+ "/cat-" +:+ x +:+ ext).
Proof. by intros ->. Qed.

Lemma view_s3 w x bk :
  storage_type = S3 → convert_url2key out_path (Some S3) = Ok bk →
  view w x = s3_objects w !! (bk.1, bk.2 +:+ "/cat-" +:+ x +:+ ext).
Proof. intros -> Hbk. unfold stored. by rewrite Hbk. Qed.

(** The name [emit] builds is the one [stored] looks up. *)
Lemma ext_parquet : named output_file_type "parquet" = true → ext = ".parquet".
Proof. unfold named, table_ext. by intros ->. Qed.

Lemma ext_csv : named output_file_type "parquet" = false → ext = ".csv".
Proof. unfold named, table_ext. by intros ->. Qed.

Lemma emit_spec ii_append cat_id df filename w :
  (ii_append = true → is_Some (view w cat_id)) →
  ∃ w' filename',
    emit output_file_type storage_type out_path ii_append cat_id df filename w
    = (w', Ok (if ii_append then default [] (view w cat_id) ++ df else df, filename'))
    ∧ (∀ x, view w' x = write_one ii_append (view w) (cat_id, df) x)
    ∧ opened w' = opened w
    ∧ untouched storage_type ext w w'
    ∧ (storage_type = Local →
       filename' = (out_path +:+ "/cat-" +:+ cat_id) +:+ ext
       ∧ is_Some (local_files w' !! filename')).
Proof.
  intros Hold. unfold emit. rewrite format_named.
  set (df' := if ii_append then default [] (view w cat_id) ++ df else df).
  destruct store_known as [Hst | (Hst & bk & Hbk)].
  - (* local files *)
    assert (∀ e, e = ext →
      ((if ii_append
        then read_local (out_path +:+ "/cat-" +:+ cat_id +:+ e)
             ≫= λ df_bucket, mret (df_bucket ++ df)
        else mret df) : py table) w = (w, Ok df')) as Hread.
    { intros e ->. unfold df'. destruct ii_append; [|done].
      destruct (Hold eq_refl) as [old Hv]. rewrite Hv.
      rewrite view_local in Hv by done.
      unfold mbind, py_bind, read_local. by rewrite Hv. }
    assert (∀ e, e = ext → ∃ w',
      w' = set_local (insert (out_path +:+ "/cat-" +:+ cat_id +:+ e) df') w
      ∧ (∀ x, view w' x = write_one ii_append (view w) (cat_id, df) x)
      ∧ opened w' = opened w
      ∧ untouched storage_type ext w w'
      ∧ (storage_type = Local →
         out_path +:+ "/cat-" +:+ cat_id +:+ e = (out_path +:+ "/cat-" +:+ cat_id) +:+ ext
         ∧ is_Some (local_files w' !! (out_path +:+ "/cat-" +:+ cat_id +:+ e)))) as Hwrite.
    { intros e ->. eexists. split; [reflexivity|]. split; [|split; [done|split]].
      - intros x. unfold write_one. simpl. rewrite !view_local by done. simpl.
        destruct (decide (x = cat_id)) as [->|Hne].
        + rewrite lookup_insert_eq. unfold df'. by rewrite view_local.
        + rewrite lookup_insert_ne; [done|].
          intros H. apply cat_name_inj in H. congruence.
      - unfold untouched. rewrite Hst. intros k Hk _. simpl. apply lookup_insert_ne.
        rewrite <- !str_app_assoc. apply not_eq_sym, Hk.
      - intros _. split; [by rewrite !str_app_assoc|].
        simpl. rewrite lookup_insert_eq. eauto. }
    destruct (named output_file_type "parquet") eqn:Hpq.
    + destruct (Hwrite ".parquet" (eq_sym (ext_parquet Hpq))) as (w' & -> & Hv & Ho & Hu & Hl).
      eexists _, _. split; [|split; [exact Hv | split; [exact Ho | split; [exact Hu | exact Hl]]]].
      rewrite Hst, ?Hbk. simpl.
      rewrite (py_bind_Ok _ _ _ _ _ (Hread ".parquet" (eq_sym (ext_parquet Hpq)))).
      reflexivity.
    + simpl in format_named. rewrite format_named.
      destruct (Hwrite ".csv" (eq_sym (ext_csv Hpq))) as (w' & -> & Hv & Ho & Hu & Hl).
      eexists _, _. split; [|split; [exact Hv | split; [exact Ho | split; [exact Hu | exact Hl]]]].
      rewrite Hst, ?Hbk. simpl.
      rewrite (py_bind_Ok _ _ _ _ _ (Hread ".csv" (eq_sym (ext_csv Hpq)))).
      reflexivity.
  - (* objects of a bucket *)
    assert (∀ e, e = ext →
      ((if ii_append
        then get_object bk.1 (bk.2 +:+ "/cat-" +:+ cat_id +:+ e)
             ≫= λ df_bucket, mret (df_bucket ++ df)
        else mret df) : py table) w = (w, Ok df')) as Hread.
    { intros e ->. unfold df'. destruct ii_append; [|done].
      destruct (Hold eq_refl) as [old Hv]. rewrite Hv.
      rewrite (view_s3 _ _ bk) in Hv by done.
      unfold mbind, py_bind, get_object. by rewrite Hv. }
    assert (∀ e, e = ext → ∃ w',
      w' = set_s3 (insert (bk.1, bk.2 +:+ "/cat-" +:+ cat_id +:+ e) df') w
      ∧ (∀ x, view w' x = write_one ii_append (view w) (cat_id, df) x)
      ∧ opened w' = opened w
      ∧ untouched storage_type ext w w') as Hwrite.
    { intros e ->. eexists. split; [reflexivity|]. split; [|split; [done|]]; last first.
      { unfold untouched. rewrite Hst. intros bucket key Hk. simpl. apply lookup_insert_ne.
        intros [= _ Hkey]. apply (Hk (bk.2 +:+ "/cat-" +:+ cat_id)).
        by rewrite <- Hkey, !str_app_assoc. }
      intros x. unfold write_one. simpl. rewrite !(view_s3 _ _ bk) by done. simpl.
      destruct (decide (x = cat_id)) as [->|Hne].
      + rewrite lookup_insert_eq. unfold df'. by rewrite (view_s3 _ _ bk).
      + rewrite lookup_insert_ne; [done|].
        intros [= H]. apply cat_name_inj in H. congruence. }
    assert (storage_type = Local → False) as Hno by (rewrite Hst; discriminate).
    destruct (named output_file_type "parquet") eqn:Hpq.
    + destruct (Hwrite ".parquet" (eq_sym (ext_parquet Hpq))) as (w' & -> & Hv & Ho & Hu).
      eexists _, _. split; [|split; [exact Hv | split; [exact Ho | split; [exact Hu | by intros ?%Hno]]]].
      rewrite Hst, Hbk. rewrite (py_bind_lift_Ok (Ok bk) _ w bk eq_refl). cbv beta.
      rewrite (py_bind_Ok _ _ _ _ _ (Hread ".parquet" (eq_sym (ext_parquet Hpq)))).
      reflexivity.
    + simpl in format_named. rewrite format_named.
      destruct (Hwrite ".csv" (eq_sym (ext_csv Hpq))) as (w' & -> & Hv & Ho & Hu).
      eexists _, _. split; [|split; [exact Hv | split; [exact Ho | split; [exact Hu | by intros ?%Hno]]]].
      rewrite Hst, Hbk. rewrite (py_bind_lift_Ok (Ok bk) _ w bk eq_refl). cbv beta.
      rewrite (py_bind_Ok _ _ _ _ _ (Hread ".csv" (eq_sym (ext_csv Hpq)))).
      reflexivity.
Qed.

Lemma measure_sizes_spec cat_id df filename w :
  ∃ w' filename',
    measure_sizes cat_id df filename w = (w', Ok filename')
    ∧ s3_objects w' = s3_objects w
    ∧ opened w' = opened w
    ∧ (is_Some (local_files w !! filename) →
       local_files w' = delete (re_sub_zip filename) (local_files w)).
Proof.
  unfold measure_sizes, mbind, py_bind, path_exists.
  case_bool_decide as Hthere; simpl.
  - unfold remove_local. simpl. rewrite lookup_insert_eq. simpl.
    eexists _, _. split; [reflexivity|]. split; [done|]. split; [done|].
    intros _. simpl. by rewrite delete_insert_eq.
  - unfold remove_local. simpl. rewrite lookup_insert_eq. simpl.
    rewrite lookup_insert_eq. simpl.
    eexists _, _. split; [reflexivity|]. split; [done|]. split; [done|].
    intros Hsome. by destruct Hthere.
Qed.

(** The size measurement leaves the stored tables as they are. *)
Lemma measure_sizes_view cat_id df filename w :
  (storage_type = Local →
   ∃ stem, filename = stem +:+ ext ∧ is_Some (local_files w !! filename)) →
  ∃ w' filename',
    measure_sizes cat_id df filename w = (w', Ok filename')
    ∧ (∀ x, view w' x = view w x)
    ∧ opened w' = opened w
    ∧ untouched storage_type ext w w'.
Proof.
  intros Hthere.
  destruct (measure_sizes_spec cat_id df filename w)
    as (w' & filename' & Hrun & Hs3 & Hopen & Hlocal).
  exists w', filename'. split; [done|].
  destruct store_known as [Hst | (Hst & bk & Hbk)].
  - destruct (Hthere Hst) as (stem & -> & Hsome).
    split; [|split; [done|]].
    + intros x. rewrite !view_local by done.
      rewrite (Hlocal Hsome), re_sub_zip_table.
      apply lookup_delete_ne.
      rewrite <- !str_app_assoc. apply zip_name_not_table.
    + unfold untouched. rewrite Hst. intros k _ Hk.
      rewrite (Hlocal Hsome), re_sub_zip_table.
      apply lookup_delete_ne, not_eq_sym, Hk.
  - split; [|split; [done|]].
    + intros x. rewrite !(view_s3 _ _ bk) by done. by rewrite Hs3.
    + unfold untouched. rewrite Hst. intros bucket key _. by rewrite Hs3.
Qed.



Lemma write_one_ext ii_append (v1 v2 : string → option table) item :
  (∀ x, v1 x = v2 x) →
  ∀ x, write_one ii_append v1 item x = write_one ii_append v2 item x.
Proof. intros H x. unfold write_one. by rewrite (H item.1), (H x). Qed.

Lemma apply_writes_ext ii_append items (v1 v2 : string → option table) :
  (∀ x, v1 x = v2 x) →
  ∀ x, apply_writes ii_append items v1 x = apply_writes ii_append items v2 x.
Proof.
  revert v1 v2. induction items as [|item items IH]; intros v1 v2 H; [done|].
  apply IH. by apply write_one_ext.
Qed.

Lemma apply_writes_app ii_append items1 items2 (v : string → option table) :
  apply_writes ii_append (items1 ++ items2) v
  = apply_writes ii_append items2 (apply_writes ii_append items1 v).
Proof. unfold apply_writes. by rewrite foldl_app. Qed.

Lemma write_one_is_Some ii_append (v : string → option table) item x :
  is_Some (v x) → is_Some (write_one ii_append v item x).
Proof. intros H. unfold write_one. case_decide; [eauto | done]. Qed.

Lemma apply_writes_is_Some ii_append items (v : string → option table) x :
  is_Some (v x) → is_Some (apply_writes ii_append items v x).
Proof.
  revert v. induction items as [|item items IH]; intros v H; [done|].
  apply IH. by apply write_one_is_Some.
Qed.

(** The loop of [write_data] writes the frames of its catchments in
    order and touches nothing else. *)
Lemma write_loop_spec data t_ax ii_append catchments items :
  Forall2 (λ jcatch item, cat_id_of jcatch = Ok item.1) catchments items →
  ∀ j filename w,
    (∀ i item, items !! i = Some item → make_df data t_ax (j + i) = Ok item.2) →
    (ii_append = true → ∀ item, item ∈ items → is_Some (view w item.1)) →
    ∃ w' r,
      write_loop output_file_type storage_type data t_ax out_path ii_append
        j catchments filename w = (w', Ok r)
      ∧ (∀ x, view w' x = apply_writes ii_append items (view w) x)
      ∧ opened w' = opened w
      ∧ untouched storage_type ext w w'.
Proof.
  induction 1 as [|jcatch item catchments items Hid Hrest IH];
    intros j filename w Hdf Hold.
  - eexists _, _. split; [done|]. split; [done|]. split; [done|].
    apply untouched_refl.
  - cbn [write_loop].
    pose proof (Hdf 0%nat item eq_refl) as Hdf0. rewrite Nat.add_0_r in Hdf0.
    rewrite (py_bind_lift_Ok _ _ _ _ Hdf0), (py_bind_lift_Ok _ _ _ _ Hid).
    destruct (emit_spec ii_append item.1 item.2 filename w)
      as (w1 & filename1 & Hemit & Hview1 & Hopen1 & Hun1 & Hlocal1).
    { intros Happ. apply (Hold Happ). by left. }
    rewrite (py_bind_Ok _ _ _ _ _ Hemit). cbn [fst snd].
    assert (∃ w2 filename2,
      ((if (j =? 0)%nat
        then measure_sizes item.1
               (if ii_append then default [] (view w item.1) ++ item.2 else item.2)
               filename1
        else mret filename1) : py string) w1 = (w2, Ok filename2)
      ∧ (∀ x, view w2 x = view w1 x) ∧ opened w2 = opened w1
      ∧ untouched storage_type ext w1 w2)
      as (w2 & filename2 & Hmeasure & Hview2 & Hopen2 & Hun2).
    { destruct (j =? 0)%nat;
        [|eexists _, _; split; [done|]; split; [done|]; split; [done|];
          apply untouched_refl].
      apply measure_sizes_view. intros Hst. destruct (Hlocal1 Hst) as [-> ?]. eauto. }
    rewrite (py_bind_Ok _ _ _ _ _ Hmeasure).
    destruct (IH (S j) filename2 w2) as (w' & r & Hloop & Hview & Hopen & Hun).
    { intros i it Hi. replace (S j + i)%nat with (j + S i)%nat by lia. by apply Hdf. }
    { intros Happ it Hit. rewrite Hview2, Hview1.
      apply write_one_is_Some, (Hold Happ). by right. }
    rewrite (py_bind_Ok _ _ _ _ _ Hloop).
    eexists _, _. split; [reflexivity|].
    split; [|split; [congruence | eauto using untouched_trans]].
    intros x. rewrite Hview. cbn [apply_writes foldl].
    apply apply_writes_ext. intros y. rewrite Hview2, Hview1. by destruct item.
Qed.

Lemma write_data_spec data t_ax ii_append catchments items w :
  catchments ≠ [] →
  Forall2 (λ jcatch item, cat_id_of jcatch = Ok item.1) catchments items →
  (∀ i item, items !! i = Some item → make_df data t_ax i = Ok item.2) →
  (ii_append = true → ∀ item, item ∈ items → is_Some (view w item.1)) →
  ∃ w' r,
    write_data output_file_type storage_type data t_ax catchments out_path
      ii_append w = (w', Ok r)
    ∧ (∀ x, view w' x = apply_writes ii_append items (view w) x)
    ∧ opened w' = opened w
    ∧ untouched storage_type ext w w'.
Proof.
  intros Hne Hids Hdf Hold. unfold write_data.
  assert (((if decide (storage_type = S3)
            then lift (convert_url2key out_path (Some storage_type) ≫= λ _, Ok tt)
            else mret tt) : py unit) w = (w, Ok tt)) as Hpre.
  { destruct store_known as [Hst | (Hst & bk & Hbk)].
    - rewrite decide_False by (rewrite Hst; discriminate). done.
    - rewrite decide_True by done. rewrite Hst, Hbk. done. }
  rewrite (py_bind_Ok _ _ _ _ _ Hpre).
  destruct (write_loop_spec data t_ax ii_append catchments items Hids 0%nat "" w)
    as (w' & r & Hloop & Hview & Hopen & Hun); [done | done |].
  rewrite (py_bind_Ok _ _ _ _ _ Hloop).
  destruct catchments; [done|].
  by eexists _, _.
Qed.

End EmitOne.

(* --------------------------------------------------------------------- *)
(** ** Emitter: the workers                                               *)
(* --------------------------------------------------------------------- *)

Lemma res_mapM_map {A B C} (f : B → result C) (g : A → B) l :
  res_mapM f (map g l) = res_mapM (λ x, f (g x)) l.
Proof. induction l as [|x l IH]; simpl; [done | by rewrite IH]. Qed.

Lemma res_mapM_ext {A B} (f g : A → result B) l :
  Forall (λ x, f x = g x) l → res_mapM f l = res_mapM g l.
Proof. induction 1 as [|x l Hx _ IH]; simpl; [done | by rewrite Hx, IH]. Qed.

Lemma py_slice_lookup {A} (l : list A) (a b : Z) (i : nat) :
  0 ≤ a → b ≤ Z.of_nat (length l) → a + Z.of_nat i < b →
  py_slice a b l !! i = l !! (Z.to_nat a + i)%nat.
Proof.
  intros Ha Hb Hi. unfold py_slice, py_bound.
  replace (a <? 0) with false by (symmetry; apply Z.ltb_ge; lia).
  replace (b <? 0) with false by (symmetry; apply Z.ltb_ge; lia).
  replace (a `min` Z.of_nat (length l)) with a by lia.
  replace (b `min` Z.of_nat (length l)) with b by lia.
  rewrite lookup_take_lt by lia. by rewrite lookup_drop.
Qed.

Lemma make_df_slice data t_ax (a b : Z) (i : nat) :
  0 ≤ a → a + Z.of_nat i < b →
  Forall (Forall (λ var_row, b ≤ Z.of_nat (length var_row))) data →
  make_df (cube_slice a b data) t_ax i = make_df data t_ax (Z.to_nat a + i).
Proof.
  intros Ha Hi Hrows. unfold make_df, cube_slice.
  rewrite res_mapM_map.
  rewrite (res_mapM_ext _ (λ data_t, res_mapM (λ var_row, py_get var_row (Z.to_nat a + i)) data_t));
    [done|].
  eapply Forall_impl; [exact Hrows|]. intros data_t Ht. simpl in Ht.
  rewrite res_mapM_map. apply res_mapM_ext.
  eapply Forall_impl; [exact Ht|]. intros var_row Hr. simpl in Hr.
  unfold py_get. by rewrite py_slice_lookup.
Qed.

Lemma np_sum_nonneg shares : Forall (λ s, 0 < s) shares → 0 ≤ np_sum shares.
Proof. induction 1; simpl; lia. Qed.

Lemma np_sum_zero shares :
  Forall (λ s, 0 < s) shares → np_sum shares = 0 → shares = [].
Proof.
  destruct 1 as [|s shares Hs Hrest]; [done|]. simpl.
  pose proof (np_sum_nonneg _ Hrest). lia.
Qed.

Section Workers.

Variables (output_file_type : list string) (storage_type : storage).
Variable out_path : string.

Hypothesis format_named :
  named output_file_type "parquet" || named output_file_type "csv" = true.

Hypothesis store_known :
  storage_type = Local
  ∨ (storage_type = S3 ∧ ∃ bk, convert_url2key out_path (Some S3) = Ok bk).

Local Abbreviation ext := (table_ext output_file_type).
Local Abbreviation view := (stored storage_type out_path ext).

(** The loop of [multiprocess_write] hands the catchments out as the
    shares say, when these are positive and add up to the catchments. *)
Lemma assign_loop_spec data ncatchments shares catchments :
  ∀ worker_catchments count start i j s,
    shares !! i = Some s →
    Forall (λ s, 0 < s) (drop (S i) shares) →
    0 ≤ count < s → 0 ≤ start →
    Z.of_nat (length catchments) = s - count + np_sum (drop (S i) shares) →
    Z.of_nat j = start + count →
    ncatchments = (j + length catchments)%nat →
    assign_loop data ncatchments shares j catchments i count start worker_catchments
    = Ok ((cube_slice start (start + s) data,
           worker_catchments ++ take (Z.to_nat (s - count)) catchments)
          :: assignment data (drop (S i) shares) (start + s)
               (drop (Z.to_nat (s - count)) catchments)).
Proof.
  induction catchments as [|jcatch catchments IH];
    intros worker_catchments count start i j s Hs Hpos Hcount Hstart Hlen Hj HN.
  - simpl in Hlen. pose proof (np_sum_nonneg _ Hpos). lia.
  - cbn [assign_loop]. rewrite (py_get_lookup _ _ _ Hs). simpl in Hlen, HN.
    assert (0 ≤ np_sum (drop (S i) shares)) as Hsum by by apply np_sum_nonneg.
    cbn [mbind result_bind].
    destruct (decide (count + 1 = s)) as [Hfull | Hmore].
    + replace (count + 1 =? s) with true by (symmetry; apply Z.eqb_eq; lia).
      cbn [orb].
      replace ((start + s) `min` Z.of_nat ncatchments) with (start + s) by lia.
      replace (Z.to_nat (s - count)) with 1%nat by lia.
      cbn [take drop].
      destruct (drop (S i) shares) as [|s' rest] eqn:Hdrop.
      * simpl in Hlen. destruct catchments; [|simpl in Hlen; lia]. done.
      * assert (shares !! S i = Some s') as Hs'.
        { rewrite <- (Nat.add_0_r (S i)), <- lookup_drop, Hdrop. done. }
        assert (drop (S (S i)) shares = rest) as Hdrop'.
        { replace (S (S i)) with (S i + 1)%nat by lia.
          by rewrite <- drop_drop, Hdrop. }
        apply Forall_cons in Hpos as [Hs'pos Hrestpos].
        rewrite (IH [] 0 (start + s) (S i) (S j) s'); try done; try lia.
        -- rewrite Hdrop'. simpl. rewrite Z.sub_0_r. done.
        -- by rewrite Hdrop'.
        -- rewrite Hdrop'. simpl in Hlen. lia.
    + replace (count + 1 =? s) with false by (symmetry; apply Z.eqb_neq; lia).
      replace (Z.of_nat j =? Z.of_nat ncatchments - 1) with false; last first.
      { symmetry. apply Z.eqb_neq. intros Heq.
        assert (length catchments = 0%nat) as Hnil by lia. lia. }
      cbn [orb].
      rewrite (IH (worker_catchments ++ [jcatch]) (count + 1) start i (S j) s);
        try done; try lia.
      replace (Z.to_nat (s - count)) with (S (Z.to_nat (s - (count + 1)))) by lia.
      cbn [take drop]. by rewrite <- app_assoc.
Qed.

Lemma assign_loop_assignment data shares catchments :
  Forall (λ s, 0 < s) shares →
  Z.of_nat (length catchments) = np_sum shares →
  assign_loop data (length catchments) shares 0 catchments 0 0 0 []
  = Ok (assignment data shares 0 catchments).
Proof.
  intros Hpos Hlen. destruct shares as [|s shares].
  - simpl in Hlen. by destruct catchments.
  - apply Forall_cons in Hpos as [Hs Hpos]. simpl in Hlen.
    rewrite (assign_loop_spec data (length catchments) (s :: shares) catchments
               [] 0 0 0%nat 0%nat s); try done; try lia.
    + simpl. rewrite Z.sub_0_r. done.
    + simpl. rewrite drop_0. lia.
Qed.

(** Every worker writes its own catchments; together they write them all,
    in the order of the catchment list. *)
Lemma write_workers data t_ax ii_append shares :
  Forall (λ s, 0 < s) shares →
  ∀ start catchments items w,
    0 ≤ start →
    Forall2 (λ jcatch item, cat_id_of jcatch = Ok item.1) catchments items →
    Z.of_nat (length catchments) = np_sum shares →
    (∀ i item, items !! i = Some item →
               make_df data t_ax (Z.to_nat start + i) = Ok item.2) →
    Forall (Forall (λ var_row, start + np_sum shares ≤ Z.of_nat (length var_row))) data →
    (ii_append = true → ∀ item, item ∈ items → is_Some (view w item.1)) →
    ∃ w' results,
      py_mapM (λ wk : list (list (list Q)) * list string,
                 write_data output_file_type storage_type wk.1 t_ax wk.2
                   out_path ii_append)
        (assignment data shares start catchments) w = (w', Ok results)
      ∧ (∀ x, view w' x = apply_writes ii_append items (view w) x)
      ∧ opened w' = opened w
      ∧ untouched storage_type ext w w'.
Proof.
  induction 1 as [|s shares Hs Hpos IH];
    intros start catchments items w Hstart Hids Hlen Hdf Hrows Hold.
  - simpl in Hlen. destruct catchments; [|done].
    apply Forall2_nil_inv_l in Hids as ->.
    eexists _, _. split; [done|]. split; [done|]. split; [done|].
    apply untouched_refl.
  - cbn [assignment py_mapM]. simpl in Hlen, Hrows.
    pose proof (np_sum_nonneg _ Hpos) as Hsum.
    pose proof (Forall2_length _ _ _ Hids) as Hlen2.
    destruct (write_data_spec output_file_type storage_type out_path
                format_named store_known
                (cube_slice start (start + s) data) t_ax ii_append
                (take (Z.to_nat s) catchments) (take (Z.to_nat s) items) w)
      as (w1 & r1 & Hrun1 & Hview1 & Hopen1 & Hun1).
    { destruct catchments; [simpl in Hlen; lia|].
      destruct (Z.to_nat s) eqn:E; [lia | done]. }
    { by apply Forall2_take. }
    { intros i item Hi.
      apply lookup_take_Some in Hi as [Hi Hlt].
      rewrite make_df_slice; [by apply Hdf | done | lia |].
      eapply Forall_impl; [exact Hrows|]. intros data_t Ht.
      eapply Forall_impl; [exact Ht|]. simpl. lia. }
    { intros Happ item Hitem. apply (Hold Happ).
      by eapply subseteq_take. }
    rewrite (py_bind_Ok _ _ _ _ _ Hrun1).
    destruct (IH (start + s) (drop (Z.to_nat s) catchments)
                (drop (Z.to_nat s) items) w1)
      as (w' & results & Hrun & Hview & Hopen & Hun).
    { lia. }
    { by apply Forall2_drop. }
    { rewrite length_drop. lia. }
    { intros i item Hi. rewrite lookup_drop in Hi.
      replace (Z.to_nat (start + s) + i)%nat
        with (Z.to_nat start + (Z.to_nat s + i))%nat by lia.
      by apply Hdf. }
    { eapply Forall_impl; [exact Hrows|]. intros data_t Ht.
      eapply Forall_impl; [exact Ht|]. simpl. lia. }
    { intros Happ item Hitem. rewrite Hview1.
      apply apply_writes_is_Some, (Hold Happ).
      by eapply subseteq_drop. }
    rewrite (py_bind_Ok _ _ _ _ _ Hrun).
    eexists _, _. split; [reflexivity|].
    split; [|split; [congruence | eauto using untouched_trans]].
    intros x. rewrite Hview.
    rewrite <- (take_drop (Z.to_nat s) items) at 2.
    rewrite apply_writes_app. by apply apply_writes_ext.
Qed.

(** What the balancer returns for a round-robin seed with work in it. *)
Lemma balanced_shares {A} fuel (items : list A) nprocs launch_delay single_ex exec_count :
  items ≠ [] → (1 ≤ nprocs)%nat → Qeq_bool exec_count 0 = false →
  ∃ shares,
    distribute_work items nprocs = Ok (round_robin (length items) nprocs)
    ∧ load_balance (S fuel) (round_robin (length items) nprocs)
        launch_delay single_ex exec_count = Ok shares
    ∧ Forall (λ s, 0 < s) shares
    ∧ np_sum shares = Z.of_nat (length items).
Proof.
  intros Hne HP Hec.
  assert (1 ≤ length items)%nat as Hn by (destruct items; [done | simpl; lia]).
  eexists. split; [by apply distribute_work_round_robin|].
  split; [by apply load_balance_round_robin|].
  destruct (length items <? nprocs)%nat eqn:E.
  - split; [apply Forall_replicate; lia | rewrite np_sum_replicate; lia].
  - apply Nat.ltb_ge in E. split; [|apply round_robin_sum; lia].
    assert (1 ≤ length items / nprocs)%nat
      by (apply Nat.div_le_lower_bound; lia).
    unfold round_robin. apply Forall_app. split; apply Forall_replicate; lia.
Qed.

Lemma multiprocess_write_spec fuel data t_ax catchments items nprocs ii_append w :
  catchments ≠ [] → (1 ≤ nprocs)%nat →
  Forall2 (λ jcatch item, cat_id_of jcatch = Ok item.1) catchments items →
  (∀ i item, items !! i = Some item → make_df data t_ax i = Ok item.2) →
  Forall (Forall (λ var_row, (length catchments ≤ length var_row)%nat)) data →
  (ii_append = true → ∀ item, item ∈ items → is_Some (view w item.1)) →
  ∃ w' r,
    multiprocess_write output_file_type storage_type (S fuel) data t_ax
      catchments nprocs out_path ii_append w = (w', Ok r)
    ∧ (∀ x, view w' x = apply_writes ii_append items (view w) x)
    ∧ opened w' = opened w
    ∧ untouched storage_type ext w w'.
Proof.
  intros Hne HP Hids Hdf Hrows Hold. unfold multiprocess_write.
  destruct (balanced_shares fuel catchments nprocs (1 # 20) 1 200 Hne HP eq_refl)
    as (shares & Hdist & Hbal & Hpos & Hsum).
  rewrite (py_bind_lift_Ok _ _ _ _ Hdist), (py_bind_lift_Ok _ _ _ _ Hbal).
  rewrite (py_bind_lift_Ok _ _ _ _
             (assign_loop_assignment data shares catchments Hpos (eq_sym Hsum))).
  destruct (nprocs =? 0)%nat eqn:E; [apply Nat.eqb_eq in E; lia|].
  rewrite (py_bind_lift_Ok _ _ _ tt eq_refl).
  destruct (write_workers data t_ax ii_append shares Hpos 0 catchments items w)
    as (w' & results & Hrun & Hview & Hopen & Hun); try done.
  { eapply Forall_impl; [exact Hrows|]. intros data_t Ht.
    eapply Forall_impl; [exact Ht|]. simpl. lia. }
  rewrite (py_bind_Ok _ _ _ _ _ Hrun).
  by eexists _, _.
Qed.

End Workers.

(* --------------------------------------------------------------------- *)
(** ** Effects that hold on every path                                    *)
(* --------------------------------------------------------------------- *)

Section Preserves.

Variable R : world → world → Prop.
Hypothesis R_refl : ∀ w, R w w.
Hypothesis R_trans : ∀ w1 w2 w3, R w1 w2 → R w2 w3 → R w1 w3.

Lemma preserves_ret {A} (a : A) : preserves R (mret a).
Proof. intros w. apply R_refl. Qed.

Lemma preserves_lift {A} (r : result A) : preserves R (lift r).
Proof. intros w. apply R_refl. Qed.

Lemma preserves_bind {A B} (m : py A) (f : A → py B) :
  preserves R m → (∀ a, preserves R (f a)) → preserves R (m ≫= f).
Proof.
  intros Hm Hf w. unfold mbind, py_bind. specialize (Hm w).
  destruct (m w) as [w1 [a| |]]; simpl in *; [|done..].
  eapply R_trans; [exact Hm | apply Hf].
Qed.

Lemma preserves_mapM {A B} (body : A → py B) l :
  (∀ x, x ∈ l → preserves R (body x)) → preserves R (py_mapM body l).
Proof.
  induction l as [|x l IH]; intros Hbody; simpl; [apply preserves_ret|].
  apply preserves_bind; [apply Hbody; by left|]. intros y.
  apply preserves_bind; [|intros ys; apply preserves_ret].
  apply IH. intros z Hz. apply Hbody. by right.
Qed.

Lemma preserves_if {A} (b : bool) (m1 m2 : py A) :
  preserves R m1 → preserves R m2 → preserves R (if b then m1 else m2).
Proof. by destruct b. Qed.

End Preserves.

Lemma py_bind_inv {A B} (m : py A) (f : A → py B) w b :
  ((m ≫= f) w).2 = Ok b →
  ∃ w1 a, m w = (w1, Ok a) ∧ (f a w1).2 = Ok b.
Proof.
  unfold mbind, py_bind. destruct (m w) as [w1 [a| |]]; simpl; [eauto | done..].
Qed.

Lemma py_lift_inv {A B} (r : result A) (f : A → py B) w b :
  ((lift r ≫= f) w).2 = Ok b → ∃ a, r = Ok a ∧ (f a w).2 = Ok b.
Proof.
  intros H. apply py_bind_inv in H as (w1 & a & Hr & Hf).
  unfold lift in Hr. injection Hr as <- ->. eauto.
Qed.

Lemma py_mapM_post {A B} (body : A → py B) (Q : B → Prop) l :
  (∀ x w y, (body x w).2 = Ok y → Q y) →
  ∀ w ys, (py_mapM body l w).2 = Ok ys → Forall Q ys.
Proof.
  intros Hbody. induction l as [|x l IH]; intros w ys; simpl.
  - intros [= <-]. constructor.
  - intros H. apply py_bind_inv in H as (w1 & y & Hy & H).
    apply py_bind_inv in H as (w2 & ys' & Hys & H).
    injection H as <-. constructor.
    + apply (Hbody x w). by rewrite Hy.
    + apply (IH w1). by rewrite Hys.
Qed.

Lemma same_tables_refl w : same_tables w w.
Proof. done. Qed.

Lemma same_tables_trans w1 w2 w3 :
  same_tables w1 w2 → same_tables w2 w3 → same_tables w1 w3.
Proof. intros [? ?] [? ?]. split; congruence. Qed.

Lemma same_opened_refl w : same_opened w w.
Proof. done. Qed.

Lemma same_opened_trans w1 w2 w3 :
  same_opened w1 w2 → same_opened w2 w3 → same_opened w1 w3.
Proof. unfold same_opened. congruence. Qed.





(* --------------------------------------------------------------------- *)
(** ** Extraction: what it opens and what it leaves alone                 *)
(* --------------------------------------------------------------------- *)

Lemma py_slice_subseteq {A} (a b : Z) (l : list A) : py_slice a b l ⊆ l.
Proof.
  unfold py_slice. etrans; [apply subseteq_take | apply subseteq_drop].
Qed.

Lemma slice_files_subseteq files shares start nwm_files :
  nwm_files ∈ slice_files files shares start → nwm_files ⊆ files.
Proof.
  revert start. induction shares as [|n shares IH]; intros start; simpl.
  - by intros ?%elem_of_nil.
  - intros [-> | H]%elem_of_cons; [apply py_slice_subseteq | by eapply IH].
Qed.

Section ExtractionEffects.

Context (xr_open_dataset : file_obj → result nwm_dataset) (fuel : nat).
Context (fs_type : option storage) (weights_json : list (string * (list Z * list Q))).

Variable R : world → world → Prop.
Variable P : file_obj → Prop.
Hypothesis R_refl : ∀ w, R w w.
Hypothesis R_trans : ∀ w1 w2 w3, R w1 w2 → R w2 w3 → R w1 w3.
Hypothesis R_log : ∀ f, P f → preserves R (log_open f).

Lemma preserves_bind_lift {A B} (r : result A) (f : A → py B) :
  (∀ a, r = Ok a → preserves R (f a)) → preserves R (lift r ≫= f).
Proof.
  intros Hf w. unfold mbind, py_bind, lift.
  destruct r as [a| |]; simpl; [by apply Hf | apply R_refl..].
Qed.

Lemma grid2catchment_loop_preserves fs nwm_files :
  (∀ nwm_file f, nwm_file ∈ nwm_files →
                 open_file fs_type fs nwm_file = Ok f → P f) →
  preserves R (grid2catchment_loop xr_open_dataset fs_type weights_json fs nwm_files).
Proof.
  induction nwm_files as [|nwm_file nwm_files IH]; intros HP; simpl.
  - by apply preserves_ret.
  - apply preserves_bind_lift. intros f Hf.
    apply (preserves_bind R R_trans).
    { apply R_log, (HP nwm_file); [by left | done]. }
    intros _. do 4 (apply preserves_bind_lift; intros ? _).
    apply (preserves_bind R R_trans).
    { apply IH. intros file f' Hin. apply HP. by right. }
    intros rest. by apply preserves_ret.
Qed.

Lemma multiprocess_data_extract_preserves files nprocs fs :
  (∀ nwm_file f,
     nwm_file ∈ files →
     open_file fs_type
       (if decide (fs_type = Some Google) then Some GCSFileSystem else fs)
       nwm_file = Ok f → P f) →
  preserves R (multiprocess_data_extract xr_open_dataset fuel fs_type
                 weights_json files nprocs fs).
Proof.
  intros HP. unfold multiprocess_data_extract.
  do 2 (apply preserves_bind_lift; intros ? _).
  apply preserves_bind_lift; intros _ _.
  apply (preserves_bind R R_trans).
  - apply (preserves_mapM R R_refl R_trans). intros nwm_files Hin.
    unfold forcing_grid2catchment. apply grid2catchment_loop_preserves.
    intros nwm_file f Hfile. apply HP.
    by apply (slice_files_subseteq _ _ _ _ Hin).
  - intros results. apply preserves_bind_lift; intros _ _.
    by apply preserves_ret.
Qed.

End ExtractionEffects.

(* --------------------------------------------------------------------- *)
(** ** Emission: what it leaves alone                                     *)
(* --------------------------------------------------------------------- *)

Section EmissionEffects.

Context (output_file_type : list string) (storage_type : storage) (fuel : nat).

Variable R : world → world → Prop.
Hypothesis R_refl : ∀ w, R w w.
Hypothesis R_trans : ∀ w1 w2 w3, R w1 w2 → R w2 w3 → R w1 w3.
Hypothesis R_local : ∀ f w, R w (set_local f w).
Hypothesis R_s3 : ∀ f w, R w (set_s3 f w).

Lemma write_local_preserves path df : preserves R (write_local path df).
Proof. intros w. apply R_local. Qed.

Lemma read_local_preserves path : preserves R (read_local path).
Proof. intros w. apply R_refl. Qed.

Lemma remove_local_preserves path : preserves R (remove_local path).
Proof.
  intros w. unfold remove_local.
  destruct (local_files w !! path); [apply R_local | apply R_refl].
Qed.

Lemma put_object_preserves bucket key df : preserves R (put_object bucket key df).
Proof. intros w. apply R_s3. Qed.

Lemma get_object_preserves bucket key : preserves R (get_object bucket key).
Proof. intros w. apply R_refl. Qed.

Local Ltac step :=
  first
    [ apply (preserves_ret R R_refl)
    | apply (preserves_lift R R_refl)
    | apply write_local_preserves
    | apply read_local_preserves
    | apply remove_local_preserves
    | apply put_object_preserves
    | apply get_object_preserves
    | apply preserves_if
    | apply (preserves_bind R R_trans); [| intros ?] ].

Lemma emit_preserves out_path ii_append cat_id df filename :
  preserves R (emit output_file_type storage_type out_path ii_append cat_id df filename).
Proof.
  unfold emit.
  destruct (named output_file_type "parquet" || named output_file_type "csv");
    [|by apply preserves_ret].
  destruct storage_type; repeat step.
Qed.

Lemma measure_sizes_preserves cat_id df filename :
  preserves R (measure_sizes cat_id df filename).
Proof.
  unfold measure_sizes.
  apply (preserves_bind R R_trans); [intros w; apply R_refl | intros there].
  repeat step.
Qed.

Lemma write_loop_preserves data t_ax out_path ii_append catchments :
  ∀ j filename,
    preserves R (write_loop output_file_type storage_type data t_ax out_path
                   ii_append j catchments filename).
Proof.
  induction catchments as [|jcatch catchments IH]; intros j filename; simpl.
  - by apply preserves_ret.
  - repeat first [apply emit_preserves | apply measure_sizes_preserves | apply IH | step].
Qed.

Lemma write_data_preserves data t_ax catchments out_path ii_append :
  preserves R (write_data output_file_type storage_type data t_ax catchments
                 out_path ii_append).
Proof.
  unfold write_data.
  destruct (decide (storage_type = S3));
    repeat first [apply write_loop_preserves | step].
Qed.

Lemma multiprocess_write_preserves data t_ax catchments nprocs out_path ii_append :
  preserves R (multiprocess_write output_file_type storage_type fuel data t_ax
                 catchments nprocs out_path ii_append).
Proof.
  unfold multiprocess_write.
  repeat first
    [ apply (preserves_mapM R R_refl R_trans); intros wk _;
      apply write_data_preserves
    | step ].
Qed.

End EmissionEffects.

(* --------------------------------------------------------------------- *)
(** ** Extraction: the files a successful run opens                       *)
(* --------------------------------------------------------------------- *)

Lemma py_bind_inv_world {A B} (m : py A) (f : A → py B) w w' b :
  (m ≫= f) w = (w', Ok b) → ∃ w1 a, m w = (w1, Ok a) ∧ f a w1 = (w', Ok b).
Proof.
  unfold mbind, py_bind. destruct (m w) as [w1 [a| |]]; [eauto | done..].
Qed.

Lemma py_lift_inv_world {A B} (r : result A) (f : A → py B) w w' b :
  (lift r ≫= f) w = (w', Ok b) → ∃ a, r = Ok a ∧ f a w = (w', Ok b).
Proof.
  intros H. apply py_bind_inv_world in H as (w1 & a & Hr & Hf).
  unfold lift in Hr. injection Hr as <- ->. eauto.
Qed.

Lemma py_slice_take_drop {A} (l : list A) (s n : nat) :
  py_slice (Z.of_nat s) ((Z.of_nat s + Z.of_nat n) `min` Z.of_nat (length l)) l
  = take n (drop s l).
Proof.
  unfold py_slice, py_bound.
  replace (Z.of_nat s <? 0) with false by (symmetry; apply Z.ltb_ge; lia).
  replace ((Z.of_nat s + Z.of_nat n) `min` Z.of_nat (length l) <? 0)
    with false by (symmetry; apply Z.ltb_ge; lia).
  destruct (decide (s ≤ length l)%nat) as [Hs | Hs].
  - replace (Z.to_nat (Z.of_nat s `min` Z.of_nat (length l))) with s by lia.
    destruct (decide (n ≤ length l - s)%nat) as [Hn | Hn].
    + f_equal. lia.
    + rewrite !take_ge; [done | rewrite length_drop; lia | rewrite length_drop; lia].
  - rewrite (drop_ge l s) by lia.
    rewrite (drop_ge l) by lia. by rewrite !take_nil.
Qed.

Lemma slice_files_concat files shares :
  Forall (λ n, 0 ≤ n) shares →
  ∀ start : nat,
    concat (slice_files files shares (Z.of_nat start))
    = take (Z.to_nat (np_sum shares)) (drop start files).
Proof.
  induction 1 as [|n shares Hn Hpos IH]; intros start; simpl; [by rewrite take_0|].
  assert (0 ≤ np_sum shares) as Hsum by (clear -Hpos; induction Hpos; simpl; lia).
  replace n with (Z.of_nat (Z.to_nat n)) at 1 2 by lia.
  rewrite py_slice_take_drop.
  set (end_ := (Z.of_nat start + Z.of_nat (Z.to_nat n)) `min` Z.of_nat (length files)).
  replace end_ with (Z.of_nat (Z.to_nat end_)) by (unfold end_; lia).
  rewrite IH.
  replace (Z.to_nat (n + np_sum shares))
    with (Z.to_nat n + Z.to_nat (np_sum shares))%nat by lia.
  rewrite <- take_take_drop, drop_drop. f_equal. f_equal.
  destruct (decide (start + Z.to_nat n ≤ length files)%nat).
  - f_equal. unfold end_. lia.
  - rewrite !drop_ge; [done | lia | unfold end_; lia].
Qed.

Lemma chunk_files_take_drop files nfile_chunk jloop :
  chunk_files files nfile_chunk jloop
  = take nfile_chunk (drop (jloop * nfile_chunk) files).
Proof. unfold chunk_files. apply py_slice_take_drop. Qed.

Lemma chunk_files_concat files nfile_chunk nloops :
  concat (map (chunk_files files nfile_chunk) (seq 0 nloops))
  = take (nloops * nfile_chunk) files.
Proof.
  induction nloops as [|k IH]; [done|].
  rewrite seq_S, map_app, concat_app, IH. simpl.
  rewrite app_nil_r, chunk_files_take_drop, take_take_drop. f_equal. lia.
Qed.

Lemma chunk_files_cover files nfile_chunk :
  (1 ≤ nfile_chunk)%nat →
  concat (map (chunk_files files nfile_chunk)
            (seq 0 ((length files + nfile_chunk - 1) / nfile_chunk)))
  = files.
Proof.
  intros Hc. rewrite chunk_files_concat. apply take_ge.
  pose proof (Nat.div_mod_eq (length files + nfile_chunk - 1) nfile_chunk).
  pose proof (Nat.mod_upper_bound (length files + nfile_chunk - 1) nfile_chunk).
  nia.
Qed.

Lemma chunk_files_nonempty files nfile_chunk jloop :
  (1 ≤ nfile_chunk)%nat →
  (jloop < (length files + nfile_chunk - 1) / nfile_chunk)%nat →
  chunk_files files nfile_chunk jloop ≠ [].
Proof.
  intros Hc Hj. rewrite chunk_files_take_drop.
  assert (jloop * nfile_chunk < length files)%nat as Hlt.
  { pose proof (Nat.div_mod_eq (length files + nfile_chunk - 1) nfile_chunk).
    pose proof (Nat.mod_upper_bound (length files + nfile_chunk - 1) nfile_chunk).
    nia. }
  intros Hnil. apply (f_equal length) in Hnil.
  rewrite length_take, length_drop in Hnil. simpl in Hnil. lia.
Qed.

Section Opens.

Context (xr_open_dataset : file_obj → result nwm_dataset) (fuel : nat).
Context (fs_type : option storage) (weights_json : list (string * (list Z * list Q))).





Lemma distribute_work_some_worker {A} (items : list A) nprocs shares :
  items ≠ [] → distribute_work items nprocs = Ok shares → (1 ≤ nprocs)%nat.
Proof.
  intros Hne H. destruct nprocs; [|lia].
  destruct items; [done|]. discriminate H.
Qed.

Lemma load_balance_some_fuel shares launch_delay single_ex exec_count out :
  load_balance fuel shares launch_delay single_ex exec_count = Ok out →
  ∃ fuel', fuel = S fuel'.
Proof.
  destruct fuel as [|fuel']; [|eauto]. unfold load_balance.
  by destruct (completion_times launch_delay single_ex exec_count shares).
Qed.


End Opens.

(* --------------------------------------------------------------------- *)
(** ** One store class per run                                            *)
(* --------------------------------------------------------------------- *)


Lemma log_open_same_tables f : preserves same_tables (log_open f).
Proof. by intros w. Qed.


Section OneClass.

Context (xr_open_dataset : file_obj → result nwm_dataset) (fuel : nat).



End OneClass.



(** A list that mixes stores: the first file is on S3, so the GCS file
    after it is handed to the S3 file system as well. *)
Example mixed_list_read_through_first :
  opened (prep_ngen_data (λ _, Raise FileNotFoundError) 1 [("weights.json", doc_a)]
            ["gs://bucket/nwm.t00z.nc"; "s3://bucket/nwm.t01z.nc"]
            "/out" ["csv"] 1 1 empty_world).1
  = [FsOpen GCSFileSystem "gs://bucket/nwm.t00z.nc"]
  ∧ opened (prep_ngen_data (λ _, Ok (s_dataset "20230101_0000" 1)) 1
              [("weights.json", doc_a)]
              ["s3://bucket/nwm.t00z.nc"; "gs://bucket/nwm.t01z.nc"]
              "/out" ["csv"] 1 1 empty_world).1
    = [FsOpen S3FileSystem "s3://bucket/nwm.t00z.nc";
       FsOpen S3FileSystem "gs://bucket/nwm.t01z.nc"].
Proof. split; vm_compute; reflexivity. Qed.

(* --------------------------------------------------------------------- *)
(** ** The shape of what extraction returns                               *)
(* --------------------------------------------------------------------- *)

Lemma bind_Ok_inv {A B} (r : result A) (f : A → result B) b :
  r ≫= f = Ok b → ∃ a, r = Ok a ∧ f a = Ok b.
Proof. apply bind_Ok. Qed.

Lemma project_catchment_length data_allvars value column :
  project_catchment data_allvars value = Ok column →
  length column = length data_allvars.
Proof.
  unfold project_catchment. intros H.
  apply bind_Ok_inv in H as (mask & Hmask & H).
  apply bind_Ok_inv in H as (products & Hprod & [= <-]).
  rewrite length_map, (res_mapM_Ok_length _ _ _ Hprod).
  apply (res_mapM_Ok_length _ _ _ Hmask).
Qed.

Lemma set_column_rows jcatch column data_array n :
  Forall (λ data_row, length data_row = n) data_array →
  Forall (λ data_row, length data_row = n) (set_column jcatch column data_array).
Proof.
  intros H. unfold set_column. revert column.
  induction H as [|data_row data_array Hr _ IH]; intros [|v column]; simpl;
    try constructor; [by rewrite length_insert | apply IH].
Qed.

Lemma project_loop_shape data_allvars items n :
  ∀ jcatch data_array out,
    project_loop data_allvars items jcatch data_array = Ok out →
    length data_array = length data_allvars →
    Forall (λ data_row, length data_row = n) data_array →
    length out = length data_allvars
    ∧ Forall (λ data_row, length data_row = n) out.
Proof.
  induction items as [|[key value] items IH]; intros jcatch data_array out; simpl.
  - by intros [= <-].
  - intros H Hlen Hrows. apply bind_Ok_inv in H as (column & Hcol & H).
    apply (IH _ _ _ H).
    + rewrite set_column_length; [done|].
      by rewrite (project_catchment_length _ _ _ Hcol).
    + by apply set_column_rows.
Qed.

Lemma project_shape data_allvars weights_json out :
  project data_allvars weights_json = Ok out →
  length data_allvars = length nwm_variables →
  length out = length nwm_variables
  ∧ Forall (λ data_row, length data_row = length weights_json) out.
Proof.
  unfold project. intros H Hlen. rewrite <- Hlen.
  apply (project_loop_shape _ _ _ _ _ _ H).
  - by rewrite length_replicate.
  - apply Forall_replicate. by rewrite length_replicate.
Qed.

Section ExtractionShape.

Context (xr_open_dataset : file_obj → result nwm_dataset) (fuel : nat).
Context (fs_type : option storage) (weights_json : list (string * (list Z * list Q))).

Lemma grid2catchment_loop_shape fs nwm_files :
  ∀ w data_list t_list,
    (grid2catchment_loop xr_open_dataset fs_type weights_json fs nwm_files w).2
    = Ok (data_list, t_list) →
    well_shaped (length weights_json) data_list t_list.
Proof.
  induction nwm_files as [|nwm_file nwm_files IH]; intros w data_list t_list; simpl.
  - intros [= <- <-]. by split.
  - intros H.
    apply py_lift_inv in H as (f & _ & H).
    apply py_bind_inv in H as (w1 & [] & _ & H).
    apply py_lift_inv in H as (nwm_data & _ & H).
    apply py_lift_inv in H as (data_allvars & Hdecode & H).
    apply py_lift_inv in H as (t & _ & H).
    apply py_lift_inv in H as (data_array & Hproject & H).
    apply py_bind_inv in H as (w2 & [data_list' t_list'] & Hrest & H).
    injection H as <- <-.
    destruct (IH w1 data_list' t_list') as [Hlen Hall]; [by rewrite Hrest|].
    split; simpl; [by rewrite Hlen|].
    constructor; [|done].
    apply (project_shape _ _ _ Hproject), (decode_length _ _ Hdecode).
Qed.

Lemma well_shaped_app n data1 t1 data2 t2 :
  well_shaped n data1 t1 → well_shaped n data2 t2 →
  well_shaped n (data1 ++ data2) (t1 ++ t2).
Proof.
  intros [Hl1 Ha1] [Hl2 Ha2]. split.
  - rewrite !length_app. lia.
  - by apply Forall_app.
Qed.

Lemma multiprocess_data_extract_shape files nprocs fs w data t_ax :
  (multiprocess_data_extract xr_open_dataset fuel fs_type weights_json
     files nprocs fs w).2 = Ok (data, t_ax) →
  well_shaped (length weights_json) data t_ax.
Proof.
  unfold multiprocess_data_extract. intros H.
  apply py_lift_inv in H as (shares0 & _ & H).
  apply py_lift_inv in H as (shares & _ & H).
  apply py_lift_inv in H as ([] & _ & H).
  apply py_bind_inv in H as (w1 & results & Hresults & H).
  apply py_lift_inv in H as ([] & _ & H).
  injection H as <- <-.
  assert (Forall (λ r : list (list (list Q)) * list string,
                    well_shaped (length weights_json) r.1 r.2) results) as Hall.
  { eapply py_mapM_post with (w := w); [|by rewrite Hresults].
    intros nwm_files w' [data_list t_list] Hrun.
    by apply (grid2catchment_loop_shape _ _ _ _ _ Hrun). }
  clear Hresults. induction Hall as [|[d t] results Hr _ IH]; [by split|].
  simpl. by apply well_shaped_app.
Qed.

End ExtractionShape.

(** On a well-shaped cube the frame of catchment [j] is [chunk_rows]. *)
Lemma make_df_chunk_rows ncatch data t_ax j :
  well_shaped ncatch data t_ax → (j < ncatch)%nat →
  make_df data t_ax j = Ok (chunk_rows data t_ax j).
Proof.
  intros [Hlen Hall] Hj. unfold make_df, chunk_rows.
  rewrite (res_mapM_ext _ (λ data_t, Ok (map (λ var_row, default 0%Q (var_row !! j)) data_t)));
    last first.
  { eapply Forall_impl; [exact Hall|]. intros data_t [_ Hrows]. simpl.
    apply res_mapM_all_Ok. intros var_row Hin.
    apply py_get_lookup.
    pose proof (proj1 (Forall_forall _ _) Hrows _ Hin) as Hr. simpl in Hr.
    destruct (lookup_lt_is_Some_2 var_row j ltac:(lia)) as [q ->]. done. }
  rewrite (res_mapM_all_Ok _ (map (λ var_row, default 0%Q (var_row !! j)))) by done.
  cbn [mbind result_bind].
  replace (forallb _ _) with true; last first.
  { symmetry. apply forallb_forall. intros r Hr.
    apply list_elem_of_In, list_elem_of_fmap in Hr as (data_t & -> & Hin).
    rewrite length_map. apply Nat.eqb_eq.
    by apply (proj1 (Forall_forall _ _) Hall _ Hin). }
  cbn [mbind result_bind]. rewrite length_map, Hlen, Nat.eqb_refl. done.
Qed.

(* --------------------------------------------------------------------- *)
(** ** Append accumulation over the chunks                                *)
(* --------------------------------------------------------------------- *)

Lemma apply_writes_other ii_append items (v : string → option table) x :
  x ∉ items.*1 → apply_writes ii_append items v x = v x.
Proof.
  revert v. induction items as [|item items IH]; intros v Hx; [done|].
  simpl in Hx. apply not_elem_of_cons in Hx as [Hne Hx].
  cbn [apply_writes foldl]. unfold apply_writes in IH. rewrite IH by done.
  unfold write_one. by rewrite decide_False.
Qed.

Lemma imap_fst_ids {B} (f : nat → B) (ids : list string) :
  (imap (λ j cat_id, (cat_id, f j)) ids).*1 = ids.
Proof.
  revert f. induction ids as [|x ids IH]; intros f; [done|].
  simpl. f_equal. apply (IH (f ∘ S)).
Qed.

(** With distinct ids, the table of catchment [j] receives its own
    frame and nothing else. *)
Lemma apply_writes_lookup ii_append (f : nat → list (string * list Q)) ids :
  NoDup ids →
  ∀ (v : string → option (list (string * list Q))) j cat_id,
    ids !! j = Some cat_id →
    apply_writes ii_append (imap (λ j cat_id, (cat_id, f j)) ids) v cat_id
    = Some (if ii_append then default [] (v cat_id) ++ f j else f j).
Proof.
  intros Hnd. revert f. induction Hnd as [|x ids Hx Hnd IH]; intros f v j cat_id; [done|].
  cbn [imap apply_writes foldl]. destruct j as [|j]; simpl.
  - intros [= <-].
    change (apply_writes ii_append (imap ((λ j cat_id, (cat_id, f j)) ∘ S) ids)
              (write_one ii_append v (x, f 0%nat)) x = Some
              (if ii_append then default [] (v x) ++ f 0%nat else f 0%nat)).
    rewrite apply_writes_other by (by rewrite (imap_fst_ids (f ∘ S))).
    unfold write_one. simpl. by rewrite decide_True.
  - intros Hj.
    change (apply_writes ii_append (imap (λ j cat_id, (cat_id, (f ∘ S) j)) ids)
              (write_one ii_append v (x, f 0%nat)) cat_id = Some
              (if ii_append then default [] (v cat_id) ++ f (S j) else f (S j))).
    rewrite (IH (f ∘ S) _ j cat_id Hj).
    assert (cat_id ≠ x) as Hne.
    { intros ->. apply Hx. by eapply list_elem_of_lookup_2. }
    unfold write_one. simpl. by rewrite decide_False.
Qed.

Lemma chunk_items_cat_ids catchments ids chunk :
  Forall2 (λ jcatch cat_id, cat_id_of jcatch = Ok cat_id) catchments ids →
  Forall2 (λ jcatch (item : string * list (string * list Q)),
             cat_id_of jcatch = Ok item.1)
    catchments (chunk_items ids chunk).
Proof.
  intros Hids. unfold chunk_items.
  apply Forall2_same_length_lookup_2.
  - rewrite length_imap. by eapply Forall2_length.
  - intros i jcatch item Hc Hitem.
    rewrite list_lookup_imap in Hitem.
    destruct (ids !! i) as [cat_id|] eqn:Hid; [|done].
    simpl in Hitem. injection Hitem as <-. simpl.
    by apply (Forall2_lookup_lr _ _ _ i _ _ Hids).
Qed.

Section Accumulation.

Context (xr_open_dataset : file_obj → result nwm_dataset) (fuel : nat).
Context (output_file_type : list string) (storage_type : storage).
Context (fs_type : option storage) (fs : option fs_handle).
Context (crosswalk_dict : list (string * (list Z * list Q))).
Context (nwm_forcing_files : list string) (nprocs nfile_chunk : nat).
Context (forcing_path : string) (ids : list string).

Hypothesis format_named :
  named output_file_type "parquet" || named output_file_type "csv" = true.

Hypothesis store_known :
  storage_type = Local
  ∨ (storage_type = S3 ∧ ∃ bk, convert_url2key forcing_path (Some S3) = Ok bk).

Hypothesis some_catchment : crosswalk_dict ≠ [].
Hypothesis some_worker : (1 ≤ nprocs)%nat.

Hypothesis ids_of_catchments :
  Forall2 (λ jcatch cat_id, cat_id_of jcatch = Ok cat_id) (dict_keys crosswalk_dict) ids.

Hypothesis ids_distinct : NoDup ids.

Local Abbreviation view := (stored storage_type forcing_path (table_ext output_file_type)).

(** One pass of the loop body on a chunk that extraction returns. *)
Lemma chunk_written chunk jnwm_files ii_append w :
  (∀ w, (multiprocess_data_extract xr_open_dataset (S fuel) fs_type
           crosswalk_dict jnwm_files nprocs fs w).2 = Ok chunk) →
  (ii_append = true → ∀ cat_id, cat_id ∈ ids → is_Some (view w cat_id)) →
  ∃ w1 w2 r,
    multiprocess_data_extract xr_open_dataset (S fuel) fs_type crosswalk_dict
      jnwm_files nprocs fs w = (w1, Ok chunk)
    ∧ multiprocess_write output_file_type storage_type (S fuel) chunk.1 chunk.2
        (dict_keys crosswalk_dict) nprocs forcing_path ii_append w1 = (w2, Ok r)
    ∧ ∀ j cat_id, ids !! j = Some cat_id →
        view w2 cat_id
        = Some (if ii_append
                then default [] (view w cat_id) ++ chunk_rows chunk.1 chunk.2 j
                else chunk_rows chunk.1 chunk.2 j).
Proof.
  intros Hextract Hold.
  pose proof (Hextract w) as Hrun.
  pose proof (multiprocess_data_extract_preserves xr_open_dataset (S fuel)
                fs_type crosswalk_dict same_tables (λ _, True)
                same_tables_refl same_tables_trans
                (λ f _, log_open_same_tables f)
                jnwm_files nprocs fs (λ _ _ _ _, I) w) as [Hlocal Hs3].
  destruct (multiprocess_data_extract xr_open_dataset (S fuel) fs_type
              crosswalk_dict jnwm_files nprocs fs w) as [w1 r1] eqn:Hw1.
  simpl in Hrun, Hlocal, Hs3. subst r1.
  assert (∀ x, view w1 x = view w x) as Hview1.
  { intros x. unfold stored. by rewrite Hlocal, Hs3. }
  pose proof (multiprocess_data_extract_shape xr_open_dataset (S fuel) fs_type
                crosswalk_dict jnwm_files nprocs fs w chunk.1 chunk.2) as Hshape.
  rewrite Hw1 in Hshape. simpl in Hshape. specialize (Hshape ltac:(by destruct chunk)).
  assert (length (dict_keys crosswalk_dict) = length crosswalk_dict) as Hkeys
    by apply length_fmap.
  pose proof (Forall2_length _ _ _ ids_of_catchments) as Hlen.
  destruct (multiprocess_write_spec output_file_type storage_type forcing_path
              format_named store_known fuel chunk.1 chunk.2
              (dict_keys crosswalk_dict) (chunk_items ids chunk) nprocs ii_append w1)
    as (w2 & r & Hwrite & Hview2 & _ & _).
  - destruct crosswalk_dict; [done | by simpl].
  - done.
  - by apply chunk_items_cat_ids.
  - intros i item Hitem. unfold chunk_items in Hitem.
    rewrite list_lookup_imap in Hitem.
    destruct (ids !! i) as [cat_id|] eqn:Hid; [|done].
    simpl in Hitem. injection Hitem as <-. simpl.
    apply (make_df_chunk_rows (length crosswalk_dict)); [done|].
    apply lookup_lt_Some in Hid. lia.
  - destruct Hshape as [_ Hall].
    eapply Forall_impl; [exact Hall|]. intros data_t [_ Hrows].
    eapply Forall_impl; [exact Hrows|]. simpl. lia.
  - intros Happ item Hitem. rewrite Hview1. apply (Hold Happ).
    unfold chunk_items in Hitem.
    apply list_elem_of_lookup in Hitem as [i Hi].
    rewrite list_lookup_imap in Hi.
    destruct (ids !! i) as [cat_id|] eqn:Hid; [|done].
    simpl in Hi. injection Hi as <-. simpl.
    by eapply list_elem_of_lookup_2.
  - exists w1, w2, r. split; [done|]. split; [done|].
    intros j cat_id Hj. rewrite Hview2. unfold chunk_items.
    rewrite (apply_writes_lookup ii_append (chunk_rows chunk.1 chunk.2)
               ids ids_distinct _ j cat_id Hj).
    by rewrite Hview1.
Qed.

(** The time loop: the first chunk replaces what was stored, every later
    chunk is appended after it. *)
Lemma time_loop_accumulates jloops chunks :
  Forall2 (λ jloop chunk,
             ∀ w, (multiprocess_data_extract xr_open_dataset (S fuel) fs_type
                     crosswalk_dict (chunk_files nwm_forcing_files nfile_chunk jloop)
                     nprocs fs w).2 = Ok chunk) jloops chunks →
  ∀ ii_append w (before : nat → list (string * list Q)),
    (ii_append = true →
     ∀ j cat_id, ids !! j = Some cat_id → view w cat_id = Some (before j)) →
    ∃ w',
      time_loop xr_open_dataset (S fuel) output_file_type storage_type fs_type fs
        crosswalk_dict nwm_forcing_files nprocs nfile_chunk (Ok forcing_path)
        jloops ii_append w = (w', Ok tt)
      ∧ (ii_append = true ∨ jloops ≠ [] →
         ∀ j cat_id, ids !! j = Some cat_id →
           view w' cat_id
           = Some ((if ii_append then before j else []) ++ accumulated_rows chunks j)).
Proof.
  induction 1 as [|jloop chunk jloops chunks Hchunk Hrest IH];
    intros ii_append w before Hbefore.
  - exists w. split; [done|]. intros [-> | ?] j cat_id Hj; [|done].
    unfold accumulated_rows. simpl. rewrite app_nil_r. by apply Hbefore.
  - cbn [time_loop].
    destruct (chunk_written chunk _ ii_append w Hchunk) as (w1 & w2 & r & Hex & Hwr & Hview).
    { intros Happ cat_id Hin. apply list_elem_of_lookup in Hin as [j Hj].
      rewrite (Hbefore Happ j cat_id Hj). eauto. }
    unfold chunk_files in Hex. rewrite (py_bind_Ok _ _ _ _ _ Hex).
    rewrite (py_bind_lift_Ok _ _ _ _ eq_refl).
    rewrite (py_bind_Ok _ _ _ _ _ Hwr).
    destruct (IH true w2
                (λ j, (if ii_append then before j else [])
                      ++ chunk_rows chunk.1 chunk.2 j))
      as (w' & Hloop & Hfinal).
    { intros _ j cat_id Hj. rewrite (Hview j cat_id Hj).
      destruct ii_append; [|done]. by rewrite (Hbefore eq_refl j cat_id Hj). }
    exists w'. split; [done|]. intros _ j cat_id Hj.
    rewrite (Hfinal (or_introl eq_refl) j cat_id Hj).
    unfold accumulated_rows. simpl. by rewrite app_assoc.
Qed.

End Accumulation.

(** C7. A run over a non-empty file list, in chunks whose extraction
    succeeds, with csv or parquet named, on the local file system or on S3
    and with distinct catchment ids: the run ends well and the table of
    every catchment holds the rows of the first chunk, then those of the
    second, and so on, with nothing dropped or merged.  The first chunk is
    written with the append flag off, so what was stored before the run
    does not appear; every later chunk is written with the flag on, after
    the rows already there. *)
Theorem append_accumulation
    (xr_open_dataset : file_obj → result nwm_dataset) (fuel : nat)
    (weight_files : list (string * list (string * (list Z * list Q))))
    (nwm_forcing_files : list string) (output_path : string)
    (output_file_type : list string) (nprocs nfile_chunk : nat) (w : world)
    (ids : list string) (chunks : list (list (list (list Q)) * list string)) :
  let storage_type := classify_storage output_path in
  let forcing_path := output_path +:+ "/forcings" in
  let crosswalk_dict := (load_weights weight_files [] [] 0).1 in
  let first := default "" (nwm_forcing_files !! 0%nat) in
  let nloops := ((length nwm_forcing_files + nfile_chunk - 1) / nfile_chunk)%nat in
  Forall (λ jtype, jtype ∈ file_types) output_file_type →
  named output_file_type "parquet" || named output_file_type "csv" = true →
  storage_type = Local
  ∨ (storage_type = S3 ∧ ∃ bk, convert_url2key forcing_path (Some S3) = Ok bk) →
  crosswalk_dict ≠ [] →
  (1 ≤ nprocs)%nat → (1 ≤ nfile_chunk)%nat → nwm_forcing_files ≠ [] →
  Forall2 (λ jcatch cat_id, cat_id_of jcatch = Ok cat_id)
    (dict_keys crosswalk_dict) ids →
  NoDup ids →
  Forall2 (λ jloop chunk,
             ∀ w, (multiprocess_data_extract xr_open_dataset (S fuel)
                     (classify_fs first).2 crosswalk_dict
                     (chunk_files nwm_forcing_files nfile_chunk jloop)
                     nprocs (classify_fs first).1 w).2 = Ok chunk)
    (seq 0 nloops) chunks →
  ∃ w',
    prep_ngen_data xr_open_dataset (S fuel) weight_files nwm_forcing_files
      output_path output_file_type nprocs nfile_chunk w = (w', Ok tt)
    ∧ ∀ j cat_id,
        ids !! j = Some cat_id →
        stored storage_type forcing_path (table_ext output_file_type) w' cat_id
        = Some (accumulated_rows chunks j).
Proof.
  intros storage_type forcing_path crosswalk_dict first nloops
    Htypes Hformat Hstore Hcw Hprocs Hchunk Hfiles Hids Hnodup Hextract.
  unfold prep_ngen_data.
  assert (forallb (λ jtype, bool_decide (jtype ∈ file_types)) output_file_type = true)
    as Hassert.
  { apply forallb_forall. intros jtype Hin. apply bool_decide_eq_true.
    apply (proj1 (Forall_forall _ _) Htypes). by apply list_elem_of_In. }
  rewrite Hassert.
  rewrite (py_bind_lift_Ok _ _ _ tt eq_refl).
  destruct nwm_forcing_files as [|file0 files] eqn:Hfs; [done|].
  rewrite (py_bind_lift_Ok _ _ _ file0 eq_refl).
  destruct (nfile_chunk =? 0)%nat eqn:E; [apply Nat.eqb_eq in E; lia|].
  rewrite (py_bind_lift_Ok _ _ _ tt eq_refl).
  fold storage_type forcing_path crosswalk_dict.
  assert (match storage_type with
          | S3 | Local => Ok forcing_path
          | Google => Raise NameError
          end = Ok forcing_path) as ->.
  { by destruct Hstore as [-> | [-> _]]. }
  destruct (time_loop_accumulates xr_open_dataset fuel output_file_type storage_type
              (classify_fs file0).2 (classify_fs file0).1 crosswalk_dict
              (file0 :: files) nprocs nfile_chunk forcing_path ids
              Hformat Hstore Hcw Hprocs Hids Hnodup
              (seq 0 nloops) chunks Hextract false w (λ _, []))
    as (w' & Hloop & Hfinal); [done|].
  exists w'. split; [exact Hloop|].
  assert (seq 0 nloops ≠ []) as Hsome.
  { subst nloops. simpl length.
    assert (1 ≤ (S (length files) + nfile_chunk - 1) / nfile_chunk)%nat
      by (apply Nat.div_le_lower_bound; lia).
    destruct ((S (length files) + nfile_chunk - 1) / nfile_chunk)%nat; [lia | done]. }
  intros j cat_id Hj. by rewrite (Hfinal (or_intror Hsome) j cat_id Hj).
Qed.

Lemma append_accumulation_witness :
  ∃ w',
    prep_ngen_data s_store 1 [("weights.json", s1_crosswalk)] s_files
      "/out" ["csv"] 2 2 empty_world = (w', Ok tt)
    ∧ ∀ j cat_id,
        ["1"; "2"] !! j = Some cat_id →
        stored Local "/out/forcings" ".csv" w' cat_id
        = Some (accumulated_rows [s_chunk 0; s_chunk 1] j).
Proof.
  apply (append_accumulation s_store 0 [("weights.json", s1_crosswalk)] s_files
           "/out" ["csv"] 2 2 empty_world ["1"; "2"] [s_chunk 0; s_chunk 1]).
  - repeat constructor; set_solver.
  - reflexivity.
  - left. reflexivity.
  - discriminate.
  - lia.
  - lia.
  - discriminate.
  - repeat constructor.
  - apply (bool_decide_unpack _). vm_compute. reflexivity.
  - repeat constructor; intros w; vm_compute; reflexivity.
Defined.

(* --------------------------------------------------------------------- *)
(** ** One table format per catchment                                     *)
(* --------------------------------------------------------------------- *)




(* --------------------------------------------------------------------- *)
(** ** The id in a file name                                              *)
(* --------------------------------------------------------------------- *)

Lemma py_split_dash_free (s : string) :
  dash_free s = true → py_split "-" s = [s].
Proof.
  induction s as [|a s IH]; [done|]. cbn [dash_free py_split].
  intros [Ha Hs]%andb_true_iff. apply negb_true_iff in Ha.
  by rewrite Ha, (IH Hs).
Qed.

Lemma py_split_dash (a b : string) :
  dash_free a = true → py_split "-" (a +:+ "-" +:+ b) = a :: py_split "-" b.
Proof.
  induction a as [|c a IH]; [done|]. cbn [dash_free].
  intros [Hc Ha]%andb_true_iff. apply negb_true_iff in Hc.
  change (String c a +:+ "-" +:+ b) with (String c (a +:+ "-" +:+ b)).
  cbn [py_split]. by rewrite Hc, (IH Ha).
Qed.

Lemma py_split_nonempty sep (s : string) : py_split sep s ≠ [].
Proof.
  destruct s as [|a s]; [done|]. cbn [py_split].
  destruct (Ascii.eqb a sep); [done|]. by destruct (py_split sep s).
Qed.

(** The id is the second field of the identifier. *)
Lemma cat_id_second_field (prefix cat_id rest : string) :
  dash_free prefix = true → dash_free cat_id = true →
  rest = "" ∨ (∃ r, rest = "-" +:+ r) →
  cat_id_of (prefix +:+ "-" +:+ cat_id +:+ rest) = Ok cat_id.
Proof.
  intros Hp Hc Hrest. unfold cat_id_of. rewrite py_split_dash by done.
  destruct Hrest as [-> | [r ->]].
  - replace (cat_id +:+ "") with cat_id
      by (clear; induction cat_id as [|a s IH]; [done|];
          change (String a s +:+ "") with (String a (s +:+ "")); by rewrite <- IH).
    by rewrite py_split_dash_free.
  - by rewrite py_split_dash.
Qed.

Lemma suffix_one_dash (prefix cat_id : string) :
  dash_free prefix = true → dash_free cat_id = true →
  suffix_after_last_dash (prefix +:+ "-" +:+ cat_id) = cat_id.
Proof.
  intros Hp Hc. unfold suffix_after_last_dash.
  by rewrite py_split_dash, py_split_dash_free.
Qed.

(** C5, as the code has it.  The table of a catchment is written under
    the name [cat-<id>.<ext>] where [<id>] is the second of the fields
    that the ['-'] characters separate in the identifier; when the
    identifier has exactly one ['-'], this is the text after its last
    ['-']. *)
Theorem cat_file_named_by_second_field
    (output_file_type : list string) (storage_type : storage)
    (data : list (list (list Q))) (t_ax : list string) (df : list (string * list Q))
    (out_path prefix cat_id rest : string) (w : world) :
  named output_file_type "parquet" || named output_file_type "csv" = true →
  storage_type = Local
  ∨ (storage_type = S3 ∧ ∃ bk, convert_url2key out_path (Some S3) = Ok bk) →
  dash_free prefix = true → dash_free cat_id = true →
  rest = "" ∨ (∃ r, rest = "-" +:+ r) →
  make_df data t_ax 0 = Ok df →
  cat_id_of (prefix +:+ "-" +:+ cat_id +:+ rest) = Ok cat_id
  ∧ (rest = "" →
     suffix_after_last_dash (prefix +:+ "-" +:+ cat_id +:+ rest) = cat_id)
  ∧ ∃ w' r,
      write_data output_file_type storage_type data t_ax
        [prefix +:+ "-" +:+ cat_id +:+ rest] out_path false w = (w', Ok r)
      ∧ stored storage_type out_path (table_ext output_file_type) w' cat_id
        = Some df
      ∧ (storage_type = Local →
         local_files w' !! (out_path +:+ "/cat-" +:+ cat_id
                            +:+ table_ext output_file_type) = Some df).
Proof.
  intros Hformat Hstore Hp Hc Hrest Hdf.
  pose proof (cat_id_second_field prefix cat_id rest Hp Hc Hrest) as Hid.
  split; [done|]. split.
  { intros ->.
    replace (cat_id +:+ "") with cat_id
      by (clear; induction cat_id as [|a s IH]; [done|];
          change (String a s +:+ "") with (String a (s +:+ "")); by rewrite <- IH).
    by apply suffix_one_dash. }
  destruct (write_data_spec output_file_type storage_type out_path Hformat Hstore
              data t_ax false [prefix +:+ "-" +:+ cat_id +:+ rest] [(cat_id, df)] w)
    as (w' & r & Hrun & Hview & _ & _); try done.
  - by repeat constructor.
  - by intros [|i] item [= <-].
  - exists w', r. split; [done|].
    assert (stored storage_type out_path (table_ext output_file_type) w' cat_id
            = Some df) as Hstored.
    { rewrite Hview. cbn [apply_writes foldl]. unfold write_one. simpl.
      by rewrite decide_True. }
    split; [done|]. intros ->. exact Hstored.
Qed.

Lemma cat_file_named_by_second_field_witness :
  cat_id_of ("cat" +:+ "-" +:+ "12" +:+ "") = Ok "12"
  ∧ ("" = "" → suffix_after_last_dash ("cat" +:+ "-" +:+ "12" +:+ "") = "12")
  ∧ ∃ w' r,
      write_data ["csv"] Local one_step ["20230101 0000"]
        ["cat" +:+ "-" +:+ "12" +:+ ""] "/out/forcings" false empty_world
      = (w', Ok r)
      ∧ stored Local "/out/forcings" (table_ext ["csv"]) w' "12"
        = Some [("20230101 0000", [1; 2; 3; 4; 5; 6; 7; 8; 9]%Q)]
      ∧ (Local = Local →
         local_files w' !! ("/out/forcings" +:+ "/cat-" +:+ "12"
                            +:+ table_ext ["csv"])
         = Some [("20230101 0000", [1; 2; 3; 4; 5; 6; 7; 8; 9]%Q)]).
Proof.
  apply (cat_file_named_by_second_field ["csv"] Local one_step ["20230101 0000"]
           [("20230101 0000", [1; 2; 3; 4; 5; 6; 7; 8; 9]%Q)]
           "/out/forcings" "cat" "12" "" empty_world).
  - reflexivity.
  - left. reflexivity.
  - reflexivity.
  - reflexivity.
  - left. reflexivity.
  - reflexivity.
Defined.

(** C5 as stated fails: for the identifier ["cat-nex-12"] the text after
    the last ['-'] is ["12"], but the id taken is ["nex"] and the table is
    written as [cat-nex.csv]. *)
Lemma cat_nex_12_written_as_cat_nex :
  suffix_after_last_dash "cat-nex-12" = "12"
  ∧ cat_id_of "cat-nex-12" = Ok "nex"
  ∧ (write_data ["csv"] Local one_step ["20230101 0000"] ["cat-nex-12"]
       "/out/forcings" false empty_world).2
    = Ok (["nex"], [[("20230101 0000", [1; 2; 3; 4; 5; 6; 7; 8; 9]%Q)]],
          ["cat-nex.csv"])
  ∧ (map_to_list (local_files
       (write_data ["csv"] Local one_step ["20230101 0000"] ["cat-nex-12"]
          "/out/forcings" false empty_world).1)).*1
    = ["/out/forcings/cat-nex.csv"].
Proof. repeat split; vm_compute; reflexivity. Qed.

(* --------------------------------------------------------------------- *)
(** ** Scenarios                                                          *)
(* --------------------------------------------------------------------- *)

(** S1: the wind component of the two catchments is 15 and 30. *)
Example s1_wind :
  (decode (s_dataset "20230101_0000" 0) ≫= λ d, project d s1_crosswalk)
  ≫= (λ data_array, Ok (map Qred <$> data_array !! 0%nat))
  = Ok (Some [15; 30]%Q).
Proof. vm_compute. reflexivity. Qed.

(** S3: two chunks of two files; each table has four rows in file order. *)
Example s3_four_rows :
  fst <$> (default []
    (local_files
       (prep_ngen_data s_store 1 [("weights.json", s1_crosswalk)] s_files
          "/out" ["csv"] 2 2 empty_world).1 !! "/out/forcings/cat-2.csv"))
  = ["20230101 0000"; "20230101 0100"; "20230101 0200"; "20230101 0300"].
Proof. vm_compute. reflexivity. Qed.

(** The same run to a bucket: the tables are objects under the key that
    [convert_url2key] derives from the output path. *)
Example s3_bucket_keys :
  (map_to_list (s3_objects
     (prep_ngen_data s_store 1 [("weights.json", s1_crosswalk)] s_files
        "s3://bucket/run" ["parquet"] 2 2 empty_world).1)).*1
  = [("bucket", "run/forcings/cat-1.parquet");
     ("bucket", "run/forcings/cat-2.parquet")].
Proof. vm_compute. reflexivity. Qed.

(* --------------------------------------------------------------------- *)
(** ** Buckets and keys                                                   *)
(* --------------------------------------------------------------------- *)

Lemma str_app_nil_r (s : string) : s +:+ "" = s.
Proof.
  induction s as [|a s IH]; [done|].
  change (String a s +:+ "") with (String a (s +:+ "")). by rewrite IH.
Qed.

Lemma str_app_cons (a : ascii) (s t : string) :
  String a s +:+ t = String a (s +:+ t).
Proof. done. Qed.

Lemma py_split_lacks sep (s : string) :
  lacks sep s = true → py_split sep s = [s].
Proof.
  induction s as [|a s IH]; [done|]. cbn [lacks py_split].
  intros [Ha Hs]%andb_true_iff. apply negb_true_iff in Ha.
  by rewrite Ha, (IH Hs).
Qed.

Lemma py_split_sep sep (a b : string) :
  lacks sep a = true → py_split sep (a +:+ String sep b) = a :: py_split sep b.
Proof.
  induction a as [|c a IH].
  - intros _. change ("" +:+ String sep b) with (String sep b).
    cbn [py_split]. by rewrite Ascii.eqb_refl.
  - cbn [lacks]. intros [Hc Ha]%andb_true_iff. apply negb_true_iff in Hc.
    rewrite str_app_cons. cbn [py_split]. by rewrite Hc, (IH Ha).
Qed.

Lemma py_split_layers (p : string) (layers : list string) :
  lacks "/" p = true → Forall (λ l, lacks "/" l = true) layers →
  py_split "/" (p +:+ join_layers layers) = p :: layers.
Proof.
  intros Hp Hl. revert p Hp. induction Hl as [|l layers Hl _ IH]; intros p Hp.
  - simpl. rewrite str_app_nil_r. by apply py_split_lacks.
  - cbn [join_layers].
    change ("/" +:+ l +:+ join_layers layers)
      with (String "/" (l +:+ join_layers layers)).
    rewrite py_split_sep by done. by rewrite IH.
Qed.

Lemma py_split_url (scheme host : string) (layers : list string) :
  lacks "/" scheme = true → lacks "/" host = true →
  Forall (λ l, lacks "/" l = true) layers →
  py_split "/" (url scheme host layers) = scheme :: "" :: host :: layers.
Proof.
  intros Hs Hh Hl. unfold url.
  change (scheme +:+ "//" +:+ host +:+ join_layers layers)
    with (scheme +:+ String "/" ("" +:+ String "/" (host +:+ join_layers layers))).
  rewrite py_split_sep by done. rewrite py_split_sep by done.
  by rewrite py_split_layers.
Qed.

Lemma str_take_app (a b : string) : str_take (String.length a) (a +:+ b) = a.
Proof.
  induction a as [|c a IH]; simpl.
  - by destruct b.
  - by rewrite IH.
Qed.

Lemma str_length_app (a b : string) :
  String.length (a +:+ b) = (String.length a + String.length b)%nat.
Proof. induction a as [|c a IH]; simpl; [done | by rewrite IH]. Qed.

Lemma str_drop_last_app (a b : string) :
  str_drop_last (String.length b) (a +:+ b) = a.
Proof.
  unfold str_drop_last. rewrite str_length_app.
  replace (String.length a + String.length b - String.length b)%nat
    with (String.length a) by lia.
  apply str_take_app.
Qed.

Lemma str_drop_last_short (n : nat) (s : string) :
  (String.length s ≤ n)%nat → str_drop_last n s = "".
Proof.
  intros H. unfold str_drop_last.
  replace (String.length s - n)%nat with 0%nat by lia. by destruct s.
Qed.

Lemma py_in_prefix (sub rest : string) : py_in sub (sub +:+ rest) = true.
Proof.
  assert (String.prefix sub (sub +:+ rest) = true) as H.
  { induction sub as [|c sub IH]; simpl; [by destruct rest|].
    destruct (ascii_dec c c); [done | congruence]. }
  assert (∀ s, py_in sub s
               = if String.prefix sub s then true
                 else match s with
                      | EmptyString => false
                      | String _ s' => py_in sub s'
                      end) as Hunfold by (by intros []).
  by rewrite Hunfold, H.
Qed.

(** X1.  An https URL of an S3 bucket, [https://<b>.s3.amazonaws.com/<path>],
    read with the S3 rule: the bucket is the host name and the key is
    [<b>/<path>], the host name without its 17-character suffix followed
    by the path. *)
Theorem convert_url2key_s3_https (b : string) (layers : list string) :
  lacks "/" b = true → Forall (λ l, lacks "/" l = true) layers →
  py_in "s3://" (url "https:" (b +:+ ".s3.amazonaws.com") layers) = false →
  convert_url2key (url "https:" (b +:+ ".s3.amazonaws.com") layers) (Some S3)
  = Ok (b +:+ ".s3.amazonaws.com", b +:+ join_layers layers).
Proof.
  intros Hb Hl Hin.
  assert (lacks "/" (b +:+ ".s3.amazonaws.com") = true) as Hhost.
  { clear -Hb. induction b as [|c b IH]; [done|].
    rewrite str_app_cons. cbn [lacks] in *.
    apply andb_true_iff in Hb as [-> Hb]. by rewrite IH. }
  unfold convert_url2key. rewrite Hin.
  rewrite py_split_url by done.
  cbn [drop py_get lookup list_lookup mbind result_bind].
  change 17%nat with (String.length ".s3.amazonaws.com").
  by rewrite str_drop_last_app.
Qed.

Lemma convert_url2key_s3_https_witness :
  convert_url2key
    "https://noaa-nwm-pds.s3.amazonaws.com/nwm.20230101/forcing_short_range/f001.nc"
    (Some S3)
  = Ok ("noaa-nwm-pds.s3.amazonaws.com",
        "noaa-nwm-pds/nwm.20230101/forcing_short_range/f001.nc").
Proof.
  apply (convert_url2key_s3_https "noaa-nwm-pds"
           ["nwm.20230101"; "forcing_short_range"; "f001.nc"]).
  - reflexivity.
  - repeat constructor.
  - reflexivity.
Defined.

(** X2.  An [s3://] URI whose bucket name has at most 17 characters:
    the bucket is the name and the key is the path without a leading
    slash. *)
Theorem convert_url2key_s3_uri (b l : string) (layers : list string) :
  lacks "/" b = true → Forall (λ l, lacks "/" l = true) (l :: layers) →
  (String.length b ≤ 17)%nat →
  convert_url2key (url "s3:" b (l :: layers)) (Some S3)
  = Ok (b, l +:+ join_layers layers).
Proof.
  intros Hb Hl Hlen. unfold convert_url2key.
  rewrite py_split_url by done.
  replace (py_in "s3://" (url "s3:" b (l :: layers))) with true
    by (symmetry; apply (py_in_prefix "s3://")).
  cbn [drop py_get lookup list_lookup mbind result_bind].
  by rewrite str_drop_last_short.
Qed.

Lemma convert_url2key_s3_uri_witness :
  convert_url2key "s3://my-bucket/run/forcings" (Some S3)
  = Ok ("my-bucket", "run/forcings").
Proof.
  apply (convert_url2key_s3_uri "my-bucket" "run" ["forcings"]).
  - reflexivity.
  - repeat constructor.
  - simpl. lia.
Defined.

(** X3.  An [s3://] URI whose bucket name has more than 17 characters:
    the key is not the path.  What is left of the name when its last 17
    characters are cut off, less its first character, comes before the
    path. *)
Theorem convert_url2key_s3_uri_long_bucket (b : string) (layers : list string) :
  lacks "/" b = true → Forall (λ l, lacks "/" l = true) layers →
  (17 < String.length b)%nat →
  convert_url2key (url "s3:" b layers) (Some S3)
  = Ok (b, str_drop 1 (str_drop_last 17 b) +:+ join_layers layers).
Proof.
  intros Hb Hl Hlen. unfold convert_url2key.
  rewrite py_split_url by done.
  replace (py_in "s3://" (url "s3:" b layers)) with true
    by (symmetry; apply (py_in_prefix "s3://")).
  cbn [drop py_get lookup list_lookup mbind result_bind].
  do 2 f_equal. unfold str_drop_last.
  destruct b as [|c b]; [simpl in Hlen; lia|].
  replace (String.length (String c b) - 17)%nat
    with (S (String.length b - 17)) by (simpl in *; lia).
  done.
Qed.

Lemma convert_url2key_s3_uri_long_bucket_witness :
  convert_url2key "s3://ngen-datastream-outputs/run/forcings" (Some S3)
  = Ok ("ngen-datastream-outputs", "gen-d/run/forcings").
Proof.
  apply (convert_url2key_s3_uri_long_bucket "ngen-datastream-outputs"
           ["run"; "forcings"]).
  - reflexivity.
  - repeat constructor.
  - simpl. lia.
Defined.

(** X4.  A Google Cloud Storage URL read with the Google rule: the
    key is [gs://] followed by the path, and the bucket returned is the
    host name. *)
Theorem convert_url2key_google (host l : string) (layers : list string) :
  lacks "/" host = true → Forall (λ l, lacks "/" l = true) (l :: layers) →
  py_in "s3://" (url "https:" host (l :: layers)) = false →
  convert_url2key (url "https:" host (l :: layers)) (Some Google)
  = Ok (host, "gs://" +:+ l +:+ join_layers layers).
Proof.
  intros Hh Hl Hin. unfold convert_url2key. rewrite Hin.
  by rewrite py_split_url.
Qed.

Lemma convert_url2key_google_witness :
  convert_url2key
    "https://storage.googleapis.com/national-water-model/nwm.20230101/f001.nc"
    (Some Google)
  = Ok ("storage.googleapis.com",
        "gs://national-water-model/nwm.20230101/f001.nc").
Proof.
  apply (convert_url2key_google "storage.googleapis.com" "national-water-model"
           ["nwm.20230101"; "f001.nc"]).
  - reflexivity.
  - repeat constructor.
  - reflexivity.
Defined.

(** X5.  [convert_url2key] returns exactly when its argument has at
    least two slashes, that is, three fields; otherwise it raises
    [IndexError], whatever the rule. *)
Theorem convert_url2key_needs_two_slashes (nwm_file : string)
    (fs_type : option storage) :
  match convert_url2key nwm_file fs_type with
  | Ok bk => (3 ≤ length (py_split "/" nwm_file))%nat
             ∧ py_split "/" nwm_file !! 2%nat = Some bk.1
  | Raise e => e = IndexError ∧ (length (py_split "/" nwm_file) < 3)%nat
  | OutOfFuel => False
  end.
Proof.
  unfold convert_url2key, py_get.
  destruct (py_split "/" nwm_file !! 2%nat) as [p|] eqn:Hp.
  - pose proof (lookup_lt_Some _ _ _ Hp) as Hlt.
    destruct fs_type as [[| |]|]; simpl; split; first [lia | done].
  - apply lookup_ge_None in Hp.
    destruct fs_type as [[| |]|]; simpl; split; first [lia | done].
Qed.

(* --------------------------------------------------------------------- *)
(** ** Shares of the workers                                              *)
(* --------------------------------------------------------------------- *)

(** X6.  With at least one worker, [distribute_work] always returns, and
    worker [k] gets [n / P] items, plus one when [k < n mod P]: the
    first [n mod P] workers take the remainder. *)
Theorem distribute_work_shares {A} (items : list A) (P k : nat) :
  (k < P)%nat →
  ∃ shares,
    distribute_work items P = Ok shares
    ∧ shares !! k
      = Some (Z.of_nat (length items / P)
              + (if (k <? length items mod P)%nat then 1 else 0)).
Proof.
  intros Hk. exists (round_robin (length items) P).
  split; [apply distribute_work_round_robin; lia|].
  unfold round_robin. set (n := length items).
  pose proof (Nat.mod_upper_bound n P ltac:(lia)) as Hr.
  destruct (k <? n mod P)%nat eqn:E.
  - apply Nat.ltb_lt in E.
    rewrite lookup_app_l by (rewrite length_replicate; lia).
    by rewrite lookup_replicate_2.
  - apply Nat.ltb_ge in E.
    rewrite lookup_app_r by (rewrite length_replicate; lia).
    rewrite lookup_replicate_2 by (rewrite length_replicate; lia).
    f_equal. lia.
Qed.

Lemma distribute_work_shares_witness :
  ∃ shares,
    distribute_work ["a"; "b"; "c"; "d"; "e"; "f"; "g"] 3 = Ok shares
    ∧ shares !! 1%nat = Some (Z.of_nat (7 / 3) + (if (1 <? 7 mod 3)%nat then 1 else 0)).
Proof. apply (distribute_work_shares ["a"; "b"; "c"; "d"; "e"; "f"; "g"] 3 1). lia. Defined.

Lemma distribute_work_no_worker_items {A} (items : list A) :
  items ≠ [] → distribute_work items 0 = Raise ZeroDivisionError.
Proof. by destruct items. Qed.

(** X7.  With [nprocs = 0], which is what [int(os.cpu_count() * 0.5)]
    gives on a machine with one processor, there is no worker to hand
    an item to: extraction of a chunk and emission both raise
    [ZeroDivisionError] at once, before a file is opened or a table
    written. *)
Theorem no_worker_no_work
    (xr_open_dataset : file_obj → result nwm_dataset) (fuel : nat)
    (fs_type : option storage) (weights_json : list (string * (list Z * list Q)))
    (files : list string) (fs : option fs_handle)
    (output_file_type : list string) (storage_type : storage)
    (data : list (list (list Q))) (t_ax : list string) (catchments : list string)
    (out_path : string) (ii_append : bool) (w : world) :
  files ≠ [] → catchments ≠ [] →
  multiprocess_data_extract xr_open_dataset fuel fs_type weights_json files 0 fs w
  = (w, Raise ZeroDivisionError)
  ∧ multiprocess_write output_file_type storage_type fuel data t_ax catchments 0
      out_path ii_append w
    = (w, Raise ZeroDivisionError).
Proof.
  intros Hfiles Hcatchments.
  unfold multiprocess_data_extract, multiprocess_write.
  by rewrite !distribute_work_no_worker_items.
Qed.

Lemma no_worker_no_work_witness :
  multiprocess_data_extract s_store 1 None s1_crosswalk s_files 0 None empty_world
  = (empty_world, Raise ZeroDivisionError)
  ∧ multiprocess_write ["csv"] Local 1 one_step ["20230101 0000"] ["cat-1"] 0
      "/out" false empty_world
    = (empty_world, Raise ZeroDivisionError).
Proof.
  apply (no_worker_no_work s_store 1 None s1_crosswalk s_files None ["csv"] Local
           one_step ["20230101 0000"] ["cat-1"] "/out" false empty_world); done.
Defined.

Lemma np_sum_take_drop (k : nat) (v : list Z) :
  np_sum v = np_sum (take k v) + np_sum (drop k v).
Proof. by rewrite <- np_sum_app, take_drop. Qed.

Lemma np_sum_nonneg_zero (v : list Z) :
  Forall (λ x, 0 ≤ x) v → np_sum v = 0 → forallb (Z.eqb 0) v = true.
Proof.
  induction 1 as [|x v Hx Hv IH]; [done|]. simpl. intros Hsum.
  assert (0 ≤ np_sum v) by (clear -Hv; induction Hv; simpl; lia).
  assert (x = 0) as -> by lia. simpl. apply IH. lia.
Qed.

Lemma np_sum_all_zero (v : list Z) : forallb (Z.eqb 0) v = true → np_sum v = 0.
Proof.
  induction v as [|x v IH]; [done|]. cbn [forallb].
  intros [Hx Hv]%andb_true_iff. apply Z.eqb_eq in Hx.
  change (np_sum (x :: v)) with (x + np_sum v). rewrite IH by done. lia.
Qed.

(** X8.  On a vector of shares with work in it, [load_balance] moves
    nothing, whatever the cost model: it cuts the vector to as many
    entries as there are busy workers.  When the idle workers are all at
    the end, this returns the busy ones; when an idle worker stands
    before a busy one, the cut loses items and the closing assertion
    fails. *)
Theorem load_balance_trims_or_fails (fuel : nat) (items_per_proc : list Z)
    (launch_delay single_ex exec_count : Q) :
  Forall (λ x, 0 ≤ x) items_per_proc →
  (0 < count_nonzero items_per_proc)%nat →
  Qeq_bool exec_count 0 = false →
  load_balance (S fuel) items_per_proc launch_delay single_ex exec_count
  = if forallb (Z.eqb 0) (drop (count_nonzero items_per_proc) items_per_proc)
    then Ok (take (count_nonzero items_per_proc) items_per_proc)
    else Raise AssertionError.
Proof.
  intros Hpos Hnz Hec. rewrite load_balance_busy by done. cbv zeta.
  set (c := count_nonzero items_per_proc).
  assert ((if (c <? length items_per_proc)%nat then take c items_per_proc
           else items_per_proc) = take c items_per_proc) as ->.
  { destruct (c <? length items_per_proc)%nat eqn:E; [done|].
    apply Nat.ltb_ge in E. by rewrite take_ge. }
  pose proof (np_sum_take_drop c items_per_proc) as Hsum.
  destruct (forallb (Z.eqb 0) (drop c items_per_proc)) eqn:Hz.
  - apply np_sum_all_zero in Hz.
    replace (np_sum items_per_proc =? np_sum (take c items_per_proc)) with true
      by (symmetry; apply Z.eqb_eq; lia).
    done.
  - destruct (np_sum items_per_proc =? np_sum (take c items_per_proc)) eqn:E;
      [|done].
    apply Z.eqb_eq in E.
    rewrite np_sum_nonneg_zero in Hz; [done| |lia].
    by apply Forall_drop.
Qed.

Lemma load_balance_trims_or_fails_witness :
  load_balance 1 [2; 1; 0; 0] (1 # 20) 35 1 = Ok [2; 1]
  ∧ load_balance 1 [0; 3] (1 # 20) 35 1 = Raise AssertionError.
Proof.
  split.
  - apply (load_balance_trims_or_fails 0 [2; 1; 0; 0] (1 # 20) 35 1);
      [repeat constructor; lia | vm_compute; lia | reflexivity].
  - apply (load_balance_trims_or_fails 0 [0; 3] (1 # 20) 35 1);
      [repeat constructor; lia | vm_compute; lia | reflexivity].
Defined.

(* --------------------------------------------------------------------- *)
(** ** Decoder and projector: what they accept and what they raise        *)
(* --------------------------------------------------------------------- *)

(** A loop whose bodies can only fail with [e] fails with [e] as soon as
    one of them does. *)
Lemma res_mapM_raises {A B} (f : A → result B) (e : exn) (l : list A) (x : A) :
  x ∈ l → f x = Raise e →
  (∀ y, y ∈ l → fails (f y) = true → f y = Raise e) →
  res_mapM f l = Raise e.
Proof.
  intros Hx Hfx. induction l as [|a l IH]; intros Honly.
  - by apply elem_of_nil in Hx.
  - simpl. destruct (f a) as [b| |] eqn:Ha.
    + apply elem_of_cons in Hx as [-> | Hx]; [congruence|].
      simpl. rewrite IH; [done | done |].
      intros y Hy. apply Honly. by right.
    + assert (f a = Raise e) as H by (apply Honly; [by left | by rewrite Ha]).
      rewrite Ha in H. by injection H as ->.
    + assert (f a = Raise e) as H by (apply Honly; [by left | by rewrite Ha]).
      by rewrite Ha in H.
Qed.

Lemma np_index_fails (a : list Q) (i : Z) :
  fails (np_index a i) = true → np_index a i = Raise IndexError.
Proof.
  unfold np_index, py_get.
  destruct ((0 <=? i) && (i <? Z.of_nat (length a))) eqn:E1.
  { by destruct (a !! Z.to_nat i). }
  destruct ((- Z.of_nat (length a) <=? i) && (i <? 0)) eqn:E2; [|done].
  by destruct (a !! Z.to_nat (i + Z.of_nat (length a))).
Qed.

Lemma np_index_off_grid (a : list Q) (i : Z) :
  i < - Z.of_nat (length a) ∨ Z.of_nat (length a) ≤ i →
  np_index a i = Raise IndexError.
Proof.
  intros Hi. unfold np_index.
  replace ((0 <=? i) && (i <? Z.of_nat (length a))) with false
    by (symmetry; apply andb_false_iff; rewrite Z.leb_gt, Z.ltb_ge; lia).
  replace ((- Z.of_nat (length a) <=? i) && (i <? 0)) with false
    by (symmetry; apply andb_false_iff; rewrite Z.leb_gt, Z.ltb_ge; lia).
  done.
Qed.

Lemma np_index_on_grid (a : list Q) (i : Z) :
  - Z.of_nat (length a) ≤ i < Z.of_nat (length a) →
  np_index a i = Ok (cell_value a (i mod Z.of_nat (length a))).
Proof.
  intros Hi. destruct (decide (0 ≤ i)) as [Hpos | Hneg].
  - rewrite Z.mod_small by lia. apply np_index_in_range. lia.
  - unfold np_index, cell_value.
    replace ((0 <=? i) && (i <? Z.of_nat (length a))) with false
      by (symmetry; apply andb_false_iff; rewrite Z.leb_gt; lia).
    replace ((- Z.of_nat (length a) <=? i) && (i <? 0)) with true
      by (symmetry; apply andb_true_iff; rewrite Z.leb_le, Z.ltb_lt; lia).
    replace (i mod Z.of_nat (length a)) with (i + Z.of_nat (length a)).
    + unfold py_get.
      by destruct (lookup_lt_is_Some_2 a (Z.to_nat (i + Z.of_nat (length a)))
                     ltac:(lia)) as [q ->].
    + apply (Z.mod_unique _ _ (-1)); lia.
Qed.

Lemma gather_fails (data_row : list Q) (cells : list Z) :
  fails (res_mapM (np_index data_row) cells) = true →
  res_mapM (np_index data_row) cells = Raise IndexError.
Proof.
  induction cells as [|c cells IH]; [done|]. simpl.
  destruct (np_index data_row c) as [v| |] eqn:Hc.
  - simpl. destruct (res_mapM (np_index data_row) cells) as [vs| |]; simpl;
      [done | | done].
    intros _. by rewrite IH.
  - intros _. pose proof (np_index_fails data_row c) as H.
    rewrite Hc in H. by rewrite (H eq_refl).
  - pose proof (np_index_fails data_row c) as H. rewrite Hc in H.
    by specialize (H eq_refl).
Qed.

Lemma gather_length (data_row : list Q) (cells : list Z) (mask : list Q) :
  res_mapM (np_index data_row) cells = Ok mask → length mask = length cells.
Proof. apply res_mapM_Ok_length. Qed.

Lemma gather_rows_fails (rows : list (list Q)) (cells : list Z) :
  fails (res_mapM (λ data_row, res_mapM (np_index data_row) cells) rows) = true →
  res_mapM (λ data_row, res_mapM (np_index data_row) cells) rows = Raise IndexError.
Proof.
  induction rows as [|r rows IH]; [done|]. cbn [res_mapM].
  pose proof (gather_fails r cells) as Hr.
  destruct (res_mapM (np_index r) cells) as [m| |].
  - cbn [mbind result_bind].
    destruct (res_mapM (λ data_row, res_mapM (np_index data_row) cells) rows)
      as [ms| |]; cbn [mbind result_bind fails]; [done | | ].
    + intros _. by rewrite (IH eq_refl).
    + intros _. by specialize (IH eq_refl).
  - intros _. by rewrite (Hr eq_refl).
  - by specialize (Hr eq_refl).
Qed.

(** With as many weights as cells, a catchment is projected or the
    gather raises [IndexError]: nothing else can happen. *)
Lemma project_catchment_fails (data_allvars : list (list Q)) (cells : list Z)
    (weights : list Q) :
  length cells = length weights →
  fails (project_catchment data_allvars (cells, weights)) = true →
  project_catchment data_allvars (cells, weights) = Raise IndexError.
Proof.
  intros Hlen. unfold project_catchment. cbn [fst snd].
  pose proof (gather_rows_fails data_allvars cells) as Hgather.
  destruct (res_mapM (λ data_row, res_mapM (np_index data_row) cells) data_allvars)
    as [mask| |] eqn:Hmask.
  - simpl.
    rewrite (res_mapM_all_Ok _ (zip_with Qmult weights)); [done|].
    intros m Hm. apply np_mul_same_length.
    apply list_elem_of_lookup in Hm as [i Hi].
    destruct (lookup_lt_is_Some_2 data_allvars i) as [data_row Hrow].
    { rewrite <- (res_mapM_Ok_length _ _ _ Hmask). by eapply lookup_lt_Some. }
    destruct (res_mapM_Ok_lookup _ _ _ _ _ Hmask Hrow) as (m' & Hm' & Hi').
    rewrite Hi in Hi'. injection Hi' as <-.
    by rewrite (gather_length _ _ _ Hm').
  - intros _. by rewrite (Hgather eq_refl).
  - by specialize (Hgather eq_refl).
Qed.

Lemma project_catchment_off_grid (row : list Q) (rows : list (list Q))
    (cells : list Z) (weights : list Q) (c : Z) :
  c ∈ cells →
  c < - Z.of_nat (length row) ∨ Z.of_nat (length row) ≤ c →
  project_catchment (row :: rows) (cells, weights) = Raise IndexError.
Proof.
  intros Hc Hoff. unfold project_catchment. cbn [fst snd res_mapM].
  rewrite (res_mapM_raises (np_index row) IndexError cells c); [done | done | |].
  - by apply np_index_off_grid.
  - intros y _. apply np_index_fails.
Qed.

(** X9.  A crosswalk that names a cell outside the grid aborts the
    projection with [IndexError], on a grid of [ncell] cells and for
    descriptors that have as many weights as cells: a cell index is
    accepted from [-ncell] to [ncell - 1] only. *)
Theorem project_cell_off_grid (data_allvars : list (list Q)) (ncell : nat)
    (weights_json : list (string * (list Z * list Q)))
    (key : string) (cells : list Z) (weights : list Q) (c : Z) :
  data_allvars ≠ [] →
  Forall (λ data_row, length data_row = ncell) data_allvars →
  Forall (λ kv, length kv.2.1 = length kv.2.2) weights_json →
  (key, (cells, weights)) ∈ weights_json →
  c ∈ cells →
  c < - Z.of_nat ncell ∨ Z.of_nat ncell ≤ c →
  project data_allvars weights_json = Raise IndexError.
Proof.
  intros Hne Hrows Hlens Hin Hc Hoff. unfold project.
  generalize (replicate (length nwm_variables) (replicate (length weights_json) 0%Q)).
  generalize 0%nat.
  induction Hlens as [|[k [cs ws]] items Hlen _ IH]; intros jcatch data_array.
  - by apply elem_of_nil in Hin.
  - cbn [project_loop]. simpl in Hlen.
    destruct (project_catchment data_allvars (cs, ws)) as [column| |] eqn:Hcol.
    + simpl. apply IH.
      apply elem_of_cons in Hin as [[= <- <- <-] | Hin]; [|done].
      destruct data_allvars as [|row rows]; [done|].
      apply Forall_cons in Hrows as [Hrow _].
      rewrite (project_catchment_off_grid row rows cells weights c) in Hcol;
        [done | done | by rewrite Hrow].
    + pose proof (project_catchment_fails data_allvars cs ws Hlen) as H.
      rewrite Hcol in H. by rewrite (H eq_refl).
    + pose proof (project_catchment_fails data_allvars cs ws Hlen) as H.
      rewrite Hcol in H. by specialize (H eq_refl).
Qed.

Lemma project_cell_off_grid_witness :
  project s1_grid [("cat-1", ([0; 1], [1; 1]%Q)); ("cat-2", ([3], [2%Q]))]
  = Raise IndexError.
Proof.
  apply (project_cell_off_grid s1_grid 3 _ "cat-2" [3] [2%Q] 3).
  - done.
  - repeat constructor.
  - repeat constructor.
  - apply elem_of_cons. right. apply elem_of_cons. by left.
  - apply elem_of_cons. by left.
  - right. simpl. lia.
Defined.

(** X10.  A negative cell index is not rejected: from [-ncell] upwards
    it counts from the end of the grid, so that the catchment is
    projected as if [c + ncell] had been written for every negative
    [c]. *)
Theorem negative_cell_counts_from_end (data_allvars : list (list Q)) (ncell : nat)
    (cells : list Z) (weights : list Q) :
  Forall (λ data_row, length data_row = ncell) data_allvars →
  Forall (λ c, - Z.of_nat ncell ≤ c < Z.of_nat ncell) cells →
  project_catchment data_allvars (cells, weights)
  = project_catchment data_allvars
      (map (λ c, if c <? 0 then c + Z.of_nat ncell else c) cells, weights).
Proof.
  intros Hrows Hcells. unfold project_catchment. cbn [fst snd].
  assert (res_mapM (λ data_row, res_mapM (np_index data_row) cells) data_allvars
          = res_mapM (λ data_row,
                        res_mapM (np_index data_row)
                          (map (λ c, if c <? 0 then c + Z.of_nat ncell else c) cells))
              data_allvars) as ->; [|done].
  apply res_mapM_ext. eapply Forall_impl; [exact Hrows|].
  intros data_row Hlen. simpl. rewrite res_mapM_map. apply res_mapM_ext.
  eapply Forall_impl; [exact Hcells|]. intros c Hc. simpl.
  rewrite <- Hlen in *.
  rewrite (np_index_on_grid data_row c) by lia.
  destruct (c <? 0) eqn:E.
  - apply Z.ltb_lt in E.
    rewrite np_index_in_range by lia. do 2 f_equal.
    symmetry. apply (Z.mod_unique _ _ (-1)); lia.
  - apply Z.ltb_ge in E.
    rewrite np_index_in_range by lia. by rewrite Z.mod_small by lia.
Qed.

Lemma negative_cell_counts_from_end_witness :
  project_catchment s1_grid ([-1; 0], [1; 1]%Q)
  = project_catchment s1_grid ([2; 0], [1; 1]%Q).
Proof.
  apply (negative_cell_counts_from_end s1_grid 3 [-1; 0] [1; 1]%Q).
  - repeat constructor.
  - repeat constructor; lia.
Defined.

Lemma np_mul_mismatch (coverage mask : list Q) :
  length coverage ≠ length mask → length coverage ≠ 1%nat → length mask ≠ 1%nat →
  np_mul coverage mask = Raise ValueError.
Proof.
  intros Hne Hc Hm. unfold np_mul.
  destruct (length coverage =? length mask)%nat eqn:E;
    [by apply Nat.eqb_eq in E|].
  destruct coverage as [|c [|c' coverage]]; destruct mask as [|m [|m' mask]];
    simpl in *; done.
Qed.

(** X11.  A descriptor whose lists of cells and weights differ in
    length, neither being of length one, cannot be broadcast: with every
    cell on the grid the projection of the catchment raises
    [ValueError]. *)
Theorem project_catchment_shape_mismatch (row : list Q) (rows : list (list Q))
    (cells : list Z) (weights : list Q) :
  Forall (λ c, - Z.of_nat (length row) ≤ c < Z.of_nat (length row)) cells →
  Forall (λ data_row, length data_row = length row) rows →
  length cells ≠ length weights →
  length cells ≠ 1%nat → length weights ≠ 1%nat →
  project_catchment (row :: rows) (cells, weights) = Raise ValueError.
Proof.
  intros Hcells Hrows Hne Hc Hw. unfold project_catchment. cbn [fst snd].
  rewrite (res_mapM_all_Ok _
             (λ data_row,
                map (λ c, cell_value data_row (c mod Z.of_nat (length data_row)))
                  cells)); last first.
  { intros data_row Hin. apply res_mapM_all_Ok. intros c Hcin.
    apply np_index_on_grid.
    assert (length data_row = length row) as ->.
    { apply elem_of_cons in Hin as [-> | Hin]; [done|].
      by apply (proj1 (Forall_forall _ _) Hrows). }
    by apply (proj1 (Forall_forall _ _) Hcells). }
  simpl. rewrite np_mul_mismatch; [done | | done |].
  - rewrite length_map. congruence.
  - by rewrite length_map.
Qed.

Lemma project_catchment_shape_mismatch_witness :
  project_catchment s1_grid ([0; 1; 2], [1; 1]%Q) = Raise ValueError.
Proof.
  apply (project_catchment_shape_mismatch [10; 20; 30]%Q _ [0; 1; 2] [1; 1]%Q).
  - repeat constructor; simpl; lia.
  - repeat constructor.
  - simpl. lia.
  - simpl. lia.
  - simpl. lia.
Defined.

(* --------------------------------------------------------------------- *)
(** ** The time stamp of a file                                           *)
(* --------------------------------------------------------------------- *)

Lemma py_split_two sep (s : string) :
  lacks sep s = false → ∃ a b rest, py_split sep s = a :: b :: rest.
Proof.
  induction s as [|c s IH]; [done|]. cbn [lacks py_split].
  destruct (Ascii.eqb c sep) eqn:Hc; simpl.
  - intros _. destruct (py_split sep s) as [|b rest] eqn:Hs.
    + by apply py_split_nonempty in Hs.
    + by exists "", b, rest.
  - intros Hs. destruct (IH Hs) as (a & b & rest & ->).
    by exists (String c a), b, rest.
Qed.

(** X12.  The time stamp of a file is read from the attribute
    [model_output_valid_time]: without the attribute the reader raises
    [KeyError], with an attribute that has no underscore [IndexError];
    it returns in every other case. *)
Theorem valid_time_outcome (nwm_data : nwm_dataset) :
  valid_time nwm_data
  = match ds_attrs nwm_data !! "model_output_valid_time" with
    | None => Raise KeyError
    | Some s =>
        if lacks "_" s then Raise IndexError
        else Ok (default "" (py_split "_" s !! 0%nat) +:+ " "
                 +:+ default "" (py_split "_" s !! 1%nat))
    end.
Proof.
  unfold valid_time.
  destruct (ds_attrs nwm_data !! "model_output_valid_time") as [s|]; [|done].
  destruct (lacks "_" s) eqn:Hs.
  - by rewrite py_split_lacks.
  - by destruct (py_split_two "_" s Hs) as (a & b & rest & ->).
Qed.

(** X13.  For an attribute [<date>_<time>] the time stamp is
    [<date> <time>]: the underscore becomes a space; what follows a
    second underscore is dropped. *)
Theorem valid_time_date_time (nwm_data : nwm_dataset) (d t rest : string) :
  lacks "_" d = true → lacks "_" t = true →
  rest = "" ∨ (∃ r, rest = "_" +:+ r) →
  ds_attrs nwm_data !! "model_output_valid_time" = Some (d +:+ "_" +:+ t +:+ rest) →
  valid_time nwm_data = Ok (d +:+ " " +:+ t).
Proof.
  intros Hd Ht Hrest Hattr. unfold valid_time. rewrite Hattr.
  change (d +:+ "_" +:+ t +:+ rest) with (d +:+ String "_" (t +:+ rest)).
  rewrite py_split_sep by done.
  destruct Hrest as [-> | [r ->]].
  - rewrite str_app_nil_r. by rewrite py_split_lacks.
  - change (t +:+ "_" +:+ r) with (t +:+ String "_" r).
    by rewrite py_split_sep.
Qed.

Lemma valid_time_date_time_witness :
  valid_time (s_dataset "2023-01-01_00:00:00" 1) = Ok "2023-01-01 00:00:00".
Proof.
  apply (valid_time_date_time _ "2023-01-01" "00:00:00" "").
  - reflexivity.
  - reflexivity.
  - by left.
  - reflexivity.
Defined.

(* --------------------------------------------------------------------- *)
(** ** Extraction does not depend on the number of workers                *)
(* --------------------------------------------------------------------- *)

Section OneWorker.

Context (xr_open_dataset : file_obj → result nwm_dataset).
Context (fs_type : option storage) (weights_json : list (string * (list Z * list Q))).

Local Abbreviation loop := (grid2catchment_loop xr_open_dataset fs_type weights_json).

(** The loop over a list of files is the loop over its head followed by
    the loop over its tail. *)
Lemma grid2catchment_loop_app fs (l1 l2 : list string) :
  ∀ w,
    loop fs (l1 ++ l2) w
    = match loop fs l1 w with
      | (w1, Ok r1) =>
          match loop fs l2 w1 with
          | (w2, Ok r2) => (w2, Ok (r1.1 ++ r2.1, r1.2 ++ r2.2))
          | (w2, Raise e) => (w2, Raise e)
          | (w2, OutOfFuel) => (w2, OutOfFuel)
          end
      | (w1, Raise e) => (w1, Raise e)
      | (w1, OutOfFuel) => (w1, OutOfFuel)
      end.
Proof.
  induction l1 as [|nwm_file l1 IH]; intros w.
  - simpl. unfold mret, py_ret.
    by destruct (loop fs l2 w) as [w2 [[d t]| |]].
  - cbn [app grid2catchment_loop]. unfold mbind, py_bind, lift, log_open.
    destruct (open_file fs_type fs nwm_file) as [f| |]; [|done..].
    destruct (xr_open_dataset f) as [nwm_data| |]; [|done..].
    destruct (decode nwm_data) as [data_allvars| |]; [|done..].
    destruct (valid_time nwm_data) as [t| |]; [|done..].
    destruct (project data_allvars weights_json) as [data_array| |]; [|done..].
    rewrite IH.
    destruct (loop fs l1 _) as [w1 [r1| |]]; [|done..].
    unfold mret, py_ret. simpl.
    by destruct (loop fs l2 w1) as [w2 [r2| |]].
Qed.

Lemma grid2catchment_loop_length fs (nwm_files : list string) :
  ∀ w w' r,
    loop fs nwm_files w = (w', Ok r) →
    length r.1 = length nwm_files ∧ length r.2 = length nwm_files.
Proof.
  induction nwm_files as [|nwm_file nwm_files IH]; intros w w' r; simpl.
  - by intros [= <- <-].
  - intros H.
    apply py_lift_inv_world in H as (f & _ & H).
    apply py_bind_inv_world in H as (w1 & [] & _ & H).
    do 4 (apply py_lift_inv_world in H as (? & _ & H)).
    apply py_bind_inv_world in H as (w2 & rest & Hrest & H).
    injection H as <- <-. simpl.
    destruct (IH _ _ _ Hrest) as [-> ->]. done.
Qed.

(** Workers that run one after the other over the pieces of a list do
    what one worker does over the whole list. *)
Lemma workers_as_one fs (files_list : list (list string)) :
  Forall (λ nwm_files, nwm_files ≠ []) files_list →
  ∀ w,
    match loop fs (concat files_list) w with
    | (w', Ok r) =>
        ∃ results,
          py_mapM (loop fs) files_list w = (w', Ok results)
          ∧ concat (fst <$> results) = r.1
          ∧ concat (snd <$> results) = r.2
          ∧ forallb (λ d : list (list (list Q)), negb (length d =? 0)%nat)
              (fst <$> results) = true
    | (w', Raise e) => py_mapM (loop fs) files_list w = (w', Raise e)
    | (w', OutOfFuel) => py_mapM (loop fs) files_list w = (w', OutOfFuel)
    end.
Proof.
  induction 1 as [|nwm_files files_list Hne _ IH]; intros w.
  - simpl. unfold mret, py_ret. by exists [].
  - cbn [concat py_mapM]. rewrite grid2catchment_loop_app.
    unfold mbind, py_bind.
    destruct (loop fs nwm_files w) as [w1 [r1| |]] eqn:Hone; [|done..].
    specialize (IH w1).
    destruct (loop fs (concat files_list) w1) as [w2 [r2| |]].
    + destruct IH as (results & -> & Hd & Ht & Hall).
      exists (r1 :: results). unfold mret, py_ret.
      rewrite !fmap_cons. cbn [concat forallb].
      rewrite Hd, Ht, Hall. split; [done|]. split; [done|]. split; [done|].
      destruct (grid2catchment_loop_length _ _ _ _ _ Hone) as [Hlen _].
      destruct nwm_files; [done|]. by destruct r1.1.
    + by rewrite IH.
    + by rewrite IH.
Qed.

Lemma slice_files_nonempty (files : list string) (shares : list Z) :
  Forall (λ s, 0 < s) shares →
  ∀ start : nat,
    (Z.of_nat start + np_sum shares ≤ Z.of_nat (length files)) →
    Forall (λ nwm_files, nwm_files ≠ []) (slice_files files shares (Z.of_nat start)).
Proof.
  induction 1 as [|s shares Hs Hpos IH]; intros start Hsum; simpl; [done|].
  assert (0 ≤ np_sum shares) by (by apply np_sum_nonneg).
  simpl in Hsum.
  replace ((Z.of_nat start + s) `min` Z.of_nat (length files))
    with (Z.of_nat (start + Z.to_nat s)) by lia.
  constructor; [|apply IH; lia].
  replace (Z.of_nat (start + Z.to_nat s))
    with ((Z.of_nat start + Z.of_nat (Z.to_nat s)) `min` Z.of_nat (length files))
    by lia.
  rewrite py_slice_take_drop. intros Hnil.
  apply (f_equal length) in Hnil.
  rewrite length_take, length_drop in Hnil. simpl in Hnil. lia.
Qed.

Lemma multiprocess_data_extract_one_worker (fuel : nat) (files : list string)
    (nprocs : nat) (fs : option fs_handle) (w : world) :
  files ≠ [] → (1 ≤ nprocs)%nat →
  multiprocess_data_extract xr_open_dataset (S fuel) fs_type weights_json
    files nprocs fs w
  = match forcing_grid2catchment xr_open_dataset fs_type weights_json files fs w with
    | (w', Ok r) => (w', Ok (r.1, r.2))
    | other => other
    end.
Proof.
  intros Hne Hprocs. unfold multiprocess_data_extract.
  destruct (balanced_shares fuel files nprocs (1 # 20) 35 1 Hne Hprocs eq_refl)
    as (shares & Hdist & Hbal & Hpos & Hsum).
  rewrite Hdist. rewrite (py_bind_lift_Ok _ _ _ _ eq_refl).
  rewrite Hbal. rewrite (py_bind_lift_Ok _ _ _ _ eq_refl).
  assert (shares ≠ []) as Hsome.
  { intros ->. simpl in Hsum. destruct files; [done | simpl in Hsum; lia]. }
  assert ((length shares =? 0)%nat = false) as ->
    by (destruct shares; [done | done]).
  rewrite (py_bind_lift_Ok _ _ _ tt eq_refl).
  unfold forcing_grid2catchment.
  set (fs' := if decide (fs_type = Some Google) then Some GCSFileSystem else fs).
  pose proof (workers_as_one fs' (slice_files files shares 0)) as Hone.
  change 0 with (Z.of_nat 0) in Hone.
  specialize (Hone (slice_files_nonempty files shares Hpos 0%nat ltac:(lia)) w).
  rewrite (slice_files_concat files shares
             ltac:(eapply Forall_impl; [exact Hpos|]; simpl; lia) 0%nat) in Hone.
  rewrite Hsum, Nat2Z.id, drop_0, take_ge in Hone by done.
  change (Z.of_nat 0) with 0 in Hone.
  unfold mbind at 1, py_bind at 1.
  change (py_mapM (λ nwm_files : list string, loop fs' nwm_files))
    with (py_mapM (loop fs')).
  destruct (loop fs' files w) as [w' [r| |]].
  - destruct Hone as (results & -> & Hd & Ht & Hall).
    unfold mbind, py_bind, lift, mret, py_ret. rewrite Hall. by rewrite Hd, Ht.
  - by rewrite Hone.
  - by rewrite Hone.
Qed.

End OneWorker.

(** X14.  The cube and the time axis that [multiprocess_data_extract]
    returns, or the exception it raises, do not depend on the number of
    workers: they are those of one call of [forcing_grid2catchment] on
    the whole list of files. *)
Theorem extraction_independent_of_workers
    (xr_open_dataset : file_obj → result nwm_dataset) (fuel : nat)
    (fs_type : option storage) (weights_json : list (string * (list Z * list Q)))
    (files : list string) (nprocs : nat) (fs : option fs_handle) (w : world) :
  files ≠ [] → (1 ≤ nprocs)%nat →
  (multiprocess_data_extract xr_open_dataset (S fuel) fs_type weights_json
     files nprocs fs w).2
  = (forcing_grid2catchment xr_open_dataset fs_type weights_json files fs w).2.
Proof.
  intros Hne Hprocs. rewrite multiprocess_data_extract_one_worker by done.
  by destruct (forcing_grid2catchment xr_open_dataset fs_type weights_json
                 files fs w) as [w' [[d t]| |]].
Qed.

Lemma extraction_independent_of_workers_witness :
  (multiprocess_data_extract s_store 1 None s1_crosswalk s_files 3 None empty_world).2
  = (forcing_grid2catchment s_store None s1_crosswalk s_files None empty_world).2.
Proof.
  apply (extraction_independent_of_workers s_store 0 None s1_crosswalk s_files 3
           None empty_world); [done | lia].
Defined.

(** X15.  When extraction returns, the cube has one slice and the time
    axis one stamp per input file, and every slice has one row per
    variable and one column per catchment. *)
Theorem extraction_shape
    (xr_open_dataset : file_obj → result nwm_dataset) (fuel : nat)
    (fs_type : option storage) (weights_json : list (string * (list Z * list Q)))
    (files : list string) (nprocs : nat) (fs : option fs_handle) (w : world)
    (data_array : list (list (list Q))) (t_ax : list string) :
  files ≠ [] →
  (multiprocess_data_extract xr_open_dataset fuel fs_type weights_json
     files nprocs fs w).2 = Ok (data_array, t_ax) →
  length data_array = length files
  ∧ length t_ax = length files
  ∧ Forall (λ data_t, length data_t = length nwm_variables
                      ∧ Forall (λ var_row, length var_row = length weights_json)
                          data_t) data_array.
Proof.
  intros Hne Hrun.
  pose proof (multiprocess_data_extract_shape _ _ _ _ _ _ _ _ _ _ Hrun)
    as [Hlen Hall].
  assert (length data_array = length files) as Hd.
  { pose proof Hrun as H. unfold multiprocess_data_extract in H.
    apply py_lift_inv in H as (shares0 & Hdist & H).
    apply py_lift_inv in H as (shares & Hbal & _).
    pose proof (distribute_work_some_worker _ _ _ Hne Hdist) as Hprocs.
    destruct (load_balance_some_fuel _ _ _ _ _ _ Hbal) as [fuel' ->].
    rewrite multiprocess_data_extract_one_worker in Hrun by done.
    unfold forcing_grid2catchment in Hrun.
    destruct (grid2catchment_loop xr_open_dataset fs_type weights_json
                (if decide (fs_type = Some Google) then Some GCSFileSystem else fs)
                files w) as [w' [r| |]] eqn:Hloop; [|done..].
    simpl in Hrun. injection Hrun as <- <-.
    by destruct (grid2catchment_loop_length _ _ _ _ _ _ _ _ Hloop). }
  split; [done|]. split; [by rewrite Hlen | done].
Qed.

Lemma extraction_shape_witness :
  length (s_chunk 0).1 = 2%nat
  ∧ length (s_chunk 0).2 = 2%nat
  ∧ Forall (λ data_t, length data_t = length nwm_variables
                      ∧ Forall (λ var_row, length var_row = length s1_crosswalk)
                          data_t) (s_chunk 0).1.
Proof.
  apply (extraction_shape s_store 1 None s1_crosswalk (chunk_files s_files 2 0) 2
           None empty_world (s_chunk 0).1 (s_chunk 0).2).
  - done.
  - vm_compute. reflexivity.
Defined.

(* --------------------------------------------------------------------- *)
(** ** What extraction and emission leave alone                           *)
(* --------------------------------------------------------------------- *)

(** X16.  Extraction writes nothing: whether it returns or raises, the
    local files and the objects of the buckets are what they were. *)
Theorem extraction_writes_nothing
    (xr_open_dataset : file_obj → result nwm_dataset) (fuel : nat)
    (fs_type : option storage) (weights_json : list (string * (list Z * list Q)))
    (files : list string) (nprocs : nat) (fs : option fs_handle) (w : world) :
  local_files (multiprocess_data_extract xr_open_dataset fuel fs_type
                 weights_json files nprocs fs w).1 = local_files w
  ∧ s3_objects (multiprocess_data_extract xr_open_dataset fuel fs_type
                  weights_json files nprocs fs w).1 = s3_objects w.
Proof.
  apply (multiprocess_data_extract_preserves xr_open_dataset fuel fs_type
           weights_json same_tables (λ _, True) same_tables_refl same_tables_trans
           (λ f _, log_open_same_tables f) files nprocs fs).
  done.
Qed.

(** X17.  Emission opens no input file: whether [multiprocess_write]
    returns or raises, the files opened so far are the same. *)
Theorem emission_opens_nothing
    (output_file_type : list string) (storage_type : storage) (fuel : nat)
    (data : list (list (list Q))) (t_ax : list string) (catchments : list string)
    (nprocs : nat) (out_path : string) (ii_append : bool) (w : world) :
  opened (multiprocess_write output_file_type storage_type fuel data t_ax
            catchments nprocs out_path ii_append w).1 = opened w.
Proof.
  apply (multiprocess_write_preserves output_file_type storage_type fuel
           same_opened same_opened_refl same_opened_trans).
  - done.
  - done.
Qed.

(* --------------------------------------------------------------------- *)
(** ** Emission: what makes it fail                                       *)
(* --------------------------------------------------------------------- *)

Lemma fails_bind_l {A B} (m : py A) (f : A → py B) (w : world) :
  fails (m w).2 = true → fails ((m ≫= f) w).2 = true.
Proof. unfold mbind, py_bind. by destruct (m w) as [w1 [a| |]]. Qed.

Lemma fails_bind_r {A B} (m : py A) (f : A → py B) (w : world) :
  (∀ a w1, fails (f a w1).2 = true) → fails ((m ≫= f) w).2 = true.
Proof. intros Hf. unfold mbind, py_bind. by destruct (m w) as [w1 [a| |]]. Qed.

Lemma fails_mapM {A B} (body : A → py B) (l : list A) (x : A) :
  x ∈ l → (∀ w, fails (body x w).2 = true) →
  ∀ w, fails (py_mapM body l w).2 = true.
Proof.
  intros Hx Hbody. induction l as [|a l IH]; intros w.
  - by apply elem_of_nil in Hx.
  - cbn [py_mapM]. apply elem_of_cons in Hx as [<- | Hx].
    + by apply fails_bind_l.
    + apply fails_bind_r. intros y w1. apply fails_bind_l. by apply IH.
Qed.

Lemma cat_id_of_lacks (jcatch : string) :
  lacks "-" jcatch = true → cat_id_of jcatch = Raise IndexError.
Proof. intros H. unfold cat_id_of. by rewrite py_split_lacks. Qed.

Lemma assignment_covers (data : list (list (list Q))) (shares : list Z) :
  ∀ (start : Z) (catchments : list string) (x : string),
    Forall (λ s, 0 ≤ s) shares →
    Z.of_nat (length catchments) ≤ np_sum shares →
    x ∈ catchments →
    ∃ wk, wk ∈ assignment data shares start catchments ∧ x ∈ wk.2.
Proof.
  induction shares as [|s shares IH]; intros start catchments x Hpos Hlen Hx.
  - simpl in Hlen. destruct catchments; [by apply elem_of_nil in Hx | simpl in Hlen; lia].
  - apply Forall_cons in Hpos as [Hs Hpos]. cbn [assignment].
    rewrite <- (take_drop (Z.to_nat s) catchments) in Hx.
    apply elem_of_app in Hx as [Hx | Hx].
    + exists (cube_slice start (start + s) data, take (Z.to_nat s) catchments).
      split; [apply elem_of_cons; by left | done].
    + destruct (IH (start + s) (drop (Z.to_nat s) catchments) x Hpos) as (wk & Hin & Hwk);
        [|done|].
      * rewrite length_drop. change (np_sum (s :: shares)) with (s + np_sum shares) in Hlen.
        assert (0 ≤ np_sum shares) by (clear -Hpos; induction Hpos; simpl; lia).
        lia.
      * exists wk. split; [apply elem_of_cons; by right | done].
Qed.

Section BadId.

Context (output_file_type : list string) (storage_type : storage).

Lemma write_loop_bad_id data t_ax out_path ii_append (jcatch : string)
    (catchments : list string) :
  jcatch ∈ catchments → lacks "-" jcatch = true →
  ∀ j filename w,
    fails (write_loop output_file_type storage_type data t_ax out_path ii_append
             j catchments filename w).2 = true.
Proof.
  intros Hin Hbad. induction catchments as [|c catchments IH]; intros j filename w.
  - by apply elem_of_nil in Hin.
  - cbn [write_loop]. apply fails_bind_r. intros df w1.
    apply elem_of_cons in Hin as [<- | Hin].
    + apply fails_bind_l. by rewrite cat_id_of_lacks.
    + apply fails_bind_r. intros cat_id w2.
      apply fails_bind_r. intros out w3. cbv zeta.
      apply fails_bind_r. intros filename' w4.
      apply fails_bind_l. by apply IH.
Qed.

Lemma write_data_bad_id data t_ax out_path ii_append (jcatch : string)
    (catchments : list string) (w : world) :
  jcatch ∈ catchments → lacks "-" jcatch = true →
  fails (write_data output_file_type storage_type data t_ax catchments out_path
           ii_append w).2 = true.
Proof.
  intros Hin Hbad. unfold write_data.
  apply fails_bind_r. intros _ w1. apply fails_bind_l.
  by apply (write_loop_bad_id _ _ _ _ jcatch).
Qed.

End BadId.

(** X18.  A catchment identifier without ['-'] has no second field:
    whatever its place in the list and however many workers there are,
    the emission of a chunk that holds it does not return. *)
Theorem id_without_dash_fails
    (output_file_type : list string) (storage_type : storage) (fuel : nat)
    (data : list (list (list Q))) (t_ax : list string) (catchments : list string)
    (nprocs : nat) (out_path : string) (ii_append : bool) (w : world)
    (jcatch : string) :
  jcatch ∈ catchments → lacks "-" jcatch = true →
  fails (multiprocess_write output_file_type storage_type fuel data t_ax
           catchments nprocs out_path ii_append w).2 = true.
Proof.
  intros Hin Hbad.
  assert (catchments ≠ []) as Hne by (intros ->; by apply elem_of_nil in Hin).
  unfold multiprocess_write.
  destruct nprocs as [|nprocs'].
  { apply fails_bind_l. rewrite distribute_work_no_worker_items by done. done. }
  destruct fuel as [|fuel'].
  { apply fails_bind_r. intros shares w1. apply fails_bind_l.
    unfold lift, load_balance. cbn [snd].
    by destruct (completion_times (1 # 20) 1 200 shares). }
  destruct (balanced_shares fuel' catchments (S nprocs') (1 # 20) 1 200 Hne
              ltac:(lia) eq_refl) as (shares & Hdist & Hbal & Hpos & Hsum).
  rewrite Hdist, (py_bind_lift_Ok _ _ _ _ eq_refl).
  rewrite Hbal, (py_bind_lift_Ok _ _ _ _ eq_refl).
  rewrite assign_loop_assignment by done.
  rewrite (py_bind_lift_Ok _ _ _ _ eq_refl).
  apply fails_bind_r. intros _ w1. apply fails_bind_l.
  destruct (assignment_covers data shares 0 catchments jcatch) as (wk & Hwk & Hj);
    [eapply Forall_impl; [exact Hpos|]; simpl; lia | lia | done |].
  apply (fails_mapM _ _ wk Hwk). intros w2.
  by apply (write_data_bad_id _ _ _ _ _ _ jcatch).
Qed.

Lemma id_without_dash_fails_witness :
  fails (multiprocess_write ["csv"] Local 1 one_step ["20230101 0000"]
           ["cat-1"; "catchment2"] 2 "/out" false empty_world).2 = true.
Proof.
  apply (id_without_dash_fails ["csv"] Local 1 one_step ["20230101 0000"]
           ["cat-1"; "catchment2"] 2 "/out" false empty_world "catchment2").
  - apply elem_of_cons. right. apply elem_of_cons. by left.
  - reflexivity.
Defined.

(** X19.  Appending needs the table: on the local file system, when the
    table of the first catchment is not there, [write_data] with the
    append flag raises [FileNotFoundError] and leaves everything as it
    was; the flag never creates a table. *)
Theorem append_needs_the_table
    (output_file_type : list string) (data : list (list (list Q)))
    (t_ax : list string) (jcatch : string) (catchments : list string)
    (out_path cat_id : string) (df : list (string * list Q)) (w : world) :
  named output_file_type "parquet" || named output_file_type "csv" = true →
  cat_id_of jcatch = Ok cat_id →
  make_df data t_ax 0 = Ok df →
  stored Local out_path (table_ext output_file_type) w cat_id = None →
  write_data output_file_type Local data t_ax (jcatch :: catchments) out_path true w
  = (w, Raise FileNotFoundError).
Proof.
  intros Hformat Hid Hdf Hnone.
  assert (write_loop output_file_type Local data t_ax out_path true 0
            (jcatch :: catchments) "" w = (w, Raise FileNotFoundError)) as Hloop.
  { cbn [write_loop].
    rewrite (py_bind_lift_Ok _ _ _ _ Hdf), (py_bind_lift_Ok _ _ _ _ Hid).
    unfold emit. rewrite Hformat.
    unfold stored, table_ext in Hnone. unfold named in *.
    destruct (bool_decide ("parquet" ∈ output_file_type)) eqn:Hpq.
    - unfold mbind, py_bind, read_local. by rewrite Hnone.
    - simpl in Hformat. rewrite Hformat.
      unfold mbind, py_bind, read_local. by rewrite Hnone. }
  unfold write_data. rewrite decide_False by done.
  unfold mbind at 1, py_bind at 1, mret at 1, py_ret at 1.
  unfold mbind at 1, py_bind at 1. by rewrite Hloop.
Qed.

Lemma append_needs_the_table_witness :
  write_data ["csv"] Local one_step ["20230101 0000"] ["cat-1"] "/out" true empty_world
  = (empty_world, Raise FileNotFoundError).
Proof.
  apply (append_needs_the_table ["csv"] one_step ["20230101 0000"] "cat-1" []
           "/out" "1" [("20230101 0000", [1; 2; 3; 4; 5; 6; 7; 8; 9]%Q)] empty_world).
  - reflexivity.
  - reflexivity.
  - reflexivity.
  - reflexivity.
Defined.

(* --------------------------------------------------------------------- *)
(** ** The accepted output types                                          *)
(* --------------------------------------------------------------------- *)

Lemma one_char_not_a_type (a : ascii) :
  bool_decide (String a EmptyString ∈ file_types) = false.
Proof.
  apply bool_decide_eq_false. unfold file_types. intros H.
  repeat (apply elem_of_cons in H as [H | H]; [discriminate H|]).
  by apply elem_of_nil in H.
Qed.

(** X20.  An [output_file_type] given as a string is checked character
    by character, and no character is an accepted type: every string but
    the empty one fails the assertion, the default ["csv"] that stands
    for a missing key included.  Only a list of accepted types passes. *)
Theorem string_output_type_rejected (s : string) (l : list string) :
  check_file_types (Some (TypeStr s))
  = (if String.eqb s "" then Ok tt else Raise AssertionError)
  ∧ check_file_types None = Raise AssertionError
  ∧ check_file_types (Some (TypeList l))
    = (if forallb (λ jtype, bool_decide (jtype ∈ file_types)) l
       then Ok tt else Raise AssertionError).
Proof.
  split; [|split; [done|done]].
  unfold check_file_types, default, id. cbn [iter_types].
  destruct s as [|a s]; [done|].
  cbn [list_ascii_of_string String.eqb]. rewrite fmap_cons. cbn [forallb].
  by rewrite one_char_not_a_type.
Qed.

(* --------------------------------------------------------------------- *)
(** ** The chunks of the primary cycle                                    *)
(* --------------------------------------------------------------------- *)

(** X21.  The chunks of the primary cycle cut the list of input files
    into consecutive pieces: put end to end they give the list back, no
    chunk is empty and none has more than [nfile_chunk] files. *)
Theorem chunks_partition_the_files (nwm_forcing_files : list string)
    (nfile_chunk : nat) :
  (1 ≤ nfile_chunk)%nat →
  let nloops := ((length nwm_forcing_files + nfile_chunk - 1) / nfile_chunk)%nat in
  concat (map (chunk_files nwm_forcing_files nfile_chunk) (seq 0 nloops))
  = nwm_forcing_files
  ∧ Forall (λ jloop,
              (1 ≤ length (chunk_files nwm_forcing_files nfile_chunk jloop)
               ≤ nfile_chunk)%nat)
      (seq 0 nloops).
Proof.
  intros Hc nloops. split; [by apply chunk_files_cover|].
  apply Forall_forall. intros jloop Hin. apply elem_of_seq in Hin.
  pose proof (chunk_files_nonempty nwm_forcing_files nfile_chunk jloop Hc
                ltac:(unfold nloops in Hin; lia)) as Hne.
  rewrite chunk_files_take_drop in *. rewrite length_take.
  split; [|lia].
  destruct (take nfile_chunk (drop (jloop * nfile_chunk) nwm_forcing_files))
    eqn:E; [done|].
  apply (f_equal length) in E. rewrite length_take in E. simpl in E. lia.
Qed.

Lemma chunks_partition_the_files_witness :
  concat (map (chunk_files s_files 3) (seq 0 ((4 + 3 - 1) / 3))) = s_files
  ∧ Forall (λ jloop, (1 ≤ length (chunk_files s_files 3 jloop) ≤ 3)%nat)
      (seq 0 ((4 + 3 - 1) / 3)).
Proof. apply (chunks_partition_the_files s_files 3). lia. Defined.

(* --------------------------------------------------------------------- *)
(** ** The crosswalk of several weight files                              *)
(* --------------------------------------------------------------------- *)

Lemma dict_set_keys {V} (k : string) (v : V) (d : list (string * V)) :
  dict_keys (dict_set k v d)
  = if bool_decide (k ∈ dict_keys d) then dict_keys d else dict_keys d ++ [k].
Proof.
  unfold dict_keys. induction d as [|[k' v'] d IH]; [done|].
  cbn [dict_set]. destruct (String.eqb k' k) eqn:E.
  - apply String.eqb_eq in E as ->. cbn [fmap list_fmap fst].
    rewrite bool_decide_eq_true_2; [done | by left].
  - apply String.eqb_neq in E. cbn [fmap list_fmap fst]. fold (fmap (M:=list) (@fst string V)).
    rewrite IH. case_bool_decide as Hin.
    + rewrite bool_decide_eq_true_2; [done | by right].
    + rewrite bool_decide_eq_false_2; [done|].
      intros [?|?]%elem_of_cons; [congruence | done].
Qed.

Lemma dict_set_NoDup {V} (k : string) (v : V) (d : list (string * V)) :
  NoDup (dict_keys d) → NoDup (dict_keys (dict_set k v d)).
Proof.
  intros Hd. rewrite dict_set_keys. case_bool_decide as Hin; [done|].
  apply NoDup_app. split; [done|]. split; [|apply NoDup_singleton].
  intros x Hx [-> | H]%elem_of_cons; [done | by apply elem_of_nil in H].
Qed.

Lemma dict_set_elem_of {V} (k : string) (v : V) (d : list (string * V)) (x : string) :
  x ∈ dict_keys (dict_set k v d) ↔ x = k ∨ x ∈ dict_keys d.
Proof.
  rewrite dict_set_keys. case_bool_decide as Hin.
  - split; [by right | by intros [-> | ?]].
  - rewrite elem_of_app, list_elem_of_singleton. tauto.
Qed.

Lemma dict_union_NoDup {V} (d1 d2 : list (string * V)) :
  NoDup (dict_keys d1) → NoDup (dict_keys (dict_union d1 d2)).
Proof.
  unfold dict_union. revert d1.
  induction d2 as [|[k v] d2 IH]; intros d1 Hd; [done|].
  cbn [foldl]. apply IH. by apply dict_set_NoDup.
Qed.

Lemma dict_union_elem_of {V} (d1 d2 : list (string * V)) (x : string) :
  x ∈ dict_keys (dict_union d1 d2) ↔ x ∈ dict_keys d1 ∨ x ∈ dict_keys d2.
Proof.
  unfold dict_union. revert d1.
  induction d2 as [|[k v] d2 IH]; intros d1.
  - cbn [foldl]. unfold dict_keys at 3. rewrite fmap_nil, elem_of_nil. tauto.
  - cbn [foldl]. rewrite IH, dict_set_elem_of.
    unfold dict_keys at 4. rewrite fmap_cons, elem_of_cons. cbn [fst]. tauto.
Qed.

Lemma load_weights_keys (weight_files : list (string * list (string * (list Z * list Q)))) :
  ∀ crosswalk_dict jcatchment_dict count,
    NoDup (dict_keys crosswalk_dict) →
    NoDup (dict_keys (load_weights weight_files crosswalk_dict jcatchment_dict count).1)
    ∧ ∀ x, x ∈ dict_keys (load_weights weight_files crosswalk_dict jcatchment_dict
                            count).1
           ↔ x ∈ dict_keys crosswalk_dict
             ∨ ∃ doc, doc ∈ weight_files ∧ x ∈ dict_keys doc.2.
Proof.
  induction weight_files as [|[jweight_file new_dict] weight_files IH];
    intros crosswalk_dict jcatchment_dict count Hd.
  - simpl. split; [done|]. intros x. split; [by left|].
    intros [? | (doc & Hdoc & _)]; [done | by apply elem_of_nil in Hdoc].
  - cbn [load_weights]. cbv zeta.
    assert (∀ jd c,
      NoDup (dict_keys (load_weights weight_files
                          (dict_union crosswalk_dict new_dict) jd c).1)
      ∧ ∀ x, x ∈ dict_keys (load_weights weight_files
                              (dict_union crosswalk_dict new_dict) jd c).1
             ↔ x ∈ dict_keys crosswalk_dict
               ∨ ∃ doc, doc ∈ (jweight_file, new_dict) :: weight_files
                        ∧ x ∈ dict_keys doc.2) as Hboth.
    { intros jd c.
      destruct (IH (dict_union crosswalk_dict new_dict) jd c
                  (dict_union_NoDup _ _ Hd)) as [Hnd Hin].
      split; [done|]. intros x. rewrite Hin, dict_union_elem_of. split.
      - intros [[? | ?] | (doc & Hdoc & Hx)]; [by left | |].
        + right. exists (jweight_file, new_dict). split; [by left | done].
        + right. exists doc. split; [by right | done].
      - intros [? | (doc & Hdoc & Hx)]; [by left; left|].
        apply elem_of_cons in Hdoc as [-> | Hdoc]; [by left; right|].
        right. by exists doc. }
    destruct (py_in "//" jweight_file); apply Hboth.
Qed.

(** X22.  The crosswalk that the loader builds from the weight files
    holds every catchment once: its identifiers are those of the files
    taken together, without repetition, so that a catchment named in
    several files is processed once. *)
Theorem crosswalk_holds_each_catchment_once
    (weight_files : list (string * list (string * (list Z * list Q)))) :
  NoDup (dict_keys (load_weights weight_files [] [] 0).1)
  ∧ ∀ jcatch,
      jcatch ∈ dict_keys (load_weights weight_files [] [] 0).1
      ↔ ∃ doc, doc ∈ weight_files ∧ jcatch ∈ dict_keys doc.2.
Proof.
  destruct (load_weights_keys weight_files [] [] 0 NoDup_nil_2) as [Hnd Hin].
  split; [done|]. intros jcatch. rewrite Hin. split; [|by right].
  intros [H | H]; [by apply elem_of_nil in H | done].
Qed.

(* --------------------------------------------------------------------- *)
(** ** An output path on Google Cloud Storage                             *)
(* --------------------------------------------------------------------- *)

Section NoPath.

Context (xr_open_dataset : file_obj → result nwm_dataset) (fuel : nat).



End NoPath.



(* --------------------------------------------------------------------- *)
(** ** After the primary cycle                                            *)
(* --------------------------------------------------------------------- *)

Lemma storage_name_no_tar (storage_type : storage) :
  py_in "tar" (storage_name storage_type) = false.
Proof. by destruct storage_type. Qed.

Section AfterCycle.

Context (xr_open_dataset : file_obj → result nwm_dataset) (fuel : nat).
Context (file_size : file_obj → result Z).
Context (write_metadata : list (list (list Q)) → result (list string) → py unit).
Context (write_tars : list (list (string * list Q)) → list (string * list string)
                      → list string → py unit).
Context (finish : py unit).

(** Every pass of the cycle ends with its five locals deleted. *)
Lemma cycle_unbinds output_file_type storage_type fs_type fs crosswalk_dict
    nwm_forcing_files nprocs nfile_chunk forcing_path jloops :
  ∀ ii_append locals w w' out,
    cycle xr_open_dataset fuel output_file_type storage_type fs_type fs
      crosswalk_dict nwm_forcing_files nprocs nfile_chunk forcing_path
      jloops ii_append locals w = (w', Ok out) →
    out = None ∨ out = locals.
Proof.
  induction jloops as [|jloop jloops IH]; intros ii_append locals w w' out.
  - cbn [cycle]. intros [= _ <-]. by right.
  - cbn [cycle]. intros H.
    apply py_bind_inv_world in H as (w1 & extracted & _ & H).
    apply py_lift_inv_world in H as (forcing_path' & _ & H).
    apply py_bind_inv_world in H as (w2 & written & _ & H).
    rewrite storage_name_no_tar in H. cbn [negb] in H.
    left. by destruct (IH _ _ _ _ _ H).
Qed.

(** The cycle with its locals does to the world what [time_loop] does. *)
Lemma cycle_time_loop output_file_type storage_type fs_type fs crosswalk_dict
    nwm_forcing_files nprocs nfile_chunk forcing_path jloops :
  ∀ ii_append locals w,
    match time_loop xr_open_dataset fuel output_file_type storage_type fs_type fs
            crosswalk_dict nwm_forcing_files nprocs nfile_chunk forcing_path
            jloops ii_append w with
    | (w', Ok _) =>
        ∃ out, cycle xr_open_dataset fuel output_file_type storage_type fs_type fs
                 crosswalk_dict nwm_forcing_files nprocs nfile_chunk forcing_path
                 jloops ii_append locals w = (w', Ok out)
    | (w', Raise e) =>
        cycle xr_open_dataset fuel output_file_type storage_type fs_type fs
          crosswalk_dict nwm_forcing_files nprocs nfile_chunk forcing_path
          jloops ii_append locals w = (w', Raise e)
    | (w', OutOfFuel) =>
        cycle xr_open_dataset fuel output_file_type storage_type fs_type fs
          crosswalk_dict nwm_forcing_files nprocs nfile_chunk forcing_path
          jloops ii_append locals w = (w', OutOfFuel)
    end.
Proof.
  induction jloops as [|jloop jloops IH]; intros ii_append locals w.
  - cbn [time_loop cycle]. by exists locals.
  - cbn [time_loop cycle]. unfold mbind, py_bind, lift.
    destruct (multiprocess_data_extract _ _ _ _ _ _ _ w) as [w1 [extracted| |]];
      [|done..].
    destruct forcing_path as [forcing_path'| |]; [|done..].
    cbv beta iota.
    destruct (multiprocess_write _ _ _ _ _ _ _ _ _ w1) as [w2 [written| |]];
      [|done..].
    apply IH.
Qed.

Lemma prep_ngen_data_run_fails weight_files nwm_forcing_files output_path
    output_file_type nprocs nfile_chunk ii_collect_stats w :
  fails (prep_ngen_data_run xr_open_dataset fuel file_size write_metadata
           write_tars finish weight_files nwm_forcing_files output_path
           output_file_type nprocs nfile_chunk ii_collect_stats w).2 = true.
Proof.
  unfold prep_ngen_data_run.
  apply fails_bind_r. intros _ w1. cbv zeta.
  apply fails_bind_r. intros first w2.
  apply fails_bind_r. intros _ w3.
  unfold mbind at 1, py_bind at 1.
  destruct (cycle _ _ _ _ _ _ _ _ _ _ _ _ _ _ w3) as [w4 [locals| |]] eqn:Hcycle;
    [|done..].
  apply cycle_unbinds in Hcycle as [-> | ->].
  - destruct ii_collect_stats.
    + apply fails_bind_l. apply fails_bind_r. intros sizes w5.
      by apply fails_bind_l.
    + unfold mbind at 1, py_bind at 1, mret at 1, py_ret at 1.
      case_bool_decide.
      * apply fails_bind_l. by apply fails_bind_l.
      * done.
  - destruct ii_collect_stats.
    + apply fails_bind_l. apply fails_bind_r. intros sizes w5.
      by apply fails_bind_l.
    + unfold mbind at 1, py_bind at 1, mret at 1, py_ret at 1.
      case_bool_decide.
      * apply fails_bind_l. by apply fails_bind_l.
      * done.
Qed.

Lemma prep_ngen_data_run_after_cycle weight_files nwm_forcing_files output_path
    output_file_type nprocs nfile_chunk w w' :
  prep_ngen_data xr_open_dataset fuel weight_files nwm_forcing_files output_path
    output_file_type nprocs nfile_chunk w = (w', Ok tt) →
  prep_ngen_data_run xr_open_dataset fuel file_size write_metadata write_tars
    finish weight_files nwm_forcing_files output_path output_file_type nprocs
    nfile_chunk false w = (w', Raise UnboundLocalError).
Proof.
  unfold prep_ngen_data, prep_ngen_data_run. intros H.
  apply py_lift_inv_world in H as ([] & Hassert & H).
  rewrite Hassert, (py_bind_lift_Ok _ _ _ tt eq_refl).
  apply py_lift_inv_world in H as (first & Hfirst & H).
  rewrite Hfirst, (py_bind_lift_Ok _ _ _ first eq_refl).
  apply py_lift_inv_world in H as ([] & Hchunk & H).
  rewrite Hchunk, (py_bind_lift_Ok _ _ _ tt eq_refl).
  match goal with
  | |- context [cycle _ _ ?a ?b ?c ?d ?e ?f ?g ?h ?i ?j ?k None] =>
      pose proof (cycle_time_loop a b c d e f g h i j k None w) as Hsame;
      pose proof (cycle_unbinds a b c d e f g h i j k None w) as Hnone
  end.
  rewrite H in Hsame. destruct Hsame as [out Hcycle].
  destruct (Hnone _ _ Hcycle) as [-> | ->];
    rewrite (py_bind_Ok _ _ _ _ _ Hcycle);
    unfold mbind, py_bind, mret, py_ret, lift; simpl;
    by case_bool_decide.
Qed.

End AfterCycle.

(** X24.  [prep_ngen_data] never returns.  Every pass of the primary
    cycle deletes [data_array], [dfs], [filenames] and their companions,
    because ["tar"] is in none of the storage types ["s3"], ["google"]
    and ["local"]; the run metadata then reads [data_array], the tar step
    reads [dfs], and without a tar step the statement that follows reads
    the timer [t0000] that only the tar step sets.  This holds for every
    configuration and whatever the input stores hold. *)
Theorem prep_ngen_data_never_returns
    (xr_open_dataset : file_obj → result nwm_dataset) (fuel : nat)
    (file_size : file_obj → result Z)
    (write_metadata : list (list (list Q)) → result (list string) → py unit)
    (write_tars : list (list (string * list Q)) → list (string * list string)
                  → list string → py unit)
    (finish : py unit)
    (weight_files : list (string * list (string * (list Z * list Q))))
    (nwm_forcing_files : list string) (output_path : string)
    (output_file_type : list string) (nprocs nfile_chunk : nat)
    (ii_collect_stats : bool) (w : world) :
  fails (prep_ngen_data_run xr_open_dataset fuel file_size write_metadata
           write_tars finish weight_files nwm_forcing_files output_path
           output_file_type nprocs nfile_chunk ii_collect_stats w).2 = true.
Proof. apply prep_ngen_data_run_fails. Qed.

(** X25.  When the primary cycle has run to its end and the statistics
    are switched off, the run stops there with [UnboundLocalError]: the
    tables of every chunk are written, and the world is the one the cycle
    left. *)
Theorem tables_written_then_unbound_local
    (xr_open_dataset : file_obj → result nwm_dataset) (fuel : nat)
    (file_size : file_obj → result Z)
    (write_metadata : list (list (list Q)) → result (list string) → py unit)
    (write_tars : list (list (string * list Q)) → list (string * list string)
                  → list string → py unit)
    (finish : py unit)
    (weight_files : list (string * list (string * (list Z * list Q))))
    (nwm_forcing_files : list string) (output_path : string)
    (output_file_type : list string) (nprocs nfile_chunk : nat) (w w' : world) :
  prep_ngen_data xr_open_dataset fuel weight_files nwm_forcing_files output_path
    output_file_type nprocs nfile_chunk w = (w', Ok tt) →
  prep_ngen_data_run xr_open_dataset fuel file_size write_metadata write_tars
    finish weight_files nwm_forcing_files output_path output_file_type nprocs
    nfile_chunk false w = (w', Raise UnboundLocalError).
Proof. apply prep_ngen_data_run_after_cycle. Qed.

Lemma tables_written_then_unbound_local_witness :
  let w' := (prep_ngen_data s_store 1 [("weights.json", s1_crosswalk)] s_files
               "/out" ["csv"; "tar"] 2 2 empty_world).1 in
  prep_ngen_data_run s_store 1 (λ _, Ok 0) (λ _ _, mret tt) (λ _ _ _, mret tt)
    (mret tt) [("weights.json", s1_crosswalk)] s_files "/out" ["csv"; "tar"] 2 2
    false empty_world = (w', Raise UnboundLocalError).
Proof.
  intros w'.
  apply (tables_written_then_unbound_local s_store 1 (λ _, Ok 0) (λ _ _, mret tt)
           (λ _ _ _, mret tt) (mret tt) [("weights.json", s1_crosswalk)] s_files
           "/out" ["csv"; "tar"] 2 2 empty_world w').
  vm_compute. reflexivity.
Defined.

(* --------------------------------------------------------------------- *)
(** ** Tar bundles                                                        *)
(* --------------------------------------------------------------------- *)

Lemma py_slice_nat {A} (l : list A) (s n : nat) :
  py_slice (Z.of_nat s) (Z.of_nat s + Z.of_nat n) l = take n (drop s l).
Proof.
  rewrite <- py_slice_take_drop. unfold py_slice, py_bound.
  replace (Z.of_nat s <? 0) with false by (symmetry; apply Z.ltb_ge; lia).
  replace (Z.of_nat s + Z.of_nat n <? 0) with false
    by (symmetry; apply Z.ltb_ge; lia).
  replace ((Z.of_nat s + Z.of_nat n) `min` Z.of_nat (length l) <? 0)
    with false by (symmetry; apply Z.ltb_ge; lia).
  f_equal. lia.
Qed.

Lemma tar_members_seq (fmt : table_format) (dfs : list (list (string * list Q)))
    (names : list string) (m : nat) :
  ∀ s : nat,
    (s + m ≤ length dfs)%nat → (s + m ≤ length names)%nat →
    tar_members fmt dfs names (seq s m)
    = (zip_with (λ jfilename jdf, (jfilename, fmt, jdf))
         (take m (drop s names)) (take m (drop s dfs)), Ok tt).
Proof.
  induction m as [|m IH]; intros s Hd Hn; [done|].
  cbn [seq tar_members].
  destruct (lookup_lt_is_Some_2 dfs s ltac:(lia)) as [jdf Hjdf].
  destruct (lookup_lt_is_Some_2 names s ltac:(lia)) as [jfilename Hname].
  rewrite (py_get_lookup _ _ _ Hjdf), (py_get_lookup _ _ _ Hname).
  rewrite (IH (S s)) by lia. cbn [fst snd].
  rewrite (drop_S _ _ _ Hjdf), (drop_S _ _ _ Hname). done.
Qed.

Section Bundles.

Context (output_file_type : list string) (forcing_path : string).

Local Abbreviation fmt :=
  (if bool_decide ("parquet" ∈ output_file_type) then Parquet else Csv).

Lemma write_tar_group (dfs : list (list (string * list Q))) (jchunk : string)
    (members : list string) :
  (length members ≤ length dfs)%nat →
  write_tar output_file_type Local forcing_path dfs jchunk members
    ((λ c, c +:+ ".csv") <$> members)
  = ([(TarFile (forcing_path +:+ "/" +:+ jchunk +:+ "_forcings.tar.gz"),
       zip_with (λ c df, (c +:+ ".csv", fmt, df)) members
         (take (length members) dfs))], Ok tt).
Proof.
  intros Hlen. unfold write_tar. cbv zeta.
  rewrite tar_members_seq by (rewrite ?length_fmap; lia).
  cbn [fst snd]. rewrite !drop_0.
  rewrite (take_ge ((λ c, c +:+ ".csv") <$> members)) by (by rewrite length_fmap).
  do 3 f_equal. clear Hlen.
  generalize (take (length members) dfs). clear.
  induction members as [|c members IH]; intros [|df l]; simpl; [done..|].
  by rewrite IH.
Qed.

Lemma tars_from (catchments : list (string * list string)) :
  ∀ (off : nat) (all_dfs : list (list (string * list Q))) (all_names : list string),
    drop off all_names = (λ c, c +:+ ".csv") <$> concat (snd <$> catchments) →
    (length (concat (snd <$> catchments)) ≤ length (drop off all_dfs))%nat →
    ∃ calls,
      tar_groups all_dfs all_names catchments (Z.of_nat off) = Ok calls
      ∧ run_tars output_file_type Local forcing_path calls
        = (tar_bundles fmt forcing_path catchments (drop off all_dfs), Ok tt).
Proof.
  induction catchments as [|[jchunk members] catchments IH];
    intros off all_dfs all_names Hnames Hdfs.
  - by exists [].
  - rewrite fmap_cons in Hnames, Hdfs. cbn [concat snd] in Hnames, Hdfs.
    rewrite fmap_app in Hnames. rewrite length_app in Hdfs.
    cbn [tar_groups]. cbv zeta. rewrite !py_slice_nat.
    assert (take (length members) (drop off all_names)
            = (λ c, c +:+ ".csv") <$> members) as Htake.
    { rewrite Hnames. rewrite take_app_length'; [done | by rewrite length_fmap]. }
    rewrite Htake.
    rewrite (res_mapM_all_Ok _ (λ _, tt)); last first.
    { intros [j name] Hin. apply list_elem_of_lookup in Hin as [i Hi].
      rewrite list_lookup_imap in Hi.
      destruct (((λ c, c +:+ ".csv") <$> members) !! i) as [y|] eqn:Hy; [|done].
      injection Hi as <- <-.
      rewrite list_lookup_fmap in Hy.
      destruct (members !! i) as [c|] eqn:Hc; [|done]. injection Hy as <-.
      cbn [fst snd]. rewrite (py_get_lookup _ _ _ Hc).
      cbn [mbind result_bind]. by rewrite String.eqb_refl. }
    cbn [mbind result_bind].
    destruct (IH (off + length members)%nat all_dfs all_names) as (calls & Hcalls & Hrun).
    { rewrite <- drop_drop, Hnames.
      rewrite drop_app_length'; [done | by rewrite length_fmap]. }
    { rewrite <- drop_drop, length_drop. lia. }
    rewrite <- Nat2Z.inj_add, Hcalls. cbn [mbind result_bind].
    eexists. split; [reflexivity|].
    cbn [run_tars fst snd]. rewrite write_tar_group; last first.
    { rewrite length_take. lia. }
    cbn [fst snd]. rewrite Hrun. cbn [fst snd app tar_bundles].
    rewrite take_take, Nat.min_id, drop_drop. done.
Qed.

End Bundles.

(** X26.  Tar bundles on the file system.  When the file names are
    those of the groups' members, each followed by [".csv"], and there
    is a frame for every member, [multiprocess_write_tars] writes one
    archive per group, [<group>_forcings.tar.gz] under the forcing path,
    and the archive of a group holds the frames of its members, in
    order, each under its file name. *)
Theorem tars_hold_their_groups (output_file_type : list string)
    (forcing_path : string) (nprocs : nat)
    (dfs : list (list (string * list Q)))
    (catchments : list (string * list string)) :
  catchments ≠ [] → (1 ≤ nprocs)%nat →
  length dfs = length (concat (snd <$> catchments)) →
  multiprocess_write_tars output_file_type Local forcing_path nprocs dfs
    catchments ((λ c, c +:+ ".csv") <$> concat (snd <$> catchments))
  = (tar_bundles
       (if bool_decide ("parquet" ∈ output_file_type) then Parquet else Csv)
       forcing_path catchments dfs, Ok tt).
Proof.
  intros Hne Hprocs Hlen. unfold multiprocess_write_tars.
  destruct (tars_from output_file_type forcing_path catchments 0 dfs
              ((λ c, c +:+ ".csv") <$> concat (snd <$> catchments)))
    as (calls & Hcalls & Hrun); [done | rewrite drop_0; lia |].
  change (Z.of_nat 0) with 0 in Hcalls. rewrite Hcalls.
  destruct (length catchments `min` nprocs =? 0)%nat eqn:E.
  - apply Nat.eqb_eq in E. destruct catchments; [done|].
    cbn [length] in E. lia.
  - by rewrite Hrun, drop_0.
Qed.

Lemma tars_hold_their_groups_witness :
  multiprocess_write_tars ["csv"; "tar"] Local "/out/forcings" 2
    [[("t0", [1%Q])]; [("t0", [2%Q])]; [("t0", [3%Q])]]
    [("VPU_01", ["cat-1"; "cat-2"]); ("VPU_02", ["cat-3"])]
    ["cat-1.csv"; "cat-2.csv"; "cat-3.csv"]
  = ([(TarFile "/out/forcings/VPU_01_forcings.tar.gz",
       [("cat-1.csv", Csv, [("t0", [1%Q])]); ("cat-2.csv", Csv, [("t0", [2%Q])])]);
      (TarFile "/out/forcings/VPU_02_forcings.tar.gz",
       [("cat-3.csv", Csv, [("t0", [3%Q])])])], Ok tt).
Proof.
  apply (tars_hold_their_groups ["csv"; "tar"] "/out/forcings" 2
           [[("t0", [1%Q])]; [("t0", [2%Q])]; [("t0", [3%Q])]]
           [("VPU_01", ["cat-1"; "cat-2"]); ("VPU_02", ["cat-3"])]).
  - done.
  - lia.
  - reflexivity.
Defined.

(** X27.  Tar bundles of parquet tables cannot be written.  The
    assertion of [multiprocess_write_tars] compares each file name with
    the member followed by [".csv"], and a name that ends in
    [".parquet"] never passes: with such names for a first group that
    has a member, the call raises [AssertionError] before any archive is
    written. *)
Theorem parquet_names_fail_the_tar_assertion (output_file_type : list string)
    (storage_type : storage) (forcing_path : string) (nprocs : nat)
    (dfs : list (list (string * list Q))) (jchunk c : string)
    (members : list string) (catchments : list (string * list string))
    (stem : string) (filenames : list string) :
  multiprocess_write_tars output_file_type storage_type forcing_path nprocs dfs
    ((jchunk, c :: members) :: catchments) ((stem +:+ ".parquet") :: filenames)
  = ([], Raise AssertionError).
Proof.
  unfold multiprocess_write_tars. cbn [tar_groups]. cbv zeta.
  change 0 with (Z.of_nat 0).
  rewrite !py_slice_nat, !drop_0. cbn [length take imap res_mapM fst snd].
  change (py_get (c :: members) 0) with (Ok c : result string).
  cbn [mbind result_bind].
  assert (String.eqb (stem +:+ ".parquet") (c +:+ ".csv") = false) as ->; [|done].
  apply String.eqb_neq. intros H.
  change (stem +:+ ".parquet") with (stem +:+ ".parque" +:+ String "t" "") in H.
  change (c +:+ ".csv") with (c +:+ ".cs" +:+ String "v" "") in H.
  by apply str_app_last_char in H.
Qed.

(* --------------------------------------------------------------------- *)
(** ** The decoder keeps the fields                                       *)
(* --------------------------------------------------------------------- *)

(** X28.  On a file that has every input variable on the grid of
    [U2D], the decoder returns one row per output variable, and the row
    at the place of an input variable other than RAINRATE is the field
    of that variable, unchanged. *)
Theorem decode_keeps_the_fields (nwm_data : nwm_dataset) :
  (∀ jvar, jvar ∈ nwm_variables →
           ∃ field, ds_vars nwm_data !! jvar = Some field
                    ∧ length field = (ds_y nwm_data * ds_x nwm_data)%nat) →
  ∃ data_allvars,
    decode nwm_data = Ok data_allvars
    ∧ length data_allvars = length ngen_variables
    ∧ ∀ var_dx jvar field,
        nwm_variables !! var_dx = Some jvar → jvar ≠ "RAINRATE" →
        ds_vars nwm_data !! jvar = Some field →
        data_allvars !! var_dx = Some field.
Proof.
  intros Hall.
  set (g := λ jvar : string,
         let field := default [] (ds_vars nwm_data !! jvar) in
         if String.eqb jvar "RAINRATE" then map (Qmult 3600) field else field).
  assert (decode nwm_data = Ok (map g nwm_variables)) as Hdecode.
  { unfold decode.
    destruct (Hall "U2D" ltac:(by left)) as (u & -> & _).
    apply res_mapM_all_Ok. intros jvar Hin.
    destruct (Hall jvar Hin) as (field & Hfield & Hlen).
    unfold g. rewrite Hfield, Hlen, Nat.eqb_refl. done. }
  exists (map g nwm_variables). split; [done|]. split; [by rewrite length_map|].
  intros var_dx jvar field Hvar Hne Hfield.
  change (map g nwm_variables) with (g <$> nwm_variables).
  rewrite list_lookup_fmap, Hvar. cbn [fmap option_fmap option_map].
  unfold g. rewrite Hfield. cbn [default].
  by destruct (String.eqb_spec jvar "RAINRATE").
Qed.

Lemma decode_keeps_the_fields_witness :
  ∃ data_allvars,
    decode (s_dataset "20230101_0000" 1) = Ok data_allvars
    ∧ length data_allvars = length ngen_variables
    ∧ ∀ var_dx jvar field,
        nwm_variables !! var_dx = Some jvar → jvar ≠ "RAINRATE" →
        ds_vars (s_dataset "20230101_0000" 1) !! jvar = Some field →
        data_allvars !! var_dx = Some field.
Proof.
  apply (decode_keeps_the_fields (s_dataset "20230101_0000" 1)).
  intros jvar Hin. unfold nwm_variables in Hin.
  repeat (apply elem_of_cons in Hin as [-> | Hin];
          [eexists; split; [vm_compute; reflexivity | reflexivity]|]).
  by apply elem_of_nil in Hin.
Defined.

(* --------------------------------------------------------------------- *)
(** ** Emission when neither csv nor parquet is named                     *)
(* --------------------------------------------------------------------- *)

(** From [w] to [w'] the buckets are unchanged, and so is every local
    file whose name does not end in [".zip"]. *)
Lemma only_zip_refl (w : world) :
  s3_objects w = s3_objects w
  ∧ ∀ k, (∀ stem, k ≠ stem +:+ ".zip") → local_files w !! k = local_files w !! k.
Proof. done. Qed.

Section NoFormat.

Context (output_file_type : list string) (storage_type : storage) (fuel : nat).

Hypothesis no_format :
  named output_file_type "parquet" || named output_file_type "csv" = false.

Let R (w w' : world) : Prop :=
  s3_objects w' = s3_objects w
  ∧ ∀ k, (∀ stem, k ≠ stem +:+ ".zip") → local_files w' !! k = local_files w !! k.

Lemma only_zip_trans w1 w2 w3 : R w1 w2 → R w2 w3 → R w1 w3.
Proof.
  intros [Hs1 Hl1] [Hs2 Hl2]. split; [congruence|].
  intros k Hk. by rewrite Hl2, Hl1.
Qed.

Lemma emit_no_format out_path ii_append cat_id df filename w :
  emit output_file_type storage_type out_path ii_append cat_id df filename w
  = (w, Ok (df, "./cat-" +:+ cat_id +:+ ".csv")).
Proof. unfold emit. by rewrite no_format. Qed.

Lemma measure_sizes_scratch cat_id df :
  preserves R (measure_sizes cat_id df ("./cat-" +:+ cat_id +:+ ".csv")).
Proof.
  intros w.
  assert (re_sub_zip ("./cat-" +:+ cat_id +:+ ".csv") = ("./cat-" +:+ cat_id) +:+ ".zip")
    as Hzip.
  { rewrite <- (re_sub_zip_ext ("./cat-" +:+ cat_id) "csv") by done.
    by rewrite !str_app_assoc. }
  unfold measure_sizes, mbind, py_bind, path_exists.
  case_bool_decide as Hthere; cbn beta iota.
  - unfold mret, py_ret, write_local, remove_local, set_local. cbn.
    rewrite Hzip.
    rewrite lookup_insert_eq. cbn. split; [done|].
    intros k Hk. cbn [local_files].
    rewrite lookup_delete_ne by (intros <-; by apply (Hk ("./cat-" +:+ cat_id))).
    rewrite lookup_insert_ne by (intros <-; by apply (Hk ("./cat-" +:+ cat_id))).
    done.
  - unfold mret, py_ret, write_local, remove_local, set_local. cbn.
    rewrite lookup_insert_eq. cbn. rewrite Hzip.
    rewrite lookup_insert_eq. cbn.
    split; [done|]. intros k Hk. cbn [local_files].
    rewrite lookup_delete_ne by (intros <-; by apply (Hk ("./cat-" +:+ cat_id))).
    rewrite lookup_insert_ne by (intros <-; by apply (Hk ("./cat-" +:+ cat_id))).
    destruct (decide (k = "./cat-" +:+ cat_id +:+ ".csv")) as [-> | Hne].
    + rewrite lookup_delete_eq. symmetry.
      apply eq_None_not_Some. exact Hthere.
    + rewrite lookup_delete_ne by done. by rewrite lookup_insert_ne.
Qed.

Lemma write_loop_no_format data t_ax out_path ii_append catchments :
  ∀ j filename,
    preserves R (write_loop output_file_type storage_type data t_ax out_path
                   ii_append j catchments filename).
Proof.
  induction catchments as [|jcatch catchments IH]; intros j filename.
  - intros w. apply only_zip_refl.
  - cbn [write_loop].
    apply (preserves_bind_lift R only_zip_refl). intros df _.
    apply (preserves_bind_lift R only_zip_refl). intros cat_id _.
    intros w. unfold mbind at 1, py_bind at 1. rewrite emit_no_format.
    cbn [fst snd]. revert w. change (preserves R
      ((if (j =? 0)%nat
        then measure_sizes cat_id df ("./cat-" +:+ cat_id +:+ ".csv")
        else mret ("./cat-" +:+ cat_id +:+ ".csv"))
       ≫= λ filename0,
            write_loop output_file_type storage_type data t_ax out_path ii_append
              (S j) catchments filename0
            ≫= λ r, mret (cat_id :: r.1.1, df :: r.1.2,
                          path_name ("./cat-" +:+ cat_id +:+ ".csv") :: r.2))).
    apply (preserves_bind R only_zip_trans).
    + destruct (j =? 0)%nat;
        [apply measure_sizes_scratch | apply (preserves_ret R only_zip_refl)].
    + intros filename0. apply (preserves_bind R only_zip_trans); [apply IH|].
      intros r. apply (preserves_ret R only_zip_refl).
Qed.

Lemma multiprocess_write_no_format data t_ax catchments nprocs out_path ii_append :
  preserves R (multiprocess_write output_file_type storage_type fuel data t_ax
                 catchments nprocs out_path ii_append).
Proof.
  unfold multiprocess_write.
  do 4 (apply (preserves_bind_lift R only_zip_refl); intros ? _).
  apply (preserves_bind R only_zip_trans);
    [|intros results; apply (preserves_ret R only_zip_refl)].
  apply (preserves_mapM R only_zip_refl only_zip_trans). intros wk _.
  unfold write_data.
  apply (preserves_bind R only_zip_trans).
  { destruct (decide (storage_type = S3));
      [apply (preserves_lift R only_zip_refl) | apply (preserves_ret R only_zip_refl)]. }
  intros _. apply (preserves_bind R only_zip_trans); [apply write_loop_no_format|].
  intros r. apply (preserves_bind_lift R only_zip_refl). intros _ _.
  apply (preserves_ret R only_zip_refl).
Qed.

End NoFormat.

(** X29.  When the output types name neither csv nor parquet (a run
    for tar bundles only), emission writes no table: whether it returns
    or raises, the buckets are as they were, and so is every local file
    whose name does not end in [".zip"], the extension of the scratch
    file of the size measurement. *)
Theorem no_format_named_writes_no_table
    (output_file_type : list string) (storage_type : storage) (fuel : nat)
    (data : list (list (list Q))) (t_ax : list string) (catchments : list string)
    (nprocs : nat) (out_path : string) (ii_append : bool) (w : world) :
  named output_file_type "parquet" || named output_file_type "csv" = false →
  s3_objects (multiprocess_write output_file_type storage_type fuel data t_ax
                catchments nprocs out_path ii_append w).1 = s3_objects w
  ∧ ∀ k, (∀ stem, k ≠ stem +:+ ".zip") →
         local_files (multiprocess_write output_file_type storage_type fuel data
                        t_ax catchments nprocs out_path ii_append w).1 !! k
         = local_files w !! k.
Proof.
  intros Hno.
  apply (multiprocess_write_no_format output_file_type storage_type fuel Hno).
Qed.

Lemma no_format_named_writes_no_table_witness :
  s3_objects (multiprocess_write ["tar"] Local 1 one_step ["20230101 0000"]
                ["cat-1"] 1 "/out" false empty_world).1 = s3_objects empty_world
  ∧ ∀ k, (∀ stem, k ≠ stem +:+ ".zip") →
         local_files (multiprocess_write ["tar"] Local 1 one_step ["20230101 0000"]
                        ["cat-1"] 1 "/out" false empty_world).1 !! k
         = local_files empty_world !! k.
Proof.
  apply (no_format_named_writes_no_table ["tar"] Local 1 one_step
           ["20230101 0000"] ["cat-1"] 1 "/out" false empty_world).
  reflexivity.
Defined.

(* --------------------------------------------------------------------- *)
(** ** What emission returns                                              *)
(* --------------------------------------------------------------------- *)







Section Returns.

Context (output_file_type : list string) (storage_type : storage).

Hypothesis format_named :
  named output_file_type "parquet" || named output_file_type "csv" = true.
Hypothesis store_known : storage_type ≠ Google.

Local Abbreviation cat_name :=
  (λ cat_id : string, "cat-" +:+ cat_id +:+ table_ext output_file_type).





End Returns.


